(** * get_alaskan_weather.py: a shallow embedding and its properties

    The script fetches weather, tide and marine-forecast payloads and renders
    them into fixed text templates.  The embedding follows the script function
    by function: Python exceptions are an error monad, parsed JSON is an
    inductive type, dictionaries built by the script are finite maps, and
    for-loops are structural recursions over the iterated list. *)

From Stdlib Require Import ZArith QArith Qround Ascii String.
From stdpp Require Import gmap strings list fin_maps sorting pretty.

Local Open Scope string_scope.
Local Open Scope Z_scope.

(** ** Exceptions and the error monad *)

(** The exceptions the script can raise.  [RequestException] stands for any
    failure of [requests.get]; [JSONDecodeError] for a failure of
    [json.loads]. *)
Inductive exn : Type :=
  | KeyError
  | TypeError
  | ValueError
  | OverflowError
  | IndexError
  | UnboundLocalError
  | RequestException
  | JSONDecodeError.

Inductive result (A : Type) : Type :=
  | Ok (a : A)
  | Err (e : exn).

Arguments Ok {A} a.
Arguments Err {A} e.

#[global] Instance result_ret : MRet result := fun _ a => Ok a.

#[global] Instance result_bind : MBind result := fun _ _ f m =>
  match m with
  | Ok a => f a
  | Err e => Err e
  end.

#[global] Instance result_fmap : FMap result := fun _ _ f m =>
  match m with
  | Ok a => Ok (f a)
  | Err e => Err e
  end.

Definition is_ok {A} (r : result A) : Prop := exists a, r = Ok a.
Definition is_err {A} (r : result A) : Prop := exists e, r = Err e.

(** ** Strings *)

(** The newline character of the templates. *)
Definition NL : string := String (Ascii.ascii_of_nat 10) EmptyString.

Fixpoint string_repeat (c : ascii) (n : nat) : string :=
  match n with
  | O => EmptyString
  | S n' => String c (string_repeat c n')
  end.

(** [s.ljust(width, fill)], which is what a [{:<width}] field does. *)
Definition ljust (s : string) (width : nat) (fill : ascii) : string :=
  s +:+ string_repeat fill (width - String.length s).

(** [s.rjust(width, fill)], which is what a [{:0>2d}] field does with its
    digits. *)
Definition rjust (s : string) (width : nat) (fill : ascii) : string :=
  string_repeat fill (width - String.length s) +:+ s.

(** [''.join(parts)] *)
Fixpoint join (parts : list string) : string :=
  match parts with
  | [] => EmptyString
  | p :: ps => p +:+ join ps
  end.

(** [str(n)] for an integer. *)
Definition str_int (n : Z) : string := pretty n.

(** [format(n, '0>2d')] *)
Definition fmt_02d (n : Z) : string := rjust (str_int n) 2 "0"%char.

(** [prefix p s]: does [s] start with [p]. *)
Fixpoint starts_with (p s : string) : bool :=
  match p, s with
  | EmptyString, _ => true
  | String a p', String b s' => if Ascii.eqb a b then starts_with p' s' else false
  | String _ _, EmptyString => false
  end.

(** [re.search(pattern, text)] for a pattern made of literal characters only:
    is there a position of [text] at which [pattern] starts. *)
Fixpoint re_search (pattern text : string) : bool :=
  if starts_with pattern text then true
  else match text with
       | EmptyString => false
       | String _ text' => re_search pattern text'
       end.

(** A character that stands for itself in a regular expression. *)
Definition literal_char (c : ascii) : bool :=
  let n := Ascii.nat_of_ascii c in
  ((65 <=? n)%nat && (n <=? 90)%nat) || (n =? 32)%nat.

Fixpoint literal_pattern (p : string) : bool :=
  match p with
  | EmptyString => true
  | String c p' => literal_char c && literal_pattern p'
  end.

(** [re.split('\$\$', text)]: cut [text] at the non-overlapping occurrences
    of two dollar signs, scanning from the left. *)
Fixpoint re_split (text : string) : list string :=
  match text with
  | EmptyString => [EmptyString]
  | String c rest =>
      match rest with
      | String c' rest' =>
          if Ascii.eqb c "$" && Ascii.eqb c' "$" then EmptyString :: re_split rest'
          else match re_split rest with
               | b :: bs => String c b :: bs
               | [] => [String c EmptyString]
               end
      | EmptyString => [String c EmptyString]
      end
  end.

(** The ASCII characters that [int] strips from the ends of a string. *)
Definition is_space (c : ascii) : bool :=
  let n := Ascii.nat_of_ascii c in
  ((9 <=? n)%nat && (n <=? 13)%nat) || ((28 <=? n)%nat && (n <=? 32)%nat).

Fixpoint lstrip (s : string) : string :=
  match s with
  | EmptyString => EmptyString
  | String c s' => if is_space c then lstrip s' else s
  end.

Definition strip (s : string) : string :=
  String.rev (lstrip (String.rev (lstrip s))).

Definition digit_of (c : ascii) : option Z :=
  let n := Ascii.nat_of_ascii c in
  if ((48 <=? n)%nat && (n <=? 57)%nat) then Some (Z.of_nat n - 48) else None.

(** The digits of an integer literal: decimal digits, with single
    underscores allowed between two digits. *)
Fixpoint parse_digits (s : string) (acc : Z) (after_digit : bool) : option Z :=
  match s with
  | EmptyString => if after_digit then Some acc else None
  | String c s' =>
      if Ascii.eqb c "_" then
        if after_digit then parse_digits s' acc false else None
      else
        match digit_of c with
        | Some d => parse_digits s' (10 * acc + d) true
        | None => None
        end
  end.

(** [int(s)] for a string: surrounding whitespace, an optional sign, digits. *)
Definition int_of_str (s : string) : result Z :=
  let digits :=
    match strip s with
    | String c rest =>
        if Ascii.eqb c "-" then Z.opp <$> parse_digits rest 0 false
        else if Ascii.eqb c "+" then parse_digits rest 0 false
        else parse_digits (String c rest) 0 false
    | EmptyString => None
    end in
  match digits with
  | Some n => Ok n
  | None => Err ValueError
  end.

(** [max(xs)] of a sequence of lengths; [max] of an empty sequence raises. *)
Definition py_max (xs : list nat) : result nat :=
  match xs with
  | [] => Err ValueError
  | x :: xs' => Ok (foldl Nat.max x xs')
  end.

(** [xs.index(True)] *)
Fixpoint index_true (xs : list bool) : result nat :=
  match xs with
  | [] => Err ValueError
  | true :: _ => Ok O
  | false :: xs' => S <$> index_true xs'
  end.

(** [xs[i]] for a list and a non-negative index. *)
Definition list_getitem {A} (xs : list A) (i : nat) : result A :=
  match xs !! i with
  | Some x => Ok x
  | None => Err IndexError
  end.

(** ** Dates and times *)

(** A naive [datetime.datetime] as the script builds it: the seconds and
    microseconds are never given, so they are zero. *)
Record datetime : Type := Datetime {
  dt_year : Z;
  dt_month : Z;
  dt_day : Z;
  dt_hour : Z;
  dt_minute : Z
}.

#[global] Instance datetime_eq_dec : EqDecision datetime.
Proof. solve_decision. Defined.

#[global] Instance datetime_countable : Countable datetime :=
  inj_countable'
    (fun t => (dt_year t, dt_month t, dt_day t, dt_hour t, dt_minute t))
    (fun '(y, mo, d, h, mi) => Datetime y mo d h mi)
    (fun t => match t with Datetime _ _ _ _ _ => eq_refl end).

Definition _DAYS_IN_MONTH : list Z :=
  [-1; 31; 28; 31; 30; 31; 30; 31; 31; 30; 31; 30; 31].

Definition _DAYS_BEFORE_MONTH : list Z :=
  [-1; 0; 31; 59; 90; 120; 151; 181; 212; 243; 273; 304; 334].

Definition _is_leap (year : Z) : bool :=
  (year mod 4 =? 0) && (negb (year mod 100 =? 0) || (year mod 400 =? 0)).

Definition _days_before_year (year : Z) : Z :=
  let y := year - 1 in
  y * 365 + y / 4 - y / 100 + y / 400.

Definition _days_in_month (year month : Z) : Z :=
  if (month =? 2) && _is_leap year then 29
  else nth (Z.to_nat month) _DAYS_IN_MONTH (-1).

Definition _days_before_month (year month : Z) : Z :=
  nth (Z.to_nat month) _DAYS_BEFORE_MONTH (-1)
  + (if (2 <? month) && _is_leap year then 1 else 0).

Definition _ymd2ord (year month day : Z) : Z :=
  _days_before_year year + _days_before_month year month + day.

Definition fits_c_int (n : Z) : bool := (- 2 ^ 31 <=? n) && (n <? 2 ^ 31).

Definition in_range (lo hi n : Z) : bool := (lo <=? n) && (n <=? hi).

(** [datetime.datetime(year, month, day, hour, minute)]: the arguments are
    converted to C integers, then the date fields and the time fields are
    range-checked. *)
Definition datetime_datetime (year month day hour minute : Z) : result datetime :=
  if negb (forallb fits_c_int [year; month; day; hour; minute]) then Err OverflowError
  else if negb (in_range 1 9999 year) then Err ValueError
  else if negb (in_range 1 12 month) then Err ValueError
  else if negb (in_range 1 (_days_in_month year month) day) then Err ValueError
  else if negb (in_range 0 23 hour) then Err ValueError
  else if negb (in_range 0 59 minute) then Err ValueError
  else Ok (Datetime year month day hour minute).

Definition toordinal (t : datetime) : Z :=
  _ymd2ord (dt_year t) (dt_month t) (dt_day t).

(** A [datetime.timedelta], normalised as Python keeps it. *)
Record timedelta : Type := Timedelta {
  td_days : Z;
  td_seconds : Z
}.

Definition timedelta_new (days seconds : Z) : timedelta :=
  Timedelta (days + seconds / 86400) (seconds mod 86400).

(** [a - b] for two naive datetimes. *)
Definition datetime_sub (a b : datetime) : timedelta :=
  let secs1 := dt_minute a * 60 + dt_hour a * 3600 in
  let secs2 := dt_minute b * 60 + dt_hour b * 3600 in
  timedelta_new (toordinal a - toordinal b) (secs1 - secs2).

(** [delta.total_seconds()].  The result is a float in Python; it is carried
    here as the rational it denotes, and the float operations on it below
    are the exact ones, which is what they are on whole numbers of this
    size. *)
Definition total_seconds (delta : timedelta) : Q :=
  inject_Z (td_days delta * 86400 + td_seconds delta).

(** [int(x)] for a float: truncation towards zero. *)
Definition int_of_float (x : Q) : Z :=
  if Qle_bool 0 x then Qfloor x else Qceiling x.

(** [x % y] for floats: the remainder takes the sign of the divisor. *)
Definition float_mod (x y : Q) : Q :=
  (x - y * inject_Z (Qfloor (x / y)))%Q.

Definition _get_total_daylight_hours_and_minutes (datetime_delta : timedelta) : Z * Z :=
  let daylight_raw_minutes := (total_seconds datetime_delta / 60)%Q in
  let daylight_hours := int_of_float (daylight_raw_minutes / 60)%Q in
  let daylight_minutes := int_of_float (float_mod daylight_raw_minutes 60) in
  (daylight_hours, daylight_minutes).

(** The order of datetimes: field by field, the year first. *)
Definition datetime_lt (a b : datetime) : Prop :=
  dt_year a < dt_year b \/ (dt_year a = dt_year b /\
  (dt_month a < dt_month b \/ (dt_month a = dt_month b /\
  (dt_day a < dt_day b \/ (dt_day a = dt_day b /\
  (dt_hour a < dt_hour b \/ (dt_hour a = dt_hour b /\
   dt_minute a < dt_minute b))))))).

Definition datetime_le (a b : datetime) : Prop :=
  datetime_lt a b \/ a = b.

#[global] Instance datetime_lt_dec : RelDecision datetime_lt.
Proof. intros a b. unfold datetime_lt. apply _. Defined.

#[global] Instance datetime_le_dec : RelDecision datetime_le.
Proof. intros a b. unfold datetime_le. apply _. Defined.

(** ** The script's constants *)

Definition _URL_WU_API_BASE (key feature query : string) : string :=
  "http://api.wunderground.com/api/" +:+ key +:+ "/" +:+ feature +:+ "/q/"
  +:+ query +:+ ".json".

Definition _URL_MARINE_FORECAST : string :=
  "http://tgftp.nws.noaa.gov/data/raw/fz/fzak51.pafc.cwf.aer.txt".

Definition _LATLONS : gmap string string :=
  list_to_map [
    ("anchor_point", "59.7775,-151.7702");
    ("anchorage", "61.2167,-149.9000");
    ("cooper_landing", "60.4905,-149.7944");
    ("homer", "59.6425,-152.5483");
    ("kachemak_bay_seldovia", "59.4394,-151.7122");
    ("kenai", "60.5586,-151.2297");
    ("kenai_river", "60.5439,-151.2786");
    ("nanwalek", "59.3536,-151.9125");
    ("ninilchik", "60.04638,-151.6672");
    ("port_graham", "59.3477,-151.8333");
    ("soldotna", "60.4866,-151.07527");
    ("western_kenai_peninsula", "59.8861,-151.6338")
  ].

Definition _ORDER_CURRENT_TEMPERATURE : list (string * string) := [
  ("homer", "Homer");
  ("anchor_point", "Anchor Point");
  ("ninilchik", "Ninilchik");
  ("kachemak_bay_seldovia", "Seldovia");
  ("port_graham", "Port Graham");
  ("nanwalek", "Nanwalek");
  ("kenai", "Kenai");
  ("soldotna", "Soldotna");
  ("cooper_landing", "Cooper Landing");
  ("anchorage", "Anchorage")
].

Definition _ORDER_FORECAST : list (string * string) := [
  ("western_kenai_peninsula", "Western Kenai Peninsula");
  ("anchorage", "Anchorage")
].

Definition _ORDER_MARINE_FORECAST : list string := [
  "KACHEMAK BAY";
  "COOK INLET NORTH OF KALGIN ISLAND";
  "COOK INLET KALGIN ISLAND TO POINT BEDE";
  "SHELIKOF STRAIT";
  "BARREN ISLANDS EAST";
  "WEST OF BARREN ISLANDS INCLUDING KAMISHAK BAY";
  "CAPE CLEARE TO GORE POINT"
].

Definition _KEY_SUNRISE : string := "Sunrise".
Definition _KEY_SUNSET : string := "Sunset".
Definition _KEY_TIDE_HIGH : string := "High Tide".
Definition _KEY_TIDE_LOW : string := "Low Tide".
Definition _KEY_HOUR : string := "hour".
Definition _KEY_MINUTE : string := "minute".
Definition _KEY_TIDE_HEIGHT : string := "height".

(** ** The templates, each as the function its [format] call computes *)

Definition _STRING_DAYLIGHT
    (month day sunrise_hour sunrise_minute sunset_hour sunset_minute
     total_hours total_minutes : Z) : string :=
  NL +:+ "Daylight " +:+ fmt_02d month +:+ "/" +:+ fmt_02d day +:+ NL
  +:+ "  Sunrise:  " +:+ fmt_02d sunrise_hour +:+ ":" +:+ fmt_02d sunrise_minute +:+ NL
  +:+ "  Sunset:   " +:+ fmt_02d sunset_hour +:+ ":" +:+ fmt_02d sunset_minute +:+ NL
  +:+ "  Total:    " +:+ str_int total_hours +:+ " hours and "
  +:+ str_int total_minutes +:+ " minutes" +:+ NL +:+ NL.

(** [_STRING_TIDES.format] applied to the unpacked dictionary: the two named
    fields are looked up in it. *)
Definition _STRING_TIDES (tide_string_details : gmap string string) : result string :=
  match tide_string_details !! "kachemak_bay_seldovia_detail",
        tide_string_details !! "kenai_river_detail" with
  | Some kachemak_bay_seldovia_detail, Some kenai_river_detail =>
      Ok (NL +:+ "Tides" +:+ NL
          +:+ "  Kachemak Bay, Seldovia" +:+ NL
          +:+ kachemak_bay_seldovia_detail +:+ NL
          +:+ "  Kenai River" +:+ NL
          +:+ kenai_river_detail +:+ NL)
  | _, _ => Err KeyError
  end.

Definition _STRING_TIDES_DETAIL
    (month day : Z)
    (high_hour high_minute high_height low_hour low_minute low_height : string)
    : string :=
  "    " +:+ fmt_02d month +:+ "/" +:+ fmt_02d day +:+ NL
  +:+ "      High tide:  " +:+ high_hour +:+ ":" +:+ high_minute
  +:+ " (" +:+ high_height +:+ ")" +:+ NL
  +:+ "      Low tide:   " +:+ low_hour +:+ ":" +:+ low_minute
  +:+ " (" +:+ low_height +:+ ")" +:+ NL.

Definition _STRING_CURRENT_TEMPERATURE (current_temperature_detail : string) : string :=
  NL +:+ "Current temperature" +:+ NL +:+ current_temperature_detail +:+ NL.

(** The city field is [{city:<{padding}s}]; [temperature] is the text the
    [{temperature:.0f}] field produced. *)
Definition _STRING_CURRENT_TEMPERATURE_DETAIL
    (city : string) (padding : nat) (temperature : string) : string :=
  "  " +:+ ljust city padding " "%char +:+ "  " +:+ temperature +:+ NL.

Definition _STRING_FORECAST (location_details : gmap string string) : result string :=
  match location_details !! "western_kenai_peninsula_detail",
        location_details !! "anchorage_detail" with
  | Some western_kenai_peninsula_detail, Some anchorage_detail =>
      Ok (NL +:+ "Forecast" +:+ NL
          +:+ "  Western Kenai Peninsula" +:+ NL
          +:+ western_kenai_peninsula_detail +:+ NL
          +:+ "  Anchorage" +:+ NL
          +:+ anchorage_detail +:+ NL)
  | _, _ => Err KeyError
  end.

Definition _STRING_FORECAST_DETAIL (title forecast : string) : string :=
  "    " +:+ title +:+ ":  " +:+ forecast +:+ NL.

(** Payloads without floats: the float type is empty, and the operations on
    floats have nothing to do. *)
Definition no_float : Type := Empty_set.
Definition no_float_eq_int (x : no_float) (n : Z) : bool := match x with end.
Definition no_float_int (x : no_float) : result Z := match x with end.
Definition no_float_str (x : no_float) : string := match x with end.

(** ** Parsed JSON and the Python operations on it *)

Section Script.

Set Default Proof Using "Type".

(** Floating-point numbers are not embedded: a float of a payload is a value
    of an abstract type, and the built-in operations the script applies to
    floats are taken as they are. *)
Variable pyfloat : Type.

#[local] Set Warnings "-register-all".

(** What [json.loads] returns.  A dictionary is the list of its items; a
    lookup finds the first item with the key. *)
Inductive json : Type :=
  | JNull
  | JBool (b : bool)
  | JInt (n : Z)
  | JFloat (x : pyfloat)
  | JStr (s : string)
  | JList (items : list json)
  | JDict (items : list (string * json)).

(** [x == n] for a float [x] and an integer [n]. *)
Variable float_eq_int : pyfloat -> Z -> bool.
(** [int(x)] for a float; infinities and NaNs raise. *)
Variable float_int : pyfloat -> result Z.
(** [str(x)] for a float. *)
Variable float_str : pyfloat -> string.
(** [str(x)] for a list or a dictionary. *)
Variable container_str : json -> string.
(** [format(x, '.0f')], which raises on what is not a number. *)
Variable format_f0 : json -> result string.

(** The API key: the script reads the global [_KEY], which it never
    defines; it is a parameter here. *)
Variable _KEY : string.
(** [requests.get(url).text] *)
Variable requests_get_text : string -> result string.
(** [json.loads(text)] *)
Variable json_loads : string -> result json.
(** The clock: the year, month and day of tomorrow in Alaska. *)
Variable _get_tomorrow_datetime_in_alaska_tz : Z * Z * Z.

Fixpoint assoc (items : list (string * json)) (key : string) : option json :=
  match items with
  | [] => None
  | (k, v) :: items' => if String.eqb k key then Some v else assoc items' key
  end.

(** [obj[key]] for a string key. *)
Definition getitem (obj : json) (key : string) : result json :=
  match obj with
  | JDict items =>
      match assoc items key with
      | Some v => Ok v
      | None => Err KeyError
      end
  | _ => Err TypeError
  end.

Fixpoint chars (s : string) : list json :=
  match s with
  | EmptyString => []
  | String c s' => JStr (String c EmptyString) :: chars s'
  end.

(** The items a [for] loop over [obj] visits: the elements of a list, the
    keys of a dictionary, the characters of a string. *)
Definition py_iter (obj : json) : result (list json) :=
  match obj with
  | JList items => Ok items
  | JDict items => Ok (map (fun kv => JStr (fst kv)) items)
  | JStr s => Ok (chars s)
  | _ => Err TypeError
  end.

(** [obj == n] for an integer [n]. *)
Definition py_eq_int (obj : json) (n : Z) : bool :=
  match obj with
  | JInt m => m =? n
  | JBool b => (if b then 1 else 0) =? n
  | JFloat x => float_eq_int x n
  | _ => false
  end.

(** [obj == s] for a string [s]. *)
Definition py_eq_str (obj : json) (s : string) : bool :=
  match obj with
  | JStr t => String.eqb t s
  | _ => false
  end.

(** [int(obj)] *)
Definition py_int (obj : json) : result Z :=
  match obj with
  | JInt n => Ok n
  | JBool b => Ok (if b then 1 else 0)
  | JFloat x => float_int x
  | JStr s => int_of_str s
  | _ => Err TypeError
  end.

(** [str(obj)], which is what a [{name}] field of a template produces. *)
Definition py_str (obj : json) : string :=
  match obj with
  | JNull => "None"
  | JBool b => if b then "True" else "False"
  | JInt n => str_int n
  | JFloat x => float_str x
  | JStr s => s
  | JList _ | JDict _ => container_str obj
  end.

(** A [for] loop whose body neither breaks nor returns: the body maps the
    state before an item to the state after it, or raises. *)
Fixpoint for_each {S A : Type} (body : S -> A -> result S) (items : list A) (s : S)
    : result S :=
  match items with
  | [] => Ok s
  | x :: items' => s' ← body s x; for_each body items' s'
  end.

(** ** Fetching *)

Definition latlon (key_location : string) : result string :=
  match _LATLONS !! key_location with
  | Some query => Ok query
  | None => Err KeyError
  end.

Definition _get_tide_data_from_weather_underground (key_location : string) : result json :=
  query ← latlon key_location;
  let url := _URL_WU_API_BASE _KEY "tide" query in
  text ← requests_get_text url;
  json_loads text.

Definition _get_current_temperature_data_from_weather_underground
    (key_location : string) : result json :=
  query ← latlon key_location;
  let url := _URL_WU_API_BASE _KEY "conditions" query in
  text ← requests_get_text url;
  loaded ← json_loads text;
  current_observation ← getitem loaded "current_observation";
  getitem current_observation "temp_f".

Definition _get_forecast_data_from_weather_underground (key_location : string) : result json :=
  query ← latlon key_location;
  let url := _URL_WU_API_BASE _KEY "forecast" query in
  text ← requests_get_text url;
  json_loads text.

(** ** Sunrise, sunset and tides *)

(** The tuple [(int(date['year']), int(date['mon']), int(date['mday']))],
    evaluated from left to right. *)
Definition date_ymd (date : json) : result (Z * Z * Z) :=
  year ← (v ← getitem date "year"; py_int v);
  mon ← (v ← getitem date "mon"; py_int v);
  mday ← (v ← getitem date "mday"; py_int v);
  Ok (year, mon, mday).

(** [datum['data']['type']] *)
Definition datum_type (datum : json) : result json :=
  data ← getitem datum "data";
  getitem data "type".

(** The body of the loop of [_format_sunphase_data].  The state is the pair
    of [(sunrise_hour, sunrise_minute)] and [(sunset_hour, sunset_minute)]. *)
Definition sunphase_body (ymd : Z * Z * Z) (st : (Z * Z) * (Z * Z)) (datum : json)
    : result ((Z * Z) * (Z * Z)) :=
  date ← getitem datum "date";
  datum_ymd ← date_ymd date;
  if bool_decide (datum_ymd ≠ ymd) then Ok st
  else
    hour ← (v ← getitem date "hour"; py_int v);
    minute ← (v ← getitem date "min"; py_int v);
    ty ← datum_type datum;
    let sunrise := if py_eq_str ty _KEY_SUNRISE then (hour, minute) else fst st in
    ty' ← datum_type datum;
    let sunset := if py_eq_str ty' _KEY_SUNSET then (hour, minute) else snd st in
    Ok (sunrise, sunset).

(** [raw_data_tides['tide']['tideSummary']], as the items the loops visit. *)
Definition tide_summary (raw_data_tides : json) : result (list json) :=
  tide ← getitem raw_data_tides "tide";
  summary ← getitem tide "tideSummary";
  py_iter summary.

Definition _format_sunphase_data (raw_data_tides : json) : result (datetime * datetime) :=
  let '(year, month, day) := _get_tomorrow_datetime_in_alaska_tz in
  items ← tide_summary raw_data_tides;
  st ← for_each (sunphase_body (year, month, day)) items ((0, 0), (0, 0));
  let '((sunrise_hour, sunrise_minute), (sunset_hour, sunset_minute)) := st in
  sunrise ← datetime_datetime year month day sunrise_hour sunrise_minute;
  sunset ← datetime_datetime year month day sunset_hour sunset_minute;
  Ok (sunrise, sunset).

(** [ty not in [_KEY_TIDE_HIGH, _KEY_TIDE_LOW]] is [tide_type ty = None];
    a value that passes the test is one of the two strings. *)
Definition tide_type (ty : json) : option string :=
  match ty with
  | JStr s =>
      if String.eqb s _KEY_TIDE_HIGH || String.eqb s _KEY_TIDE_LOW then Some s else None
  | _ => None
  end.

(** The body of the loop of [_format_tide_data].  The dictionary on the
    right of the assignment is evaluated first, then [setdefault] and the
    subscript, which reads [datum['data']['type']] again. *)
Definition tide_body (data_tides : gmap datetime (gmap string (gmap string json)))
    (datum : json) : result (gmap datetime (gmap string (gmap string json))) :=
  ty ← datum_type datum;
  match tide_type ty with
  | None => Ok data_tides
  | Some key =>
      date ← getitem datum "date";
      '(year, mon, mday) ← date_ymd date;
      datetime_ak ← datetime_datetime year mon mday 0 0;
      hour ← getitem date "hour";
      minute ← getitem date "min";
      height ← (data ← getitem datum "data"; getitem data "height");
      let entry : gmap string json :=
        <[_KEY_HOUR := hour]> (<[_KEY_MINUTE := minute]> {[_KEY_TIDE_HEIGHT := height]}) in
      let by_type := default ∅ (data_tides !! datetime_ak) in
      Ok (<[datetime_ak := <[key := entry]> by_type]> data_tides)
  end.

Definition _format_tide_data (raw_data_tides : json)
    : result (gmap datetime (gmap string (gmap string json))) :=
  items ← tide_summary raw_data_tides;
  for_each tide_body items ∅.

(** [sorted(data_tides.items(), key=lambda dt: dt[0])] *)
Definition sorted_items (data_tides : gmap datetime (gmap string (gmap string json)))
    : list (datetime * gmap string (gmap string json)) :=
  merge_sort (fun a b => datetime_le (fst a) (fst b)) (map_to_list data_tides).

(** [d.get(key, 'XX')], as the text the template shows. *)
Definition get_or_XX (d : gmap string json) (key : string) : string :=
  py_str (default (JStr "XX") (d !! key)).

(** One pass of the loop of [_format_tide_detail_strings]. *)
Definition tide_detail (datetime_ak : datetime) (datum : gmap string (gmap string json))
    : string :=
  let tide_high := default ∅ (datum !! _KEY_TIDE_HIGH) in
  let tide_low := default ∅ (datum !! _KEY_TIDE_LOW) in
  _STRING_TIDES_DETAIL (dt_month datetime_ak) (dt_day datetime_ak)
    (get_or_XX tide_high _KEY_HOUR) (get_or_XX tide_high _KEY_MINUTE)
    (get_or_XX tide_high _KEY_TIDE_HEIGHT)
    (get_or_XX tide_low _KEY_HOUR) (get_or_XX tide_low _KEY_MINUTE)
    (get_or_XX tide_low _KEY_TIDE_HEIGHT).

(** The list [tide_string_details] when the loop ends. *)
Definition tide_string_details
    (data_tides : gmap datetime (gmap string (gmap string json))) : list string :=
  map (fun item => tide_detail (fst item) (snd item)) (sorted_items data_tides).

Definition _format_tide_detail_strings
    (data_tides : gmap datetime (gmap string (gmap string json))) : string :=
  join (tide_string_details data_tides).

(** The variables of [get_sunphase_and_tides] that its loop assigns:
    [sunrise], [sunset] and the daylight pair, unbound until the location is
    [kenai_river], and the dictionary of details. *)
Record daily_state : Type := DailyState {
  ds_sunphase : option (datetime * datetime * (Z * Z));
  ds_tide_string_details : gmap string string
}.

Definition daily_body (st : daily_state) (key_location : string) : result daily_state :=
  raw_data_tides ← _get_tide_data_from_weather_underground key_location;
  sunphase ←
    (if String.eqb key_location "kenai_river" then
       '(sunrise, sunset) ← _format_sunphase_data raw_data_tides;
       Ok (Some (sunrise, sunset,
                 _get_total_daylight_hours_and_minutes (datetime_sub sunset sunrise)))
     else Ok (ds_sunphase st));
  data_tides ← _format_tide_data raw_data_tides;
  let location_details := _format_tide_detail_strings data_tides in
  Ok (DailyState sunphase
        (<[key_location +:+ "_detail" := location_details]> (ds_tide_string_details st))).

Definition get_sunphase_and_tides : result string :=
  let key_locations := ["kachemak_bay_seldovia"; "kenai_river"] in
  st ← for_each daily_body key_locations (DailyState None ∅);
  match ds_sunphase st with
  | None => Err UnboundLocalError
  | Some (sunrise, sunset, (daylight_hours, daylight_minutes)) =>
      let daylight :=
        _STRING_DAYLIGHT (dt_month sunrise) (dt_day sunrise)
          (dt_hour sunrise) (dt_minute sunrise) (dt_hour sunset) (dt_minute sunset)
          daylight_hours daylight_minutes in
      tides ← _STRING_TIDES (ds_tide_string_details st);
      Ok (daylight +:+ tides)
  end.

(** ** Current temperature *)

(** [max(len(city) for _, city in _ORDER_CURRENT_TEMPERATURE)] *)
Definition string_padding : result nat :=
  py_max (map (fun entry => String.length (snd entry)) _ORDER_CURRENT_TEMPERATURE).

(** One line of the table: the location is fetched, then the template is
    filled, the temperature field by [format(raw_temp, '.0f')]. *)
Definition current_temperature_body (padding : nat) (string_temperature_details : list string)
    (entry : string * string) : result (list string) :=
  let '(key, city) := entry in
  raw_temp ← _get_current_temperature_data_from_weather_underground key;
  temperature ← format_f0 raw_temp;
  let city_detail := _STRING_CURRENT_TEMPERATURE_DETAIL (city +:+ ":") padding temperature in
  Ok (string_temperature_details ++ [city_detail])%list.

Definition get_current_temperature : result string :=
  padding ← string_padding;
  string_temperature_details ←
    for_each (current_temperature_body padding) _ORDER_CURRENT_TEMPERATURE [];
  Ok (_STRING_CURRENT_TEMPERATURE (join string_temperature_details)).

(** ** Forecast *)

(** The loop of [_format_forecast_data]: it ends at the end of the list or
    at the first item whose period equals 4. *)
Fixpoint forecast_loop (items : list json) (data_forecast : list (json * json))
    : result (list (json * json)) :=
  match items with
  | [] => Ok data_forecast
  | datum :: items' =>
      period ← getitem datum "period";
      if py_eq_int period 4 then Ok data_forecast
      else
        title ← getitem datum "title";
        fcttext ← getitem datum "fcttext";
        forecast_loop items' (data_forecast ++ [(title, fcttext)])%list
  end.

(** [raw_data_forecast['forecast']['txt_forecast']['forecastday']], as the
    items the loop visits. *)
Definition forecastday (raw_data_forecast : json) : result (list json) :=
  forecast ← getitem raw_data_forecast "forecast";
  txt_forecast ← getitem forecast "txt_forecast";
  days ← getitem txt_forecast "forecastday";
  py_iter days.

Definition _format_forecast_data (raw_data_forecast : json) : result (list (json * json)) :=
  items ← forecastday raw_data_forecast;
  forecast_loop items [].

Definition forecast_body (location_details : gmap string string) (entry : string * string)
    : result (gmap string string) :=
  let '(key, name) := entry in
  raw_data_forecast ← _get_forecast_data_from_weather_underground key;
  data_forecast ← _format_forecast_data raw_data_forecast;
  let detail :=
    join (map (fun line => _STRING_FORECAST_DETAIL (py_str (fst line)) (py_str (snd line)))
              data_forecast) in
  Ok (<[key +:+ "_detail" := detail]> location_details).

Definition get_forecast : result string :=
  location_details ← for_each forecast_body _ORDER_FORECAST ∅;
  _STRING_FORECAST location_details.

(** ** Marine forecast *)

(** One pass of the loop of [get_marine_forecast]: the index of the first
    block in which the location is found, then the block at that index. *)
Definition marine_body (split_text : list string) (ordered_forecasts : list string)
    (location : string) : result (list string) :=
  idx_found ← index_true (map (fun forecast => re_search location forecast) split_text);
  forecast ← list_getitem split_text idx_found;
  Ok (ordered_forecasts ++ [forecast])%list.

(** The function from the split text on. *)
Definition order_marine_forecast (split_text : list string) : result string :=
  ordered_forecasts ← for_each (marine_body split_text) _ORDER_MARINE_FORECAST [];
  Ok (join ordered_forecasts).

Definition get_marine_forecast : result string :=
  raw_text ← requests_get_text _URL_MARINE_FORECAST;
  let split_text := re_split raw_text in
  order_marine_forecast split_text.

(** ** The entry point *)

Inductive weather_type : Type := daily | current | marine.

(** The text the script prints after its notice. *)
Definition main (type_ : weather_type) : result string :=
  match type_ with
  | daily =>
      sunphase_and_tides ← get_sunphase_and_tides;
      forecast ← get_forecast;
      Ok (sunphase_and_tides +:+ forecast)
  | current => get_current_temperature
  | marine => get_marine_forecast
  end.

(** ** Notions the properties are stated with *)

Local Open Scope list_scope.

(** [r] occurs in [b] as a substring, character for character. *)
Definition substring (r b : string) : Prop :=
  exists before after, b = before +:+ r +:+ after.

(** [b] is the first of [blocks] in which [r] occurs. *)
Definition first_block_containing (blocks : list string) (r b : string) : Prop :=
  exists i : nat,
    blocks !! i = Some b /\ substring r b /\
    forall (j : nat) b', (j < i)%nat -> blocks !! j = Some b' -> ~ substring r b'.

(** The block the loop of [get_marine_forecast] picks for one location. *)
Definition marine_pick (split_text : list string) (location : string) : result string :=
  idx_found ← index_true (map (fun forecast => re_search location forecast) split_text);
  list_getitem split_text idx_found.

(** The loop of [_format_forecast_data] stops at [datum]: its period
    equals 4. *)
Definition period_is_4 (datum : json) : Prop :=
  exists period, getitem datum "period" = Ok period /\ py_eq_int period 4 = true.

(** The loop of [_format_forecast_data] keeps [datum], as the pair [out] of
    its title and its text: its period is not 4. *)
Definition kept_as (datum : json) (out : json * json) : Prop :=
  (exists period, getitem datum "period" = Ok period /\ py_eq_int period 4 = false) /\
  getitem datum "title" = Ok (fst out) /\
  getitem datum "fcttext" = Ok (snd out).

(** The feed numbers its entries from 0: the entry at index [i] has
    period [i]. *)
Definition periods_numbered (items : list json) : Prop :=
  forall (i : nat) datum,
    items !! i = Some datum -> getitem datum "period" = Ok (JInt (Z.of_nat i)).

(** [t] is a value the [datetime] constructor returns. *)
Definition is_datetime (t : datetime) : Prop :=
  datetime_datetime (dt_year t) (dt_month t) (dt_day t) (dt_hour t) (dt_minute t) = Ok t.

(** Two datetimes on the same calendar date. *)
Definition same_date (a b : datetime) : Prop :=
  dt_year a = dt_year b /\ dt_month a = dt_month b /\ dt_day a = dt_day b.

(** The minutes from midnight to the time of [t]. *)
Definition minute_of_day (t : datetime) : Z := dt_hour t * 60 + dt_minute t.

(** What one high or low tide entry of the feed contributes: its date, its
    type and the dictionary of its hour, minute and height. *)
Definition tide_event : Type := datetime * string * gmap string json.

(** The reading half of [tide_body]: everything the body evaluates before
    it touches [data_tides].  [None] is the [continue] of an entry that is
    neither a high nor a low tide. *)
Definition tide_read (datum : json) : result (option tide_event) :=
  ty ← datum_type datum;
  match tide_type ty with
  | None => Ok None
  | Some key =>
      date ← getitem datum "date";
      '(year, mon, mday) ← date_ymd date;
      datetime_ak ← datetime_datetime year mon mday 0 0;
      hour ← getitem date "hour";
      minute ← getitem date "min";
      height ← (data ← getitem datum "data"; getitem data "height");
      Ok (Some (datetime_ak, key,
                <[_KEY_HOUR := hour]>
                  (<[_KEY_MINUTE := minute]> {[_KEY_TIDE_HEIGHT := height]})))
  end.

(** The writing half of [tide_body]. *)
Definition tide_store (data_tides : gmap datetime (gmap string (gmap string json)))
    (ev : tide_event) : gmap datetime (gmap string (gmap string json)) :=
  let '(datetime_ak, key, entry) := ev in
  <[datetime_ak := <[key := entry]> (default ∅ (data_tides !! datetime_ak))]> data_tides.

(** The entry of [data_tides] for a date and a type. *)
Definition tide_lookup (data_tides : gmap datetime (gmap string (gmap string json)))
    (datetime_ak : datetime) (key : string) : option (gmap string json) :=
  by_type ← data_tides !! datetime_ak; by_type !! key.

(** The last event of the feed with the given date and type. *)
Definition last_entry (events : list tide_event) (datetime_ak : datetime) (key : string)
    : option (gmap string json) :=
  snd <$> last (filter (fun ev => fst ev = (datetime_ak, key)) events).

(** The text of the temperature field for one location: the fetch, the two
    subscripts and the [format], in the order the loop of
    [get_current_temperature] runs them. *)
Definition temperature_text (key : string) : result string :=
  raw_temp ← _get_current_temperature_data_from_weather_underground key;
  format_f0 raw_temp.

(** Some step for the location [key] raises [e]: the lookup of its
    coordinates, the request, the decoding of the body, one of the two
    subscripts, or the formatting of the temperature. *)
Definition step_fails (key : string) (e : exn) : Prop :=
  latlon key = Err e \/
  exists query, latlon key = Ok query /\
  (requests_get_text (_URL_WU_API_BASE _KEY "conditions" query) = Err e \/
   exists text, requests_get_text (_URL_WU_API_BASE _KEY "conditions" query) = Ok text /\
   (json_loads text = Err e \/
    exists loaded, json_loads text = Ok loaded /\
    (getitem loaded "current_observation" = Err e \/
     exists current_observation,
       getitem loaded "current_observation" = Ok current_observation /\
       (getitem current_observation "temp_f" = Err e \/
        exists raw_temp,
          getitem current_observation "temp_f" = Ok raw_temp /\
          format_f0 raw_temp = Err e)))).

(** The line of the table for a city, given the text of its temperature. *)
Definition city_line (padding : nat) (city temperature : string) : string :=
  "  " +:+ ljust (city +:+ ":") padding " "%char +:+ "  " +:+ temperature +:+ NL.

(** The reading half of [sunphase_body]: [None] is the [continue] of an
    entry that is not dated [ymd]; otherwise the hour, the minute and the
    type of the entry. *)
Definition sun_read (ymd : Z * Z * Z) (datum : json) : result (option (Z * Z * json)) :=
  date ← getitem datum "date";
  datum_ymd ← date_ymd date;
  if bool_decide (datum_ymd ≠ ymd) then Ok None
  else
    hour ← (v ← getitem date "hour"; py_int v);
    minute ← (v ← getitem date "min"; py_int v);
    ty ← datum_type datum;
    Ok (Some (hour, minute, ty)).

(** The assigning half of [sunphase_body]. *)
Definition sun_assign (st : (Z * Z) * (Z * Z)) (r : option (Z * Z * json))
    : (Z * Z) * (Z * Z) :=
  match r with
  | None => st
  | Some (hour, minute, ty) =>
      (if py_eq_str ty _KEY_SUNRISE then (hour, minute) else fst st,
       if py_eq_str ty _KEY_SUNSET then (hour, minute) else snd st)
  end.

Definition time_of_day (hm : Z * Z) : Prop := 0 <= fst hm <= 23 /\ 0 <= snd hm <= 59.

(** None of the entries read for the date has the type [key]. *)
Definition no_entry_of_type (key : string) (reads : list (option (Z * Z * json))) : Prop :=
  forall hour minute ty, Some (hour, minute, ty) ∈ reads -> ty <> JStr key.

(** The sunrise and sunset entries read for the date carry times of day. *)
Definition times_of_day (reads : list (option (Z * Z * json))) : Prop :=
  forall hour minute ty,
    Some (hour, minute, ty) ∈ reads ->
    ty = JStr _KEY_SUNRISE \/ ty = JStr _KEY_SUNSET ->
    0 <= hour <= 23 /\ 0 <= minute <= 59.

(** Boolean forms of the two conditions above. *)
Definition no_entry_of_typeb (key : string) (reads : list (option (Z * Z * json))) : bool :=
  forallb (fun r => match r with
                    | Some (_, _, ty) => negb (py_eq_str ty key)
                    | None => true
                    end) reads.

Definition times_of_dayb (reads : list (option (Z * Z * json))) : bool :=
  forallb (fun r => match r with
                    | Some (hour, minute, ty) =>
                        negb (py_eq_str ty _KEY_SUNRISE || py_eq_str ty _KEY_SUNSET)
                        || (in_range 0 23 hour && in_range 0 59 minute)
                    | None => true
                    end) reads.

(** ** Sample payloads *)

(** An entry of [forecastday], as the API shapes it. *)
Definition forecast_entry (period : Z) (title fcttext : string) : json :=
  JDict [("period", JInt period); ("icon", JStr "partlycloudy");
         ("title", JStr title); ("fcttext", JStr fcttext)].

Definition forecast_payload (days : list json) : json :=
  JDict [("response", JDict [("version", JStr "0.1")]);
         ("forecast", JDict [("txt_forecast",
            JDict [("date", JStr "2:00 PM AKDT"); ("forecastday", JList days)])])].

(** A feed that numbers its entries from 0. *)
Definition sample_forecast_days : list json := [
  forecast_entry 0 "Monday" "Partly cloudy. High 61F.";
  forecast_entry 1 "Monday Night" "Cloudy. Low 48F.";
  forecast_entry 2 "Tuesday" "Rain. High 57F.";
  forecast_entry 3 "Tuesday Night" "Showers. Low 47F.";
  forecast_entry 4 "Wednesday" "Sunny. High 63F.";
  forecast_entry 5 "Wednesday Night" "Clear. Low 45F."
].

(** A feed in which no entry has period 4. *)
Definition forecast_days_without_4 : list json := [
  forecast_entry 0 "Monday" "Partly cloudy. High 61F.";
  forecast_entry 1 "Monday Night" "Cloudy. Low 48F.";
  forecast_entry 2 "Tuesday" "Rain. High 57F.";
  forecast_entry 3 "Tuesday Night" "Showers. Low 47F.";
  forecast_entry 5 "Wednesday Night" "Clear. Low 45F."
].

(** An entry of [tideSummary], as the API shapes it: the date fields and the
    height are strings. *)
Definition tide_datum (ty year mon mday hour min height : string) : json :=
  JDict [("date", JDict [("pretty", JStr "11:31 PM AKDT");
                         ("tzname", JStr "America/Anchorage");
                         ("year", JStr year); ("mon", JStr mon); ("mday", JStr mday);
                         ("hour", JStr hour); ("min", JStr min)]);
         ("data", JDict [("height", JStr height); ("type", JStr ty)])].

Definition tide_payload (summary : list json) : json :=
  JDict [("tide", JDict [("tideInfo", JList []); ("tideSummary", JList summary)])].

(** A feed with its dates out of order, two high tides on the 22nd and no
    low tide on the 23rd. *)
Definition sample_tide_summary : list json := [
  tide_datum "High Tide" "2015" "06" "23" "10" "31" "16.02 ft";
  tide_datum "Low Tide" "2015" "06" "22" "03" "12" "1.20 ft";
  tide_datum "Sunrise" "2015" "06" "22" "04" "35" EmptyString;
  tide_datum "High Tide" "2015" "06" "22" "09" "40" "15.30 ft";
  tide_datum "High Tide" "2015" "06" "22" "21" "55" "17.10 ft";
  tide_datum "Sunset" "2015" "06" "22" "23" "38" EmptyString
].

(** What [tide_read] makes of the entries of the sample feed. *)
Definition sample_tide_reads : list (option tide_event) := [
  Some (Datetime 2015 6 23 0 0, "High Tide",
        <[_KEY_HOUR := JStr "10"]>
          (<[_KEY_MINUTE := JStr "31"]> {[_KEY_TIDE_HEIGHT := JStr "16.02 ft"]}));
  Some (Datetime 2015 6 22 0 0, "Low Tide",
        <[_KEY_HOUR := JStr "03"]>
          (<[_KEY_MINUTE := JStr "12"]> {[_KEY_TIDE_HEIGHT := JStr "1.20 ft"]}));
  None;
  Some (Datetime 2015 6 22 0 0, "High Tide",
        <[_KEY_HOUR := JStr "09"]>
          (<[_KEY_MINUTE := JStr "40"]> {[_KEY_TIDE_HEIGHT := JStr "15.30 ft"]}));
  Some (Datetime 2015 6 22 0 0, "High Tide",
        <[_KEY_HOUR := JStr "21"]>
          (<[_KEY_MINUTE := JStr "55"]> {[_KEY_TIDE_HEIGHT := JStr "17.10 ft"]}));
  None
].

(** A grouped data set in which the 23rd has a high tide only. *)
Definition sample_data_tides : gmap datetime (gmap string (gmap string json)) :=
  foldl tide_store ∅ (omap id sample_tide_reads).

(** A feed with neither a sunrise nor a sunset on the 23rd. *)
Definition sample_sun_reads : list (option (Z * Z * json)) := [
  Some (10, 31, JStr "High Tide"); None; None; None; None; None
].

(** The marine feed, its sections in the order of the feed. *)
Definition sample_marine_text : string :=
  "FZAK51 PAFC COASTAL WATERS FORECAST$$"
  +:+ "PKZ130 WEST OF BARREN ISLANDS INCLUDING KAMISHAK BAY. W WIND 15 KT.$$"
  +:+ "PKZ141 KACHEMAK BAY. SW WIND 10 KT. SEAS 2 FT.$$"
  +:+ "PKZ140 COOK INLET NORTH OF KALGIN ISLAND. N WIND 10 KT.$$"
  +:+ "PKZ139 COOK INLET KALGIN ISLAND TO POINT BEDE. S WIND 15 KT.$$"
  +:+ "PKZ138 SHELIKOF STRAIT. NE WIND 20 KT. SEAS 5 FT.$$"
  +:+ "PKZ131 BARREN ISLANDS EAST. E WIND 15 KT.$$"
  +:+ "PKZ120 CAPE CLEARE TO GORE POINT. E WIND 25 KT. SEAS 8 FT.$$".

(** The same feed without the section of Shelikof Strait. *)
Definition marine_text_without_shelikof : string :=
  "FZAK51 PAFC COASTAL WATERS FORECAST$$"
  +:+ "PKZ130 WEST OF BARREN ISLANDS INCLUDING KAMISHAK BAY. W WIND 15 KT.$$"
  +:+ "PKZ141 KACHEMAK BAY. SW WIND 10 KT. SEAS 2 FT.$$"
  +:+ "PKZ140 COOK INLET NORTH OF KALGIN ISLAND. N WIND 10 KT.$$"
  +:+ "PKZ139 COOK INLET KALGIN ISLAND TO POINT BEDE. S WIND 15 KT.$$"
  +:+ "PKZ131 BARREN ISLANDS EAST. E WIND 15 KT.$$"
  +:+ "PKZ120 CAPE CLEARE TO GORE POINT. E WIND 25 KT. SEAS 8 FT.$$".

(** A body of the conditions feature, with a whole temperature. *)
Definition conditions_payload (temp_f : Z) : json :=
  JDict [("current_observation",
          JDict [("station_id", JStr "PAHO"); ("temp_f", JInt temp_f)])].

(** [str(x)] of a list or a dictionary is not needed on the samples. *)
Definition sample_container_str (x : json) : string := EmptyString.

(** The clock of the samples: tomorrow is the 23rd of June 2015. *)
Definition sample_tomorrow : Z * Z * Z := (2015, 6, 23).

(** [format(x, '.0f')] on the whole numbers of the samples. *)
Definition sample_format_f0 (x : json) : result string :=
  match x with
  | JInt n => Ok (str_int n)
  | JStr _ => Err ValueError
  | _ => Err TypeError
  end.

(** A decoder that knows the bodies of the samples. *)
Definition sample_json_loads (text : string) : result json :=
  if String.eqb text "conditions" then Ok (conditions_payload 51)
  else if String.eqb text "tide" then Ok (tide_payload sample_tide_summary)
  else Err JSONDecodeError.

(** The API key of the samples. *)
Definition sample_key : string := "0123456789abcdef".

(** A network on which every request is answered. *)
Definition sample_requests_get_text (url : string) : result string :=
  if String.eqb url _URL_MARINE_FORECAST then Ok sample_marine_text
  else if re_search "/conditions/" url then Ok "conditions"
  else if re_search "/tide/" url then Ok "tide"
  else Err RequestException.

(** The same network, the request for Ninilchik failing. *)
Definition requests_failing_for_ninilchik (url : string) : result string :=
  if String.eqb url (_URL_WU_API_BASE sample_key "conditions" "60.04638,-151.6672")
  then Err RequestException
  else sample_requests_get_text url.

(** The same network, the marine feed lacking a section. *)
Definition requests_without_shelikof (url : string) : result string :=
  if String.eqb url _URL_MARINE_FORECAST then Ok marine_text_without_shelikof
  else sample_requests_get_text url.

(** ** Further notions *)

(** The minutes from [b] to [a], the days between them included. *)
Definition minutes_between (a b : datetime) : Z :=
  (toordinal a - toordinal b) * 1440 + (minute_of_day a - minute_of_day b).

(** [sep.join(parts)] *)
Fixpoint join_with (sep : string) (parts : list string) : string :=
  match parts with
  | [] => EmptyString
  | p :: ps =>
      match ps with
      | [] => p
      | _ :: _ => p +:+ sep +:+ join_with sep ps
      end
  end.

(** Each of the regions occurs in at most one of the blocks. *)
Definition one_block_per_region (regions blocks : list string) : Prop :=
  forall r b1 b2,
    r ∈ regions -> b1 ∈ blocks -> b2 ∈ blocks ->
    substring r b1 -> substring r b2 -> b1 = b2.

Definition one_block_per_regionb (regions blocks : list string) : bool :=
  forallb (fun r => (length (List.filter (re_search r) blocks) <=? 1)%nat) regions.

(** The loop of [_format_forecast_data] raises [e] at [datum]: on its
    period, or, the period not being 4, on its title or its text. *)
Definition forecast_entry_fails (datum : json) (e : exn) : Prop :=
  getitem datum "period" = Err e \/
  exists period,
    getitem datum "period" = Ok period /\ py_eq_int period 4 = false /\
    (getitem datum "title" = Err e \/
     exists title, getitem datum "title" = Ok title /\ getitem datum "fcttext" = Err e).

(** The lines of one location of the forecast. *)
Definition forecast_detail (data_forecast : list (json * json)) : string :=
  join (map (fun line => _STRING_FORECAST_DETAIL (py_str (fst line)) (py_str (snd line)))
            data_forecast).

(** The fetch and the extraction for one location of the forecast. *)
Definition forecast_of (key : string) : result (list (json * json)) :=
  raw_data_forecast ← _get_forecast_data_from_weather_underground key;
  _format_forecast_data raw_data_forecast.

(** The dictionary [_format_tide_data] stores for an entry of the feed. *)
Definition tide_entry (hour minute height : json) : gmap string json :=
  <[_KEY_HOUR := hour]> (<[_KEY_MINUTE := minute]> {[_KEY_TIDE_HEIGHT := height]}).

(** Every entry of the feed can be read by the loop of [_format_tide_data]. *)
Definition readable (items : list json) : Prop :=
  Forall (fun datum => is_ok (tide_read datum)) items.

(** The high and low tide events of a feed, in the order of the feed. *)
Definition tide_events (items : list json) : list tide_event :=
  omap (fun datum => match tide_read datum with
                     | Ok r => r
                     | Err _ => None
                     end) items.

(** What holds of the dictionary [_format_tide_data] returns: the keys are
    calendar dates; under a date there is a high or a low tide and nothing
    else; an entry has an hour, a minute and a height. *)
Definition tide_data_invariant
    (data_tides : gmap datetime (gmap string (gmap string json))) : Prop :=
  forall datetime_ak by_type,
    data_tides !! datetime_ak = Some by_type ->
    is_datetime datetime_ak /\ dt_hour datetime_ak = 0 /\ dt_minute datetime_ak = 0 /\
    (is_Some (by_type !! _KEY_TIDE_HIGH) \/ is_Some (by_type !! _KEY_TIDE_LOW)) /\
    forall key entry,
      by_type !! key = Some entry ->
      (key = _KEY_TIDE_HIGH \/ key = _KEY_TIDE_LOW) /\
      exists hour minute height, entry = tide_entry hour minute height.

(** The times of the entries of type [key] among those read for the date,
    in the order of the feed. *)
Definition times_of_type (key : string) (reads : list (option (Z * Z * json)))
    : list (Z * Z) :=
  omap (fun r => match r with
                 | Some (hour, minute, ty) =>
                     if py_eq_str ty key then Some (hour, minute) else None
                 | None => None
                 end) reads.

(** The time of the last entry of type [key], midnight when there is none. *)
Definition last_time (key : string) (reads : list (option (Z * Z * json))) : Z * Z :=
  default (0, 0) (last (times_of_type key reads)).

(** The two decimal digits of a number below 100, the tens first. *)
Definition two_digits (n : Z) : string :=
  String (Ascii.ascii_of_nat (48 + Z.to_nat (n / 10)))
    (String (Ascii.ascii_of_nat (48 + Z.to_nat (n mod 10))) EmptyString).

(** ** Further samples *)

(** A feed whose second entry has no title. *)
Definition forecast_days_missing_title : list json := [
  forecast_entry 0 "Monday" "Partly cloudy. High 61F.";
  JDict [("period", JInt 1); ("fcttext", JStr "Cloudy. Low 48F.")];
  forecast_entry 2 "Tuesday" "Rain. High 57F."
].

(** A network that also answers the requests of the forecast feature, and
    a decoder that knows its body. *)
Definition sample_requests_with_forecast (url : string) : result string :=
  if re_search "/forecast/" url then Ok "forecast" else sample_requests_get_text url.

Definition sample_json_loads_with_forecast (text : string) : result json :=
  if String.eqb text "forecast" then Ok (forecast_payload sample_forecast_days)
  else sample_json_loads text.

(** The sample network, the tide request for the Kenai River failing. *)
Definition requests_failing_for_kenai_river (url : string) : result string :=
  if String.eqb url (_URL_WU_API_BASE sample_key "tide" "60.5439,-151.2786")
  then Err RequestException
  else sample_requests_get_text url.

(** A tide feed whose second entry is dated the 31st of June. *)
Definition tide_summary_with_bad_date : list json := [
  tide_datum "High Tide" "2015" "06" "23" "10" "31" "16.02 ft";
  tide_datum "Low Tide" "2015" "06" "31" "03" "12" "1.20 ft";
  tide_datum "High Tide" "2015" "06" "22" "09" "40" "15.30 ft"
].

(** A tide feed with one entry at most for a date and a type. *)
Definition tide_summary_distinct : list json := [
  tide_datum "High Tide" "2015" "06" "23" "10" "31" "16.02 ft";
  tide_datum "Low Tide" "2015" "06" "22" "03" "12" "1.20 ft";
  tide_datum "Sunrise" "2015" "06" "22" "04" "35" EmptyString;
  tide_datum "High Tide" "2015" "06" "22" "09" "40" "15.30 ft"
].

(** A feed with two sunrises and a sunset on the 23rd. *)
Definition sample_sun_summary : list json := [
  tide_datum "Sunset" "2015" "06" "22" "23" "38" EmptyString;
  tide_datum "Sunrise" "2015" "06" "23" "04" "35" EmptyString;
  tide_datum "High Tide" "2015" "06" "23" "10" "31" "16.02 ft";
  tide_datum "Sunrise" "2015" "06" "23" "04" "36" EmptyString;
  tide_datum "Sunset" "2015" "06" "23" "23" "37" EmptyString
].

Definition sample_sun_summary_reads : list (option (Z * Z * json)) := [
  None;
  Some (4, 35, JStr "Sunrise");
  Some (10, 31, JStr "High Tide");
  Some (4, 36, JStr "Sunrise");
  Some (23, 37, JStr "Sunset")
].

(** A feed whose sunrise on the 23rd is given at 24:00. *)
Definition sun_summary_with_hour_24 : list json := [
  tide_datum "Sunrise" "2015" "06" "23" "24" "00" EmptyString;
  tide_datum "Sunset" "2015" "06" "23" "23" "37" EmptyString
].

(** A feed whose second entry, a low tide, has no date. *)
Definition sun_summary_without_date : list json := [
  tide_datum "Sunrise" "2015" "06" "23" "04" "35" EmptyString;
  JDict [("data", JDict [("height", JStr "1.20 ft"); ("type", JStr "Low Tide")])];
  tide_datum "Sunset" "2015" "06" "23" "23" "37" EmptyString
].

(** ** Generic facts *)

Lemma str_app_cons a p s : String a p +:+ s = String a (p +:+ s).
Proof. reflexivity. Qed.

Lemma str_app_nil s : EmptyString +:+ s = s.
Proof. reflexivity. Qed.

Lemma starts_with_spec p s :
  starts_with p s = true <-> exists after, s = p +:+ after.
Proof.
  revert s. induction p as [|a p IH]; intros s; simpl.
  - split; eauto.
  - destruct s as [|b s].
    + split; [discriminate | intros [after H]; discriminate].
    + destruct (Ascii.eqb_spec a b) as [->|Hne].
      * rewrite IH. split; intros [after H]; exists after;
          rewrite str_app_cons in *; congruence.
      * split; [discriminate | intros [after H]; rewrite str_app_cons in H; congruence].
Qed.

Lemma re_search_spec p s : re_search p s = true <-> substring p s.
Proof.
  induction s as [|c s IH]; simpl.
  - destruct (starts_with p EmptyString) eqn:E.
    + split; [intros _ | done]. apply starts_with_spec in E as [after E].
      exists EmptyString, after. done.
    + split; [discriminate |]. intros (before & after & H).
      destruct before; [rewrite str_app_nil in H | discriminate].
      assert (starts_with p EmptyString = true) by (apply starts_with_spec; eauto). congruence.
  - destruct (starts_with p (String c s)) eqn:E.
    + split; [intros _ | done]. apply starts_with_spec in E as [after E].
      exists EmptyString, after. done.
    + rewrite IH. split.
      * intros (before & after & ->). exists (String c before), after. done.
      * intros (before & after & H). destruct before as [|c' before].
        -- rewrite str_app_nil in H.
           assert (starts_with p (String c s) = true) by (apply starts_with_spec; eauto).
           congruence.
        -- rewrite str_app_cons in H. injection H as _ ->. exists before, after. done.
Qed.

Lemma re_search_false p s : re_search p s = false <-> ~ substring p s.
Proof. rewrite <- re_search_spec. destruct (re_search p s); split; congruence. Qed.

Lemma bind_Ok {A B} (a : A) (f : A -> result B) : Ok a ≫= f = f a.
Proof. reflexivity. Qed.

Lemma bind_Err {A B} (e : exn) (f : A -> result B) : Err e ≫= f = Err e.
Proof. reflexivity. Qed.

Lemma bind_Ok_inv {A B} (m : result A) (f : A -> result B) b :
  m ≫= f = Ok b -> exists a, m = Ok a /\ f a = Ok b.
Proof. destruct m as [a|e]; [by exists a | done]. Qed.

Lemma is_ok_or_err {A} (r : result A) : is_ok r \/ is_err r.
Proof. destruct r; [left | right]; eexists; reflexivity. Qed.

Lemma for_each_app {S A} (body : S -> A -> result S) l1 l2 s :
  for_each body (l1 ++ l2) s = (s' ← for_each body l1 s; for_each body l2 s').
Proof.
  revert s. induction l1 as [|x l1 IH]; intros s; simpl; [done|].
  destruct (body s x) as [s'|e]; simpl; [apply IH | done].
Qed.

Section Appending.
Context {A B : Type} (f : A -> result B) (body : list B -> A -> result (list B)).
Hypothesis body_appends : forall acc x, body acc x = (y ← f x; Ok (acc ++ [y])).

Lemma for_each_append_ok l ys acc :
  Forall2 (fun x y => f x = Ok y) l ys -> for_each body l acc = Ok (acc ++ ys).
Proof using body_appends.
  intros H. revert acc. induction H as [|x y l ys Hx _ IH]; intros acc; simpl.
  - by rewrite app_nil_r.
  - rewrite body_appends, Hx. simpl. rewrite IH, <- app_assoc. done.
Qed.

Lemma for_each_append_err l1 x l2 e acc :
  Forall (fun x => is_ok (f x)) l1 -> f x = Err e ->
  for_each body (l1 ++ x :: l2) acc = Err e.
Proof using body_appends.
  intros H Hx. revert acc. induction H as [|x1 l1 [y Hy] _ IH]; intros acc; simpl.
  - rewrite body_appends, Hx. done.
  - rewrite body_appends, Hy. simpl. apply IH.
Qed.

Lemma for_each_append_inv l acc out :
  for_each body l acc = Ok out ->
  exists ys, out = acc ++ ys /\ Forall2 (fun x y => f x = Ok y) l ys.
Proof using body_appends.
  revert acc. induction l as [|x l IH]; intros acc; simpl.
  - intros [= <-]. exists []. by rewrite app_nil_r.
  - rewrite body_appends. destruct (f x) as [y|e] eqn:Hx; simpl; [|done].
    intros H. apply IH in H as (ys & -> & H). exists (y :: ys).
    rewrite <- app_assoc. split; [done | by constructor].
Qed.
End Appending.

Lemma first_failure {A B} (f : A -> result B) l :
  Exists (fun x => is_err (f x)) l ->
  exists l1 x l2 e, l = l1 ++ x :: l2 /\ Forall (fun x => is_ok (f x)) l1 /\ f x = Err e.
Proof.
  induction l as [|x l IH]; intros H.
  - by apply Exists_nil in H.
  - destruct (f x) as [y|e] eqn:Hx.
    + apply Exists_cons in H as [[e He]|H]; [congruence|].
      destruct (IH H) as (l1 & x' & l2 & e & -> & Hl1 & Hx').
      exists (x :: l1), x', l2, e. split; [done|]. split; [|done].
      constructor; [by exists y | done].
    + exists [], x, l, e. done.
Qed.

Lemma index_true_found {A} (test : A -> bool) (l : list A) :
  (exists b, b ∈ l /\ test b = true) ->
  exists (i : nat) b,
    index_true (map test l) = Ok i /\ l !! i = Some b /\ test b = true /\
    forall (j : nat) b', (j < i)%nat -> l !! j = Some b' -> test b' = false.
Proof.
  induction l as [|a l IH]; intros (b & Hb & Ht).
  - by apply elem_of_nil in Hb.
  - simpl. destruct (test a) eqn:Ha.
    + exists 0%nat, a. repeat split; try done. intros j b' Hj. lia.
    + apply elem_of_cons in Hb as [->|Hb]; [congruence|].
      destruct IH as (i & b0 & Hi & Hl & Hb0 & Hbefore); [by eauto|].
      exists (S i), b0. rewrite Hi. repeat split; try done.
      intros [|j] b' Hj Hj'; simpl in Hj'; [congruence|].
      apply (Hbefore j); [lia | done].
Qed.

Lemma index_true_missing {A} (test : A -> bool) (l : list A) :
  (forall b, b ∈ l -> test b = false) -> index_true (map test l) = Err ValueError.
Proof.
  induction l as [|a l IH]; intros H; simpl; [done|].
  rewrite (H a) by apply list_elem_of_here.
  rewrite IH; [done|]. intros b Hb. apply H. by apply list_elem_of_further.
Qed.

(** ** The marine forecast *)

Lemma marine_body_appends split_text acc location :
  marine_body split_text acc location
  = (y ← marine_pick split_text location; Ok (acc ++ [y])).
Proof.
  unfold marine_body, marine_pick.
  destruct (index_true _) as [i|e]; simpl; [|done].
  destruct (list_getitem split_text i); done.
Qed.

Lemma marine_pick_found split_text r :
  (exists b, b ∈ split_text /\ substring r b) ->
  exists b, marine_pick split_text r = Ok b /\ first_block_containing split_text r b.
Proof.
  intros (b & Hb & Hsub).
  destruct (index_true_found (fun forecast => re_search r forecast) split_text)
    as (i & b0 & Hi & Hl & Hb0 & Hbefore).
  { exists b. split; [done|]. by apply re_search_spec. }
  exists b0. unfold marine_pick, list_getitem. rewrite Hi. simpl. rewrite Hl.
  split; [done|]. exists i. split; [done|]. split; [by apply re_search_spec|].
  intros j b' Hj Hj'. apply re_search_false. eauto.
Qed.

Lemma marine_pick_missing split_text r :
  (forall b, b ∈ split_text -> ~ substring r b) ->
  marine_pick split_text r = Err ValueError.
Proof.
  intros H. unfold marine_pick. rewrite index_true_missing; [done|].
  intros b Hb. apply re_search_false. auto.
Qed.

Lemma marine_pick_ok_or_value_error split_text r :
  is_ok (marine_pick split_text r) \/ marine_pick split_text r = Err ValueError.
Proof.
  destruct (existsb (re_search r) split_text) eqn:E.
  - left. apply existsb_exists in E as (b & Hb & Hs).
    destruct (marine_pick_found split_text r) as (b0 & H0 & _).
    + exists b. split; [by apply list_elem_of_In | by apply re_search_spec].
    + by exists b0.
  - right. apply marine_pick_missing. intros b Hb Hsub.
    apply re_search_spec in Hsub.
    assert (existsb (re_search r) split_text = true); [|congruence].
    apply existsb_exists. exists b. split; [by apply list_elem_of_In | done].
Qed.

Lemma Forall2_pick {A B} (f : A -> result B) (P : A -> B -> Prop) (l : list A) :
  (forall x, x ∈ l -> exists y, f x = Ok y /\ P x y) ->
  exists ys, Forall2 (fun x y => f x = Ok y) l ys /\ Forall2 P l ys.
Proof.
  induction l as [|x l IH]; intros H.
  - exists []. split; constructor.
  - destruct (H x) as (y & Hy & HP); [apply list_elem_of_here|].
    destruct IH as (ys & H1 & H2).
    { intros x' Hx'. apply H. by apply list_elem_of_further. }
    exists (y :: ys). split; by constructor.
Qed.

Lemma get_marine_forecast_unfold raw_text :
  requests_get_text _URL_MARINE_FORECAST = Ok raw_text ->
  get_marine_forecast = order_marine_forecast (re_split raw_text).
Proof. intros H. unfold get_marine_forecast. rewrite H. done. Qed.

(** C2: when every region of the fixed list occurs in some block of the split
    feed, [get_marine_forecast] returns the concatenation, in the order of the
    fixed list, of the first block containing each region's name. *)
Theorem get_marine_forecast_region_order (split_text : list string) :
  (forall r, r ∈ _ORDER_MARINE_FORECAST -> exists b, b ∈ split_text /\ substring r b) ->
  exists chosen : list string,
    Forall2 (first_block_containing split_text) _ORDER_MARINE_FORECAST chosen /\
    order_marine_forecast split_text = Ok (join chosen) /\
    forall raw_text,
      requests_get_text _URL_MARINE_FORECAST = Ok raw_text ->
      re_split raw_text = split_text ->
      get_marine_forecast = Ok (join chosen).
Proof.
  intros Hall.
  destruct (Forall2_pick (marine_pick split_text) (first_block_containing split_text)
              _ORDER_MARINE_FORECAST) as (chosen & Hpick & Hfirst).
  { intros r Hr. apply marine_pick_found. auto. }
  exists chosen. split; [done|].
  assert (order_marine_forecast split_text = Ok (join chosen)) as Hordered.
  { unfold order_marine_forecast.
    rewrite (for_each_append_ok (marine_pick split_text) _
               (marine_body_appends split_text) _ chosen []) by done.
    done. }
  split; [done|]. intros raw_text Hget <-.
  by rewrite (get_marine_forecast_unfold raw_text).
Qed.

(** C3: when some region of the fixed list occurs in no block, the function
    raises (the [ValueError] of [index]) and returns no text at all. *)
Theorem get_marine_forecast_missing_region (split_text : list string) (r : string) :
  r ∈ _ORDER_MARINE_FORECAST ->
  (forall b, b ∈ split_text -> ~ substring r b) ->
  order_marine_forecast split_text = Err ValueError /\
  forall raw_text,
    requests_get_text _URL_MARINE_FORECAST = Ok raw_text ->
    re_split raw_text = split_text ->
    get_marine_forecast = Err ValueError.
Proof.
  intros Hr Hmissing.
  assert (order_marine_forecast split_text = Err ValueError) as Hfail.
  { destruct (first_failure (marine_pick split_text) _ORDER_MARINE_FORECAST)
      as (l1 & x & l2 & e & Hsplit & Hl1 & Hx).
    { apply Exists_exists. exists r. split; [done|].
      exists ValueError. by apply marine_pick_missing. }
    unfold order_marine_forecast. rewrite Hsplit.
    rewrite (for_each_append_err (marine_pick split_text) _
               (marine_body_appends split_text) l1 x l2 e) by done.
    simpl. destruct (marine_pick_ok_or_value_error split_text x) as [[b Hb]|Hv]; congruence. }
  split; [done|]. intros raw_text Hget <-.
  by rewrite (get_marine_forecast_unfold raw_text).
Qed.

(** ** The forecast *)

Lemma forecast_loop_prefix pre rest outs acc :
  Forall2 kept_as pre outs ->
  forecast_loop (pre ++ rest) acc = forecast_loop rest (acc ++ outs).
Proof.
  intros H. revert acc.
  induction H as [|datum out pre outs ((period & Hp & Hne) & Ht & Hf) _ IH]; intros acc.
  - by rewrite app_nil_r.
  - simpl. rewrite Hp. simpl. rewrite Hne, Ht. simpl. rewrite Hf. simpl.
    rewrite IH, <- app_assoc. destruct out; done.
Qed.

Lemma forecast_loop_stop rest acc :
  rest = [] \/ (exists datum rest', rest = datum :: rest' /\ period_is_4 datum) ->
  forecast_loop rest acc = Ok acc.
Proof.
  intros [->|(datum & rest' & -> & period & Hp & H4)]; simpl; [done|].
  rewrite Hp. simpl. by rewrite H4.
Qed.

Lemma kept_numbered_short pre rest outs :
  periods_numbered (pre ++ rest) -> Forall2 kept_as pre outs -> (length outs <= 4)%nat.
Proof.
  intros Hnum Hkept. rewrite <- (Forall2_length _ _ _ Hkept).
  destruct (decide (length pre <= 4)%nat) as [|Hlong]; [done|].
  destruct (lookup_lt_is_Some_2 pre 4) as [datum Hd]; [lia|].
  destruct (Forall2_lookup_l _ _ _ _ _ Hkept Hd) as (out & _ & (period & Hp & Hne) & _).
  specialize (Hnum 4%nat datum). rewrite lookup_app_l in Hnum by lia.
  rewrite (Hnum Hd) in Hp. injection Hp as <-. simpl in Hne. discriminate.
Qed.

(** C1, as the code has it: the extraction returns, in feed order, the
    title and text of the entries that come before the first entry whose
    period equals 4 (of all entries when there is none); when the feed
    numbers its entries from 0, these are at most 4. *)
Theorem format_forecast_data_stops_at_period_4
    (raw_data_forecast : json) (items pre rest : list json) (outs : list (json * json)) :
  forecastday raw_data_forecast = Ok items ->
  items = pre ++ rest ->
  Forall2 kept_as pre outs ->
  rest = [] \/ (exists datum rest', rest = datum :: rest' /\ period_is_4 datum) ->
  _format_forecast_data raw_data_forecast = Ok outs /\
  (periods_numbered items -> (length outs <= 4)%nat).
Proof.
  intros Hitems -> Hkept Hstop. split.
  - unfold _format_forecast_data. rewrite Hitems. simpl.
    rewrite (forecast_loop_prefix pre rest outs) by done.
    by rewrite forecast_loop_stop.
  - intros Hnum. by eapply kept_numbered_short.
Qed.

(** ** Daylight *)

Lemma int_of_float_comp x y : (x == y)%Q -> int_of_float x = int_of_float y.
Proof.
  intros H. unfold int_of_float.
  rewrite (Qleb_comp 0%Q 0%Q (Qeq_refl 0%Q) x y H).
  by rewrite (Qfloor_comp x y H), (Qceiling_comp x y H).
Qed.

Lemma int_of_float_Z (n : Z) : int_of_float (inject_Z n) = n.
Proof.
  unfold int_of_float. destruct (Qle_bool 0 (inject_Z n)).
  - apply Qfloor_Z.
  - apply Qceiling_Z.
Qed.

Lemma inject_Z_div_nonneg (m : Z) : 0 <= m -> (0 <= inject_Z m / 60)%Q.
Proof.
  intros Hm. apply Qle_shift_div_l; [reflexivity|].
  rewrite Qmult_0_l. change 0%Q with (inject_Z 0). by rewrite <- Zle_Qle.
Qed.

(** On a whole number of minutes the hours are the truncated quotient. *)
Lemma int_of_float_div_60 (m : Z) : int_of_float (inject_Z m / 60)%Q = Z.quot m 60.
Proof.
  unfold int_of_float.
  destruct (Qle_bool 0 (inject_Z m / 60)) eqn:Hsign.
  - assert (0 <= m) as Hm.
    { apply Qle_bool_iff in Hsign.
      destruct (Z.le_gt_cases 0 m) as [|Hneg]; [done|].
      exfalso. apply (Qlt_not_le (inject_Z m / 60) 0); [|done].
      apply Qlt_shift_div_r; [reflexivity|].
      rewrite Qmult_0_l. change 0%Q with (inject_Z 0). by rewrite <- Zlt_Qlt. }
    change 60%Q with (inject_Z 60). rewrite <- Zdiv_Qdiv.
    symmetry. apply Z.quot_div_nonneg; lia.
  - assert (m < 0) as Hm.
    { destruct (Z.lt_ge_cases m 0) as [|Hpos]; [done|].
      apply inject_Z_div_nonneg in Hpos. apply Qle_bool_iff in Hpos. congruence. }
    unfold Qceiling.
    assert (- (inject_Z m / 60) == inject_Z (- m) / inject_Z 60)%Q as ->.
    { rewrite inject_Z_opp. change (inject_Z 60) with 60%Q. field. }
    rewrite <- Zdiv_Qdiv.
    rewrite <- (Z.quot_div_nonneg (- m) 60) by lia.
    rewrite Z.quot_opp_l by lia. lia.
Qed.

(** On a whole number of minutes the remainder is the floored one. *)
Lemma float_mod_60 (m : Z) : (float_mod (inject_Z m) 60 == inject_Z (m mod 60))%Q.
Proof.
  unfold float_mod. change 60%Q with (inject_Z 60) at 2. rewrite <- Zdiv_Qdiv.
  change 60%Q with (inject_Z 60). rewrite <- inject_Z_mult.
  unfold Qminus. rewrite <- inject_Z_opp, <- inject_Z_plus.
  rewrite Z.mod_eq by lia. reflexivity.
Qed.

Lemma float_mod_comp x y : (x == y)%Q -> (float_mod x 60 == float_mod y 60)%Q.
Proof.
  intros H. unfold float_mod.
  rewrite (Qfloor_comp (x / 60) (y / 60)).
  - unfold Qminus. apply Qplus_comp; [exact H | reflexivity].
  - apply Qdiv_comp; [exact H | reflexivity].
Qed.

Lemma minutes_of_seconds (m : Z) : (inject_Z (60 * m) / 60 == inject_Z m)%Q.
Proof. rewrite inject_Z_mult. change (inject_Z 60) with 60%Q. field. Qed.

Lemma total_seconds_timedelta_new (days seconds : Z) :
  total_seconds (timedelta_new days seconds) = inject_Z (days * 86400 + seconds).
Proof.
  unfold total_seconds, timedelta_new. simpl. f_equal.
  pose proof (Z.div_mod seconds 86400). lia.
Qed.

(** The pair the function returns on a difference of [m] whole minutes. *)
Lemma daylight_of_whole_minutes (delta : timedelta) (m : Z) :
  total_seconds delta = inject_Z (60 * m) ->
  _get_total_daylight_hours_and_minutes delta = (Z.quot m 60, m mod 60).
Proof.
  intros H. unfold _get_total_daylight_hours_and_minutes. rewrite H. f_equal.
  - rewrite <- int_of_float_div_60. apply int_of_float_comp.
    apply Qdiv_comp; [apply minutes_of_seconds | reflexivity].
  - rewrite <- (int_of_float_Z (m mod 60)). apply int_of_float_comp.
    rewrite <- float_mod_60. apply float_mod_comp, minutes_of_seconds.
Qed.

Lemma in_range_spec lo hi n : in_range lo hi n = true <-> lo <= n <= hi.
Proof. unfold in_range. rewrite andb_true_iff, !Z.leb_le. done. Qed.

Lemma datetime_datetime_inv year month day hour minute t :
  datetime_datetime year month day hour minute = Ok t ->
  t = Datetime year month day hour minute /\
  1 <= year <= 9999 /\ 1 <= month <= 12 /\ 1 <= day <= _days_in_month year month /\
  0 <= hour <= 23 /\ 0 <= minute <= 59.
Proof.
  unfold datetime_datetime. intros H.
  repeat match type of H with
         | (if negb ?c then _ else _) = _ => destruct c eqn:?; simpl in H; [|discriminate]
         end.
  injection H as <-.
  repeat match goal with
         | E : in_range _ _ _ = true |- _ => apply in_range_spec in E
         end.
  done.
Qed.

Lemma time_of_datetime t :
  is_datetime t -> 0 <= dt_hour t <= 23 /\ 0 <= dt_minute t <= 59.
Proof. intros H. by apply datetime_datetime_inv in H as (_ & _ & _ & _ & Hh & Hm). Qed.

Lemma datetime_sub_same_date a b :
  same_date a b ->
  total_seconds (datetime_sub a b) = inject_Z (60 * (minute_of_day a - minute_of_day b)).
Proof.
  intros (Hy & Hm & Hd). unfold datetime_sub.
  rewrite total_seconds_timedelta_new. unfold toordinal, minute_of_day.
  rewrite Hy, Hm, Hd. f_equal. lia.
Qed.

(** C4: for a sunrise and a sunset on the same date, the sunset not before
    the sunrise, the daylight is the difference in minutes, divided by 60 for
    the hours, the remainder for the minutes. *)
Theorem daylight_hours_and_minutes (sunrise sunset : datetime) :
  is_datetime sunrise -> is_datetime sunset ->
  same_date sunrise sunset ->
  datetime_le sunrise sunset ->
  let total_minutes := minute_of_day sunset - minute_of_day sunrise in
  0 <= total_minutes /\
  _get_total_daylight_hours_and_minutes (datetime_sub sunset sunrise)
  = (total_minutes / 60, total_minutes mod 60).
Proof.
  intros Hrise Hset (Hy & Hm & Hd) Hle total_minutes.
  apply time_of_datetime in Hrise, Hset.
  assert (0 <= total_minutes) as Hpos.
  { unfold total_minutes, minute_of_day.
    destruct Hle as [Hlt | ->]; [|lia]. unfold datetime_lt in Hlt. lia. }
  split; [done|].
  rewrite (daylight_of_whole_minutes _ total_minutes).
  - f_equal. apply Z.quot_div_nonneg; lia.
  - apply datetime_sub_same_date. done.
Qed.

(** ** Tides *)

Lemma tide_body_read_store data_tides datum :
  tide_body data_tides datum
  = (r ← tide_read datum;
     Ok (match r with Some ev => tide_store data_tides ev | None => data_tides end)).
Proof.
  unfold tide_body, tide_read.
  destruct (datum_type datum) as [ty|]; simpl; [|done].
  destruct (tide_type ty) as [key|]; [|done].
  destruct (getitem datum "date") as [date|]; simpl; [|done].
  destruct (date_ymd date) as [[[year mon] mday]|]; simpl; [|done].
  destruct (datetime_datetime year mon mday 0 0) as [datetime_ak|]; simpl; [|done].
  destruct (getitem date "hour") as [hour|]; simpl; [|done].
  destruct (getitem date "min") as [minute|]; simpl; [|done].
  destruct (getitem datum "data") as [data|]; simpl; [|done].
  destruct (getitem data "height") as [height|]; simpl; done.
Qed.

Lemma for_each_tide_body items reads data_tides :
  Forall2 (fun datum r => tide_read datum = Ok r) items reads ->
  for_each tide_body items data_tides = Ok (foldl tide_store data_tides (omap id reads)).
Proof.
  intros H. revert data_tides.
  induction H as [|datum r items reads Hr _ IH]; intros data_tides; simpl; [done|].
  rewrite tide_body_read_store, Hr. simpl. rewrite IH. by destruct r.
Qed.

Lemma tide_lookup_store data_tides ev datetime_ak key :
  tide_lookup (tide_store data_tides ev) datetime_ak key
  = if decide (fst ev = (datetime_ak, key)) then Some (snd ev)
    else tide_lookup data_tides datetime_ak key.
Proof.
  destruct ev as [[dt k] entry]. unfold tide_lookup, tide_store. simpl.
  destruct (decide (dt = datetime_ak)) as [->|Hdt].
  - rewrite lookup_insert_eq. simpl.
    destruct (decide (k = key)) as [->|Hk].
    + rewrite lookup_insert_eq. by rewrite decide_True.
    + rewrite lookup_insert_ne by done. rewrite decide_False by congruence.
      destruct (data_tides !! datetime_ak); done.
  - rewrite lookup_insert_ne by done. by rewrite decide_False by congruence.
Qed.

Lemma last_entry_snoc events ev datetime_ak key :
  last_entry (events ++ [ev]) datetime_ak key
  = if decide (fst ev = (datetime_ak, key)) then Some (snd ev)
    else last_entry events datetime_ak key.
Proof.
  unfold last_entry. rewrite filter_app, filter_cons, filter_nil.
  destruct (decide (fst ev = (datetime_ak, key))).
  - by rewrite last_snoc.
  - by rewrite app_nil_r.
Qed.

(** After the loop the entry for a date and a type is the last one the feed
    has for them. *)
Lemma tide_lookup_foldl events datetime_ak key :
  tide_lookup (foldl tide_store ∅ events) datetime_ak key
  = last_entry events datetime_ak key.
Proof.
  induction events as [|ev events IH] using rev_ind.
  - unfold tide_lookup. simpl. by rewrite lookup_empty.
  - rewrite foldl_app. simpl. by rewrite tide_lookup_store, last_entry_snoc, IH.
Qed.

Lemma last_entry_is_Some events datetime_ak key :
  is_Some (last_entry events datetime_ak key)
  <-> exists entry, (datetime_ak, key, entry) ∈ events.
Proof.
  induction events as [|ev events IH] using rev_ind.
  - split; [by intros [? ?] | intros [? H]; by apply elem_of_nil in H].
  - rewrite last_entry_snoc. destruct ev as [k entry]. simpl.
    destruct (decide (k = (datetime_ak, key))) as [->|Hk].
    + split; [intros _ | by eauto]. exists entry. apply elem_of_app. right.
      apply list_elem_of_here.
    + rewrite IH. split.
      * intros [e He]. exists e. apply elem_of_app. by left.
      * intros [e He]. apply elem_of_app in He as [He|He]; [by eauto|].
        apply list_elem_of_singleton in He. congruence.
Qed.

Lemma lookup_foldl_tide_store events datetime_ak :
  is_Some (foldl tide_store ∅ events !! datetime_ak)
  <-> exists key entry, (datetime_ak, key, entry) ∈ events.
Proof.
  induction events as [|ev events IH] using rev_ind.
  - simpl. rewrite lookup_empty. split; [by intros [? ?] |].
    intros (? & ? & H). by apply elem_of_nil in H.
  - rewrite foldl_app. simpl. destruct ev as [[dt k] entry]. unfold tide_store at 1.
    destruct (decide (dt = datetime_ak)) as [->|Hdt].
    + rewrite lookup_insert_eq. split; [intros _ | by eauto].
      exists k, entry. apply elem_of_app. right. apply list_elem_of_here.
    + rewrite lookup_insert_ne by done. rewrite IH. split.
      * intros (k' & e & He). exists k', e. apply elem_of_app. by left.
      * intros (k' & e & He). apply elem_of_app in He as [He|He]; [by eauto|].
        apply list_elem_of_singleton in He. congruence.
Qed.

Lemma datetime_lt_trans a b c : datetime_lt a b -> datetime_lt b c -> datetime_lt a c.
Proof. unfold datetime_lt. lia. Qed.

Lemma datetime_lt_irrefl a : ~ datetime_lt a a.
Proof. unfold datetime_lt. lia. Qed.

Lemma datetime_trichotomy a b : datetime_lt a b \/ a = b \/ datetime_lt b a.
Proof.
  assert (datetime_lt a b \/ datetime_lt b a \/
          (dt_year a = dt_year b /\ dt_month a = dt_month b /\ dt_day a = dt_day b /\
           dt_hour a = dt_hour b /\ dt_minute a = dt_minute b)) as H
    by (unfold datetime_lt; lia).
  destruct H as [H|[H|H]]; [by left | by right; right |].
  right; left. destruct a, b; simpl in H. destruct H as (-> & -> & -> & -> & ->). done.
Qed.

Lemma datetime_le_trans a b c : datetime_le a b -> datetime_le b c -> datetime_le a c.
Proof.
  intros [Hab| ->] [Hbc| ->]; [left | by left | by left | by right].
  by eapply datetime_lt_trans.
Qed.

Lemma datetime_le_total a b : datetime_le a b \/ datetime_le b a.
Proof.
  destruct (datetime_trichotomy a b) as [H|[H|H]];
    [left; by left | left; by right | right; by left].
Qed.

Lemma StronglySorted_le_lt (l : list datetime) :
  StronglySorted datetime_le l -> NoDup l -> StronglySorted datetime_lt l.
Proof.
  induction 1 as [|x l Hl IH Hx]; intros Hnd; constructor.
  - apply IH. by apply NoDup_cons in Hnd as [_ ?].
  - apply NoDup_cons in Hnd as [Hnotin _].
    apply Forall_forall. intros y Hy.
    rewrite Forall_forall in Hx. destruct (Hx y Hy) as [Hlt| ->]; [done|].
    by destruct Hnotin.
Qed.

Section SortedItems.
Context {V : Type}.
Let by_key : relation (datetime * V) := fun a b => datetime_le (fst a) (fst b).

Lemma by_key_sorted (l : list (datetime * V)) :
  StronglySorted by_key (merge_sort by_key l).
Proof.
  apply (@StronglySorted_merge_sort _ by_key _).
  - intros a b c. apply datetime_le_trans.
  - intros a b. apply datetime_le_total.
Qed.

Lemma merge_sort_keys (l : list (datetime * V)) :
  NoDup (map fst l) ->
  StronglySorted datetime_lt (map fst (merge_sort by_key l)).
Proof.
  intros Hnd. apply StronglySorted_le_lt.
  - apply (StronglySorted_fmap fst by_key datetime_le); [done|].
    apply by_key_sorted.
  - change (NoDup (fst <$> merge_sort by_key l)).
    by rewrite merge_sort_Permutation.
Qed.
End SortedItems.

Lemma elem_of_sorted_items data_tides datetime_ak datum :
  (datetime_ak, datum) ∈ sorted_items data_tides <-> data_tides !! datetime_ak = Some datum.
Proof.
  unfold sorted_items. rewrite merge_sort_Permutation. apply elem_of_map_to_list.
Qed.

Lemma sorted_items_keys data_tides :
  StronglySorted datetime_lt (map fst (sorted_items data_tides)) /\
  forall datetime_ak,
    datetime_ak ∈ map fst (sorted_items data_tides) <-> is_Some (data_tides !! datetime_ak).
Proof.
  split.
  - apply merge_sort_keys. apply NoDup_fst_map_to_list.
  - intros datetime_ak. change (map fst (sorted_items data_tides))
      with (fst <$> sorted_items data_tides).
    rewrite list_elem_of_fmap. split.
    + intros ([dt datum] & -> & H). apply elem_of_sorted_items in H. by exists datum.
    + intros [datum H]. exists (datetime_ak, datum). split; [done|].
      by apply elem_of_sorted_items.
Qed.

Lemma tide_string_details_by_date data_tides :
  tide_string_details data_tides
  = map (fun datetime_ak => tide_detail datetime_ak (default ∅ (data_tides !! datetime_ak)))
        (map fst (sorted_items data_tides)).
Proof.
  unfold tide_string_details. rewrite map_map. apply map_ext_in.
  intros [dt datum] H. apply list_elem_of_In, elem_of_sorted_items in H.
  simpl. by rewrite H.
Qed.

Lemma tide_type_Some ty key :
  tide_type ty = Some key ->
  ty = JStr key /\ (key = _KEY_TIDE_HIGH \/ key = _KEY_TIDE_LOW).
Proof.
  destruct ty as [| | | |s| |]; simpl; try discriminate.
  destruct (String.eqb_spec s _KEY_TIDE_HIGH) as [->|_]; simpl.
  - intros [= <-]. auto.
  - destruct (String.eqb_spec s _KEY_TIDE_LOW) as [->|_]; [|discriminate].
    intros [= <-]. auto.
Qed.

Lemma tide_type_None ty :
  ty <> JStr _KEY_TIDE_HIGH -> ty <> JStr _KEY_TIDE_LOW -> tide_type ty = None.
Proof.
  intros Hhigh Hlow. destruct (tide_type ty) as [key|] eqn:E; [|done].
  apply tide_type_Some in E as [-> [->| ->]]; done.
Qed.

(** An entry that is neither a high nor a low tide is read as nothing. *)
Lemma tide_read_other datum ty :
  datum_type datum = Ok ty ->
  ty <> JStr _KEY_TIDE_HIGH -> ty <> JStr _KEY_TIDE_LOW ->
  tide_read datum = Ok None.
Proof.
  intros Hty Hhigh Hlow. unfold tide_read. rewrite Hty. simpl.
  by rewrite tide_type_None.
Qed.

(** An event is a high or a low tide, filed under a calendar date. *)
Lemma tide_read_event datum datetime_ak key entry :
  tide_read datum = Ok (Some (datetime_ak, key, entry)) ->
  datum_type datum = Ok (JStr key) /\
  (key = _KEY_TIDE_HIGH \/ key = _KEY_TIDE_LOW) /\
  dt_hour datetime_ak = 0 /\ dt_minute datetime_ak = 0.
Proof.
  unfold tide_read.
  destruct (datum_type datum) as [ty|]; simpl; [|done].
  destruct (tide_type ty) as [k|] eqn:Hk; [|done].
  apply tide_type_Some in Hk as [-> Hk].
  destruct (getitem datum "date") as [date|]; simpl; [|done].
  destruct (date_ymd date) as [[[year mon] mday]|]; simpl; [|done].
  destruct (datetime_datetime year mon mday 0 0) as [dt|] eqn:Hdt; simpl; [|done].
  apply datetime_datetime_inv in Hdt as [-> _].
  destruct (getitem date "hour") as [hour|]; simpl; [|done].
  destruct (getitem date "min") as [minute|]; simpl; [|done].
  destruct (getitem datum "data") as [data|]; simpl; [|done].
  destruct (getitem data "height") as [height|]; simpl; [|done].
  intros [= <- <- <-]. done.
Qed.

(** An entry shaped as the API shapes it is read, when its date fields are
    numerals of a date. *)
Lemma tide_read_tide_datum ty year mon mday hour min height y mo d datetime_ak :
  int_of_str year = Ok y -> int_of_str mon = Ok mo -> int_of_str mday = Ok d ->
  datetime_datetime y mo d 0 0 = Ok datetime_ak ->
  tide_read (tide_datum ty year mon mday hour min height)
  = Ok (if String.eqb ty _KEY_TIDE_HIGH || String.eqb ty _KEY_TIDE_LOW
        then Some (datetime_ak, ty,
                   <[_KEY_HOUR := JStr hour]>
                     (<[_KEY_MINUTE := JStr min]> {[_KEY_TIDE_HEIGHT := JStr height]}))
        else None).
Proof.
  intros Hy Hmo Hd Hdt. unfold tide_read, tide_datum, datum_type, date_ymd. simpl.
  destruct (String.eqb ty _KEY_TIDE_HIGH || String.eqb ty _KEY_TIDE_LOW); [|done].
  rewrite Hy. simpl. rewrite Hmo. simpl. rewrite Hd. simpl. rewrite Hdt. done.
Qed.

Lemma format_tide_data_foldl raw_data_tides items reads :
  tide_summary raw_data_tides = Ok items ->
  Forall2 (fun datum r => tide_read datum = Ok r) items reads ->
  _format_tide_data raw_data_tides = Ok (foldl tide_store ∅ (omap id reads)).
Proof.
  intros Hitems Hreads. unfold _format_tide_data. rewrite Hitems. simpl.
  by apply for_each_tide_body.
Qed.

Lemma last_entry_app_absent events after datetime_ak key :
  (forall entry, (datetime_ak, key, entry) ∉ after) ->
  last_entry (events ++ after) datetime_ak key = last_entry events datetime_ak key.
Proof.
  induction after as [|ev after IH] using rev_ind; intros Habsent.
  - by rewrite app_nil_r.
  - rewrite app_assoc, last_entry_snoc. destruct ev as [k entry]. simpl.
    destruct (decide (k = (datetime_ak, key))) as [->|_].
    + destruct (Habsent entry). apply elem_of_app. right. apply list_elem_of_here.
    + apply IH. intros e He. apply (Habsent e). apply elem_of_app. by left.
Qed.

(** C5: for a date that has a high-tide entry and no low-tide entry, the
    detail rendered for the date, which is one of the rendered details, shows
    XX for the hour, the minute and the height of the low tide; and the same
    with high and low exchanged. *)
Theorem tide_detail_missing_entry_XX
    (data_tides : gmap datetime (gmap string (gmap string json)))
    (datetime_ak : datetime) (datum : gmap string (gmap string json)) :
  data_tides !! datetime_ak = Some datum ->
  tide_detail datetime_ak datum ∈ tide_string_details data_tides /\
  (forall tide_high,
     datum !! _KEY_TIDE_HIGH = Some tide_high -> datum !! _KEY_TIDE_LOW = None ->
     tide_detail datetime_ak datum
     = _STRING_TIDES_DETAIL (dt_month datetime_ak) (dt_day datetime_ak)
         (get_or_XX tide_high _KEY_HOUR) (get_or_XX tide_high _KEY_MINUTE)
         (get_or_XX tide_high _KEY_TIDE_HEIGHT) "XX" "XX" "XX") /\
  (forall tide_low,
     datum !! _KEY_TIDE_LOW = Some tide_low -> datum !! _KEY_TIDE_HIGH = None ->
     tide_detail datetime_ak datum
     = _STRING_TIDES_DETAIL (dt_month datetime_ak) (dt_day datetime_ak)
         "XX" "XX" "XX"
         (get_or_XX tide_low _KEY_HOUR) (get_or_XX tide_low _KEY_MINUTE)
         (get_or_XX tide_low _KEY_TIDE_HEIGHT)).
Proof.
  intros Hdatum. split; [|split].
  - unfold tide_string_details.
    change (tide_detail datetime_ak datum
            ∈ (fun item => tide_detail (fst item) (snd item)) <$> sorted_items data_tides).
    apply list_elem_of_fmap. exists (datetime_ak, datum). split; [done|].
    by apply elem_of_sorted_items.
  - intros tide_high Hhigh Hlow. unfold tide_detail. rewrite Hhigh, Hlow. done.
  - intros tide_low Hlow Hhigh. unfold tide_detail. rewrite Hhigh, Hlow. done.
Qed.

(** C6: on a well-formed tide payload the high and low tide entries are
    grouped by their calendar date, entries of any other type are left out,
    and the details are rendered one per date in strictly ascending order of
    the dates. *)
Theorem format_tide_data_grouped_and_sorted
    (raw_data_tides : json) (items : list json) (reads : list (option tide_event)) :
  tide_summary raw_data_tides = Ok items ->
  Forall2 (fun datum r => tide_read datum = Ok r) items reads ->
  exists data_tides,
    _format_tide_data raw_data_tides = Ok data_tides /\
    (forall datetime_ak,
       is_Some (data_tides !! datetime_ak)
       <-> exists key entry, (datetime_ak, key, entry) ∈ omap id reads) /\
    (forall datetime_ak key,
       is_Some (tide_lookup data_tides datetime_ak key)
       <-> exists entry, (datetime_ak, key, entry) ∈ omap id reads) /\
    (forall datetime_ak key entry,
       (datetime_ak, key, entry) ∈ omap id reads ->
       (key = _KEY_TIDE_HIGH \/ key = _KEY_TIDE_LOW) /\
       dt_hour datetime_ak = 0 /\ dt_minute datetime_ak = 0) /\
    (forall (i : nat) datum ty,
       items !! i = Some datum -> datum_type datum = Ok ty ->
       ty <> JStr _KEY_TIDE_HIGH -> ty <> JStr _KEY_TIDE_LOW ->
       reads !! i = Some None) /\
    exists dates : list datetime,
      StronglySorted datetime_lt dates /\
      (forall datetime_ak, datetime_ak ∈ dates <-> is_Some (data_tides !! datetime_ak)) /\
      tide_string_details data_tides
      = map (fun datetime_ak =>
               tide_detail datetime_ak (default ∅ (data_tides !! datetime_ak))) dates.
Proof.
  intros Hitems Hreads. exists (foldl tide_store ∅ (omap id reads)).
  split; [by apply (format_tide_data_foldl _ items)|].
  split; [apply lookup_foldl_tide_store|].
  split; [intros dt key; rewrite tide_lookup_foldl; apply last_entry_is_Some|].
  split; [|split].
  - intros dt key entry Hev.
    apply list_elem_of_omap in Hev as (r & Hr & Hsome). simpl in Hsome. subst r.
    apply list_elem_of_lookup in Hr as [i Hi].
    destruct (Forall2_lookup_r _ _ _ _ _ Hreads Hi) as (datum & _ & Hread).
    by apply tide_read_event in Hread as (_ & Hkey & Hhour & Hminute).
  - intros i datum ty Hi Hty Hhigh Hlow.
    destruct (Forall2_lookup_l _ _ _ _ _ Hreads Hi) as (r & Hr & Hread).
    rewrite (tide_read_other datum ty) in Hread by done. congruence.
  - exists (map fst (sorted_items (foldl tide_store ∅ (omap id reads)))).
    destruct (sorted_items_keys (foldl tide_store ∅ (omap id reads))) as [Hsorted Hkeys].
    split; [done|]. split; [done|]. apply tide_string_details_by_date.
Qed.

(** C9: when the feed has several entries of one type on one date, the
    grouping keeps the last of them: under a date and a type there is one
    entry, that of the last such entry of the feed. *)
Theorem format_tide_data_last_entry_wins
    (raw_data_tides : json) (items : list json) (reads : list (option tide_event)) :
  tide_summary raw_data_tides = Ok items ->
  Forall2 (fun datum r => tide_read datum = Ok r) items reads ->
  exists data_tides,
    _format_tide_data raw_data_tides = Ok data_tides /\
    (forall datetime_ak key,
       tide_lookup data_tides datetime_ak key
       = last_entry (omap id reads) datetime_ak key) /\
    (forall before between after datetime_ak key earlier later,
       omap id reads
       = before ++ (datetime_ak, key, earlier) :: between
           ++ (datetime_ak, key, later) :: after ->
       (forall entry, (datetime_ak, key, entry) ∉ after) ->
       tide_lookup data_tides datetime_ak key = Some later).
Proof.
  intros Hitems Hreads. exists (foldl tide_store ∅ (omap id reads)).
  split; [by apply (format_tide_data_foldl _ items)|].
  split; [apply tide_lookup_foldl|].
  intros before between after dt key earlier later Hevents Habsent.
  rewrite tide_lookup_foldl, Hevents.
  replace (before ++ (dt, key, earlier) :: between ++ (dt, key, later) :: after)
    with (((before ++ (dt, key, earlier) :: between) ++ [(dt, key, later)]) ++ after)
    by (by rewrite <- !app_assoc).
  rewrite last_entry_app_absent by done.
  rewrite last_entry_snoc. simpl. by rewrite decide_True.
Qed.

(** ** Current temperature *)

Lemma step_fails_spec key e : step_fails key e <-> temperature_text key = Err e.
Proof.
  unfold step_fails, temperature_text,
    _get_current_temperature_data_from_weather_underground.
  split.
  - intros H.
    repeat (destruct H as [H | (? & Hok & H)];
            [by rewrite H | rewrite Hok; clear Hok; simpl]).
    done.
  - intros H.
    destruct (latlon key) as [query|] eqn:E0; simpl in H; [right | left; congruence].
    exists query. split; [done|].
    destruct (requests_get_text _) as [text|] eqn:E1; simpl in H; [right | left; congruence].
    exists text. split; [done|].
    destruct (json_loads text) as [loaded|] eqn:E2; simpl in H; [right | left; congruence].
    exists loaded. split; [done|].
    destruct (getitem loaded "current_observation") as [co|] eqn:E3; simpl in H;
      [right | left; congruence].
    exists co. split; [done|].
    destruct (getitem co "temp_f") as [raw_temp|] eqn:E4; simpl in H;
      [right | left; congruence].
    exists raw_temp. done.
Qed.

Lemma current_temperature_body_appends padding acc entry :
  current_temperature_body padding acc entry
  = (y ← (temperature ← temperature_text (fst entry);
          Ok (city_line padding (snd entry) temperature));
     Ok (acc ++ [y])).
Proof.
  destruct entry as [key city]. unfold current_temperature_body, temperature_text. simpl.
  destruct (_get_current_temperature_data_from_weather_underground key); simpl; [|done].
  destruct (format_f0 _); done.
Qed.

Lemma string_padding_value : string_padding = Ok 14%nat.
Proof. reflexivity. Qed.

Lemma length_string_repeat c n : String.length (string_repeat c n) = n.
Proof. induction n; simpl; congruence. Qed.

Lemma length_str_app s t : String.length (s +:+ t) = (String.length s + String.length t)%nat.
Proof. induction s; [done|]. rewrite str_app_cons. simpl. congruence. Qed.

Lemma length_ljust s width fill :
  String.length (ljust s width fill) = Nat.max width (String.length s).
Proof. unfold ljust. rewrite length_str_app, length_string_repeat. lia. Qed.

Lemma get_current_temperature_ok temperatures :
  Forall2 (fun entry t => temperature_text (fst entry) = Ok t)
    _ORDER_CURRENT_TEMPERATURE temperatures ->
  get_current_temperature
  = Ok (_STRING_CURRENT_TEMPERATURE
          (join (zip_with (fun entry t => city_line 14 (snd entry) t)
                   _ORDER_CURRENT_TEMPERATURE temperatures))).
Proof.
  intros H. unfold get_current_temperature. rewrite string_padding_value, bind_Ok.
  rewrite (for_each_append_ok _ _ (current_temperature_body_appends 14) _
             (zip_with (fun entry t => city_line 14 (snd entry) t)
                _ORDER_CURRENT_TEMPERATURE temperatures) []); [done|].
  clear -H. induction H as [|entry t entries ts Ht _ IH]; simpl; constructor.
  - by rewrite Ht.
  - apply IH.
Qed.

(** C7, amended: the padding of the table is the length of the longest
    display name, the 14 of Cooper Landing.  The city field of every line is
    the name with its colon followed by the spaces that fill it to this
    width, the spaces on the right, so the field of a name that fits with
    its colon is 14 characters wide; this is so for the nine names other
    than Cooper Landing. *)
Theorem current_temperature_padding :
  string_padding = Ok 14%nat /\
  ("cooper_landing", "Cooper Landing") ∈ _ORDER_CURRENT_TEMPERATURE /\
  String.length "Cooper Landing" = 14%nat /\
  (forall key city,
     (key, city) ∈ _ORDER_CURRENT_TEMPERATURE -> (String.length city <= 14)%nat) /\
  (forall city temperature,
     _STRING_CURRENT_TEMPERATURE_DETAIL (city +:+ ":") 14 temperature
     = "  " +:+ ((city +:+ ":")
               +:+ string_repeat " "%char (14 - (String.length city + 1)))
       +:+ "  " +:+ temperature +:+ NL /\
     ((String.length city + 1 <= 14)%nat ->
      String.length ((city +:+ ":")
                     +:+ string_repeat " "%char (14 - (String.length city + 1)))
      = 14%nat)) /\
  (forall key city,
     (key, city) ∈ _ORDER_CURRENT_TEMPERATURE -> city <> "Cooper Landing" ->
     (String.length city + 1 <= 14)%nat) /\
  (forall temperatures,
     Forall2 (fun entry t => temperature_text (fst entry) = Ok t)
       _ORDER_CURRENT_TEMPERATURE temperatures ->
     get_current_temperature
     = Ok (_STRING_CURRENT_TEMPERATURE
             (join (zip_with (fun entry t => city_line 14 (snd entry) t)
                      _ORDER_CURRENT_TEMPERATURE temperatures)))).
Proof.
  split; [reflexivity|]. split; [|split; [reflexivity|split; [|split; [|split]]]].
  - unfold _ORDER_CURRENT_TEMPERATURE. set_solver.
  - intros key city H. unfold _ORDER_CURRENT_TEMPERATURE in H.
    repeat (apply elem_of_cons in H as [[= -> ->]|H]; [simpl; lia|]).
    by apply elem_of_nil in H.
  - intros city temperature.
    assert (String.length (city +:+ ":") = (String.length city + 1)%nat) as Hlen.
    { rewrite length_str_app. reflexivity. }
    split.
    + unfold _STRING_CURRENT_TEMPERATURE_DETAIL, ljust. by rewrite Hlen.
    + intros Hfits. rewrite length_str_app, Hlen, length_string_repeat. lia.
  - intros key city H Hother. unfold _ORDER_CURRENT_TEMPERATURE in H.
    repeat (apply elem_of_cons in H as [[= -> ->]|H];
            [first [done | simpl; lia]|]).
    by apply elem_of_nil in H.
  - apply get_current_temperature_ok.
Qed.

(** C8: when a step fails for one of the locations, the report fails as
    a whole, with the exception of the first location that fails, in
    [get_current_temperature] and in the entry point alike; no text is
    returned. *)
Theorem get_current_temperature_propagates (key city : string) (e : exn) :
  (key, city) ∈ _ORDER_CURRENT_TEMPERATURE ->
  step_fails key e ->
  exists before entry after e',
    _ORDER_CURRENT_TEMPERATURE = before ++ entry :: after /\
    Forall (fun entry => is_ok (temperature_text (fst entry))) before /\
    step_fails (fst entry) e' /\
    get_current_temperature = Err e' /\
    main current = Err e'.
Proof.
  intros Hin Hfails. apply step_fails_spec in Hfails.
  destruct (first_failure (fun entry => temperature_text (fst entry))
              _ORDER_CURRENT_TEMPERATURE) as (before & entry & after & e' & Hsplit & Hok & He').
  { apply Exists_exists. exists (key, city). split; [done|]. by exists e. }
  exists before, entry, after, e'. split; [done|]. split; [done|].
  split; [by apply step_fails_spec|].
  assert (get_current_temperature = Err e') as Hfail; [|by split].
  unfold get_current_temperature. rewrite string_padding_value, bind_Ok.
  rewrite Hsplit.
  rewrite (for_each_append_err _ _ (current_temperature_body_appends 14)
             before entry after e'); [done| |by rewrite He'].
  eapply Forall_impl; [exact Hok|]. intros x [t Ht]. rewrite Ht. by eexists.
Qed.

(** ** Sunrise and sunset *)

Lemma sunphase_body_read_assign ymd st datum :
  sunphase_body ymd st datum = (r ← sun_read ymd datum; Ok (sun_assign st r)).
Proof.
  unfold sunphase_body, sun_read.
  destruct (getitem datum "date") as [date|]; simpl; [|done].
  destruct (date_ymd date) as [datum_ymd|]; simpl; [|done].
  destruct (bool_decide (datum_ymd ≠ ymd)); [done|].
  destruct (getitem date "hour" ≫= _) as [hour|]; simpl; [|done].
  destruct (getitem date "min" ≫= _) as [minute|]; simpl; [|done].
  destruct (datum_type datum) as [ty|]; simpl; done.
Qed.

Lemma for_each_sunphase_body ymd items reads st :
  Forall2 (fun datum r => sun_read ymd datum = Ok r) items reads ->
  for_each (sunphase_body ymd) items st = Ok (foldl sun_assign st reads).
Proof.
  intros H. revert st.
  induction H as [|datum r items reads Hr _ IH]; intros st; simpl; [done|].
  rewrite sunphase_body_read_assign, Hr. simpl. apply IH.
Qed.

Lemma py_eq_str_false ty key : ty <> JStr key -> py_eq_str ty key = false.
Proof.
  intros H. destruct ty as [| | | |s| |]; simpl; try done.
  destruct (String.eqb_spec s key) as [->|]; done.
Qed.

Lemma foldl_sun_assign_no_sunrise reads st :
  no_entry_of_type _KEY_SUNRISE reads -> fst (foldl sun_assign st reads) = fst st.
Proof.
  revert st. induction reads as [|r reads IH]; intros st Hno; simpl; [done|].
  rewrite IH.
  - destruct r as [[[hour minute] ty]|]; simpl; [|done].
    rewrite py_eq_str_false; [done|]. apply (Hno hour minute). apply list_elem_of_here.
  - intros hour minute ty H. apply (Hno hour minute). by apply list_elem_of_further.
Qed.

Lemma foldl_sun_assign_no_sunset reads st :
  no_entry_of_type _KEY_SUNSET reads -> snd (foldl sun_assign st reads) = snd st.
Proof.
  revert st. induction reads as [|r reads IH]; intros st Hno; simpl; [done|].
  rewrite IH.
  - destruct r as [[[hour minute] ty]|]; simpl; [|done].
    rewrite py_eq_str_false; [done|]. apply (Hno hour minute). apply list_elem_of_here.
  - intros hour minute ty H. apply (Hno hour minute). by apply list_elem_of_further.
Qed.

Lemma py_eq_str_true ty key : py_eq_str ty key = true -> ty = JStr key.
Proof.
  destruct ty as [| | | |s| |]; simpl; try done.
  destruct (String.eqb_spec s key) as [->|]; done.
Qed.

Lemma foldl_sun_assign_times reads st :
  times_of_day reads -> time_of_day (fst st) -> time_of_day (snd st) ->
  time_of_day (fst (foldl sun_assign st reads)) /\
  time_of_day (snd (foldl sun_assign st reads)).
Proof.
  revert st. induction reads as [|r reads IH]; intros st Htimes H1 H2; simpl; [done|].
  assert (times_of_day reads) as Hrest.
  { intros hour minute ty H. apply (Htimes hour minute ty). by apply list_elem_of_further. }
  apply IH; [done| |].
  - destruct r as [[[hour minute] ty]|]; simpl; [|done].
    destruct (py_eq_str ty _KEY_SUNRISE) eqn:E; [|done].
    apply (Htimes hour minute ty); [apply list_elem_of_here|].
    left. by apply py_eq_str_true.
  - destruct r as [[[hour minute] ty]|]; simpl; [|done].
    destruct (py_eq_str ty _KEY_SUNSET) eqn:E; [|done].
    apply (Htimes hour minute ty); [apply list_elem_of_here|].
    right. by apply py_eq_str_true.
Qed.

Lemma in_range_true lo hi n : lo <= n <= hi -> in_range lo hi n = true.
Proof. apply in_range_spec. Qed.

(** A time of day on a date the constructor accepts gives a datetime. *)
Lemma datetime_datetime_time year month day hour minute midnight :
  datetime_datetime year month day 0 0 = Ok midnight ->
  0 <= hour <= 23 -> 0 <= minute <= 59 ->
  datetime_datetime year month day hour minute
  = Ok (Datetime year month day hour minute).
Proof.
  intros Hdate Hh Hm.
  apply datetime_datetime_inv in Hdate as (_ & Hy & Hmo & Hd & _).
  assert (_days_in_month year month <= 31) as Hdim.
  { unfold _days_in_month. destruct (_ && _); [lia|].
    assert (exists n : nat, (1 <= n <= 12)%nat /\ month = Z.of_nat n) as (n & Hn & ->)
      by (exists (Z.to_nat month); lia).
    rewrite Nat2Z.id.
    do 13 (destruct n as [|n]; [simpl; lia|]). lia. }
  unfold datetime_datetime.
  assert (forallb fits_c_int [year; month; day; hour; minute] = true) as ->.
  { simpl. unfold fits_c_int. repeat (apply andb_true_intro; split); lia. }
  simpl. rewrite !in_range_true by lia. done.
Qed.

Lemma format_sunphase_data_foldl raw_data_tides items reads year month day :
  _get_tomorrow_datetime_in_alaska_tz = (year, month, day) ->
  tide_summary raw_data_tides = Ok items ->
  Forall2 (fun datum r => sun_read (year, month, day) datum = Ok r) items reads ->
  _format_sunphase_data raw_data_tides
  = (let st := foldl sun_assign ((0, 0), (0, 0)) reads in
     sunrise ← datetime_datetime year month day (fst (fst st)) (snd (fst st));
     sunset ← datetime_datetime year month day (fst (snd st)) (snd (snd st));
     Ok (sunrise, sunset)).
Proof.
  intros Hclock Hitems Hreads. unfold _format_sunphase_data.
  rewrite Hclock, Hitems, bind_Ok.
  rewrite (for_each_sunphase_body _ _ reads) by done. rewrite bind_Ok.
  by destruct (foldl sun_assign (0, 0, (0, 0)) reads) as [[? ?] [? ?]].
Qed.

(** What [get_sunphase_and_tides] reports as daylight is what
    [_format_sunphase_data] returns on the payload of the Kenai River. *)
Lemma get_sunphase_and_tides_daylight raw_data_tides out :
  _get_tide_data_from_weather_underground "kenai_river" = Ok raw_data_tides ->
  get_sunphase_and_tides = Ok out ->
  exists sunrise sunset tides,
    _format_sunphase_data raw_data_tides = Ok (sunrise, sunset) /\
    out = _STRING_DAYLIGHT (dt_month sunrise) (dt_day sunrise)
            (dt_hour sunrise) (dt_minute sunrise) (dt_hour sunset) (dt_minute sunset)
            (fst (_get_total_daylight_hours_and_minutes (datetime_sub sunset sunrise)))
            (snd (_get_total_daylight_hours_and_minutes (datetime_sub sunset sunrise)))
          +:+ tides.
Proof.
  intros Hraw H. unfold get_sunphase_and_tides in H. cbn [for_each] in H.
  apply bind_Ok_inv in H as (st & Hloop & H).
  apply bind_Ok_inv in Hloop as (st1 & _ & Hloop).
  apply bind_Ok_inv in Hloop as (st2 & Hbody & [= ->]).
  unfold daily_body in Hbody. rewrite Hraw, bind_Ok in Hbody.
  apply bind_Ok_inv in Hbody as (sunphase & Hsun & Hbody).
  apply bind_Ok_inv in Hbody as (data_tides & _ & [= <-]).
  change ("kenai_river" =? "kenai_river")%string with true in Hsun.
  apply bind_Ok_inv in Hsun as ([sunrise sunset] & Hformat & [= <-]).
  cbn [ds_sunphase] in H.
  destruct (_get_total_daylight_hours_and_minutes (datetime_sub sunset sunrise))
    as [daylight_hours daylight_minutes] eqn:Hdaylight.
  apply bind_Ok_inv in H as (tides & _ & [= <-]).
  exists sunrise, sunset, tides. by rewrite Hdaylight.
Qed.

Lemma daylight_of_equal_times t :
  _get_total_daylight_hours_and_minutes (datetime_sub t t) = (0, 0).
Proof.
  rewrite (daylight_of_whole_minutes _ 0); [done|].
  rewrite datetime_sub_same_date by done. f_equal. lia.
Qed.

(** C10: when the payload has no Sunrise entry dated tomorrow, the sunrise
    is midnight of that date, and no exception is raised; the same for the
    sunset; with both missing the daylight is 0 hours and 0 minutes, and this
    is what the report shows. *)
Theorem format_sunphase_data_defaults_to_midnight
    (raw_data_tides : json) (items : list json) (reads : list (option (Z * Z * json)))
    (year month day : Z) (midnight : datetime) :
  _get_tomorrow_datetime_in_alaska_tz = (year, month, day) ->
  datetime_datetime year month day 0 0 = Ok midnight ->
  tide_summary raw_data_tides = Ok items ->
  Forall2 (fun datum r => sun_read (year, month, day) datum = Ok r) items reads ->
  times_of_day reads ->
  (no_entry_of_type _KEY_SUNRISE reads ->
   exists sunset, _format_sunphase_data raw_data_tides = Ok (midnight, sunset)) /\
  (no_entry_of_type _KEY_SUNSET reads ->
   exists sunrise, _format_sunphase_data raw_data_tides = Ok (sunrise, midnight)) /\
  (no_entry_of_type _KEY_SUNRISE reads -> no_entry_of_type _KEY_SUNSET reads ->
   _format_sunphase_data raw_data_tides = Ok (midnight, midnight) /\
   _get_total_daylight_hours_and_minutes (datetime_sub midnight midnight) = (0, 0) /\
   forall out,
     _get_tide_data_from_weather_underground "kenai_river" = Ok raw_data_tides ->
     get_sunphase_and_tides = Ok out ->
     exists tides,
       out = (NL +:+ "Daylight " +:+ fmt_02d month +:+ "/" +:+ fmt_02d day +:+ NL
              +:+ "  Sunrise:  00:00" +:+ NL
              +:+ "  Sunset:   00:00" +:+ NL
              +:+ "  Total:    0 hours and 0 minutes" +:+ NL +:+ NL) +:+ tides).
Proof.
  intros Hclock Hdate Hitems Hreads Htimes.
  pose proof (format_sunphase_data_foldl _ _ _ _ _ _ Hclock Hitems Hreads) as Hformat.
  cbv zeta in Hformat.
  destruct (foldl_sun_assign_times reads ((0, 0), (0, 0)) Htimes) as [Hrise Hset];
    [unfold time_of_day; simpl; lia .. |].
  pose proof (datetime_datetime_inv _ _ _ _ _ _ Hdate) as [Hmidnight _].
  assert (no_entry_of_type _KEY_SUNRISE reads ->
          datetime_datetime year month day
            (fst (fst (foldl sun_assign ((0, 0), (0, 0)) reads)))
            (snd (fst (foldl sun_assign ((0, 0), (0, 0)) reads))) = Ok midnight) as Hnorise.
  { intros Hno. by rewrite foldl_sun_assign_no_sunrise. }
  assert (no_entry_of_type _KEY_SUNSET reads ->
          datetime_datetime year month day
            (fst (snd (foldl sun_assign ((0, 0), (0, 0)) reads)))
            (snd (snd (foldl sun_assign ((0, 0), (0, 0)) reads))) = Ok midnight) as Hnoset.
  { intros Hno. by rewrite foldl_sun_assign_no_sunset. }
  split; [|split].
  - intros Hno. rewrite Hformat, (Hnorise Hno), bind_Ok.
    rewrite (datetime_datetime_time _ _ _ _ _ midnight Hdate) by apply Hset.
    by eexists.
  - intros Hno. rewrite Hformat, (Hnoset Hno).
    rewrite (datetime_datetime_time _ _ _ _ _ midnight Hdate) by apply Hrise.
    by eexists.
  - intros Hno1 Hno2.
    assert (_format_sunphase_data raw_data_tides = Ok (midnight, midnight)) as Hboth.
    { by rewrite Hformat, (Hnorise Hno1), (Hnoset Hno2). }
    split; [done|]. split; [apply daylight_of_equal_times|].
    intros out Hraw Hout.
    destruct (get_sunphase_and_tides_daylight _ _ Hraw Hout)
      as (sunrise & sunset & tides & Hsun & ->).
    rewrite Hboth in Hsun. injection Hsun as <- <-.
    exists tides. rewrite daylight_of_equal_times, Hmidnight. reflexivity.
Qed.

(** ** Daylight across dates *)

Lemma datetime_sub_minutes a b :
  total_seconds (datetime_sub a b) = inject_Z (60 * minutes_between a b).
Proof.
  unfold datetime_sub. rewrite total_seconds_timedelta_new.
  unfold minutes_between, minute_of_day. f_equal. lia.
Qed.

Lemma quot_60_neg (m : Z) : m < 0 -> Z.quot m 60 = - ((- m) / 60).
Proof.
  intros Hm. rewrite <- (Z.quot_div_nonneg (- m) 60) by lia.
  rewrite Z.quot_opp_l by lia. lia.
Qed.

(** On any two datetimes the hours are the difference in minutes divided by
    60 and truncated towards zero, the minutes are the remainder of the
    floored division: they add up to the difference when it is not negative,
    and to an hour too much when it is negative and not a whole number of
    hours. *)
Theorem daylight_of_any_difference (a b : datetime) :
  _get_total_daylight_hours_and_minutes (datetime_sub a b)
  = (Z.quot (minutes_between a b) 60, minutes_between a b mod 60) /\
  (0 <= minutes_between a b ->
   60 * Z.quot (minutes_between a b) 60 + minutes_between a b mod 60
   = minutes_between a b) /\
  (minutes_between a b < 0 -> minutes_between a b mod 60 <> 0 ->
   60 * Z.quot (minutes_between a b) 60 + minutes_between a b mod 60
   = minutes_between a b + 60).
Proof.
  split; [|split].
  - apply daylight_of_whole_minutes, datetime_sub_minutes.
  - intros Hm. rewrite Z.quot_div_nonneg by lia.
    pose proof (Z.div_mod (minutes_between a b) 60). lia.
  - intros Hm Hrem. rewrite quot_60_neg by done.
    pose proof (Z.div_mod (minutes_between a b) 60).
    pose proof (Z.div_mod (- minutes_between a b) 60).
    pose proof (Z.mod_pos_bound (minutes_between a b) 60).
    pose proof (Z.mod_pos_bound (- minutes_between a b) 60).
    nia.
Qed.

(** ** Splitting the marine feed *)

Lemma string_ind2 (P : string -> Prop) :
  P EmptyString ->
  (forall c, P (String c EmptyString)) ->
  (forall c c' rest, P rest -> P (String c' rest) -> P (String c (String c' rest))) ->
  forall s, P s.
Proof.
  intros Hnil Hone Htwo s.
  assert (P s /\ forall c, P (String c s)) as [H _]; [|exact H].
  induction s as [|c' s [IH1 IH2]]; split; auto.
Qed.

Lemma re_split_two c c' rest :
  re_split (String c (String c' rest))
  = if Ascii.eqb c "$" && Ascii.eqb c' "$" then EmptyString :: re_split rest
    else match re_split (String c' rest) with
         | b :: bs => String c b :: bs
         | [] => [String c EmptyString]
         end.
Proof. reflexivity. Qed.

Lemma re_split_nonempty text : re_split text <> [].
Proof.
  induction text as [|c|c c' rest _ _] using string_ind2; try done.
  rewrite re_split_two. destruct (_ && _); [done|].
  destruct (re_split (String c' rest)); done.
Qed.

Lemma join_with_cons sep c b bs :
  join_with sep (String c b :: bs) = String c (join_with sep (b :: bs)).
Proof. destruct bs; reflexivity. Qed.

(** The first block starts as the text does, unless the text starts with
    the delimiter. *)
Lemma re_split_head c text b bs :
  re_split (String c text) = b :: bs ->
  b = EmptyString \/ exists b', b = String c b'.
Proof.
  destruct text as [|c' rest].
  - intros [= <- <-]. right. by eexists.
  - rewrite re_split_two. destruct (_ && _).
    + intros [= <- <-]. by left.
    + destruct (re_split (String c' rest)); intros [= <- <-]; right; by eexists.
Qed.

Lemma re_search_delimiter_cons c b :
  re_search "$$" (String c b)
  = (Ascii.eqb "$" c && starts_with "$" b) || re_search "$$" b.
Proof.
  simpl. destruct (Ascii.eqb "$" c); simpl; [|done].
  destruct b as [|d b]; simpl; [done|]. by destruct (Ascii.eqb "$" d).
Qed.

Lemma re_split_blocks text :
  Forall (fun b => re_search "$$" b = false) (re_split text).
Proof.
  induction text as [|c|c c' rest IH1 IH2] using string_ind2.
  - by constructor.
  - constructor; [|constructor]. rewrite re_search_delimiter_cons. simpl.
    by rewrite andb_false_r.
  - rewrite re_split_two. destruct (Ascii.eqb c "$" && Ascii.eqb c' "$") eqn:Hboth.
    + by constructor.
    + destruct (re_split (String c' rest)) as [|b bs] eqn:Hsplit.
      * by destruct (re_split_nonempty (String c' rest)).
      * apply Forall_cons in IH2 as [Hb Hbs]. constructor; [|done].
        rewrite re_search_delimiter_cons, Hb, orb_false_r.
        destruct (Ascii.eqb_spec "$"%char c) as [<-|]; [|done]. simpl in Hboth.
        apply re_split_head in Hsplit as [-> | [b' ->]]; [done|].
        change (starts_with "$" (String c' b'))
          with (if Ascii.eqb "$" c' then true else false).
        by rewrite Ascii.eqb_sym, Hboth.
Qed.

(** Joining the blocks of the split feed with the delimiter gives the feed
    back. *)
Theorem re_split_join (text : string) : join_with "$$" (re_split text) = text.
Proof.
  induction text as [|c|c c' rest IH1 IH2] using string_ind2; try done.
  rewrite re_split_two. destruct (Ascii.eqb c "$" && Ascii.eqb c' "$") eqn:Hboth.
  - apply andb_true_iff in Hboth as [Hc Hc'].
    apply Ascii.eqb_eq in Hc, Hc'. subst c c'.
    destruct (re_split rest) as [|b bs] eqn:Hsplit.
    + by destruct (re_split_nonempty rest).
    + cbn [join_with]. rewrite <- IH1. reflexivity.
  - destruct (re_split (String c' rest)) as [|b bs] eqn:Hsplit.
    + by destruct (re_split_nonempty (String c' rest)).
    + by rewrite join_with_cons, IH2.
Qed.

(** No block of the split feed contains the delimiter, and there is always
    at least one block. *)
Theorem re_split_blocks_without_delimiter (text : string) :
  re_split text <> [] /\
  forall b, b ∈ re_split text -> ~ substring "$$" b.
Proof.
  split; [apply re_split_nonempty|].
  intros b Hb. apply re_search_false.
  pose proof (re_split_blocks text) as H. rewrite Forall_forall in H. auto.
Qed.

(** ** The marine forecast and the order of the feed *)

Lemma for_each_ext {S A} (body1 body2 : S -> A -> result S) l st :
  (forall st x, x ∈ l -> body1 st x = body2 st x) ->
  for_each body1 l st = for_each body2 l st.
Proof.
  revert st. induction l as [|x l IH]; intros st H; simpl; [done|].
  rewrite (H st x) by apply list_elem_of_here.
  destruct (body2 st x) as [st'|]; simpl; [|done].
  apply IH. intros st0 x0 Hx0. apply H. by apply list_elem_of_further.
Qed.

Lemma first_block_in blocks r b : first_block_containing blocks r b -> b ∈ blocks.
Proof. intros (i & Hi & _). by eapply list_elem_of_lookup_2. Qed.

Lemma marine_pick_permutation split1 split2 r :
  split1 ≡ₚ split2 ->
  (forall b1 b2, b1 ∈ split1 -> b2 ∈ split1 -> substring r b1 -> substring r b2 -> b1 = b2) ->
  marine_pick split1 r = marine_pick split2 r.
Proof.
  intros Hperm Hone.
  destruct (existsb (re_search r) split1) eqn:E.
  - apply existsb_exists in E as (b & Hb & Hs).
    apply list_elem_of_In in Hb. apply re_search_spec in Hs.
    destruct (marine_pick_found split1 r) as (b1 & -> & H1); [by eauto|].
    destruct (marine_pick_found split2 r) as (b2 & -> & H2).
    { exists b. split; [by rewrite <- Hperm | done]. }
    f_equal. apply Hone.
    + by eapply first_block_in.
    + rewrite Hperm. by eapply first_block_in.
    + by destruct H1 as (? & _ & ? & _).
    + by destruct H2 as (? & _ & ? & _).
  - assert (forall b, b ∈ split1 -> ~ substring r b) as Hnone.
    { intros b Hb Hs. apply re_search_spec in Hs.
      assert (existsb (re_search r) split1 = true); [|congruence].
      apply existsb_exists. exists b. split; [by apply list_elem_of_In | done]. }
    rewrite !marine_pick_missing; [done| |done].
    intros b Hb. apply Hnone. by rewrite Hperm.
Qed.

Lemma one_block_per_regionb_spec regions blocks :
  one_block_per_regionb regions blocks = true -> one_block_per_region regions blocks.
Proof.
  intros H r b1 b2 Hr Hb1 Hb2 Hs1 Hs2. unfold one_block_per_regionb in H.
  rewrite forallb_forall in H.
  specialize (H r (proj1 (list_elem_of_In _ _) Hr)). apply Nat.leb_le in H.
  assert (In b1 (List.filter (re_search r) blocks)) as H1.
  { apply filter_In. split; [by apply list_elem_of_In | by apply re_search_spec]. }
  assert (In b2 (List.filter (re_search r) blocks)) as H2.
  { apply filter_In. split; [by apply list_elem_of_In | by apply re_search_spec]. }
  destruct (List.filter (re_search r) blocks) as [|x [|y l]]; simpl in *; [done| |lia].
  destruct H1 as [<-|[]], H2 as [<-|[]]. done.
Qed.

(** When each region occurs in at most one block, the marine forecast does
    not depend on the order of the blocks in the feed. *)
Theorem order_marine_forecast_permutation (split_text1 split_text2 : list string) :
  split_text1 ≡ₚ split_text2 ->
  one_block_per_region _ORDER_MARINE_FORECAST split_text1 ->
  order_marine_forecast split_text1 = order_marine_forecast split_text2.
Proof.
  intros Hperm Hone. unfold order_marine_forecast. f_equal.
  apply for_each_ext. intros acc r Hr.
  rewrite !marine_body_appends.
  rewrite (marine_pick_permutation split_text1 split_text2 r Hperm); [done|].
  intros b1 b2. by apply Hone.
Qed.

(** ** The forecast report *)

(** The extraction raises the exception of the first entry before the cut
    that lacks its period, its title or its text. *)
Theorem format_forecast_data_first_bad_entry
    (raw_data_forecast : json) (items pre rest : list json) (bad : json)
    (outs : list (json * json)) (e : exn) :
  forecastday raw_data_forecast = Ok items ->
  items = pre ++ bad :: rest ->
  Forall2 kept_as pre outs ->
  forecast_entry_fails bad e ->
  _format_forecast_data raw_data_forecast = Err e.
Proof.
  intros Hitems -> Hkept Hbad. unfold _format_forecast_data. rewrite Hitems, bind_Ok.
  rewrite (forecast_loop_prefix pre (bad :: rest) outs) by done. simpl.
  destruct Hbad as [Hp | (period & Hp & Hne & [Ht | (title & Ht & Hf)])].
  - by rewrite Hp.
  - rewrite Hp. simpl. rewrite Hne, Ht. done.
  - rewrite Hp. simpl. rewrite Hne, Ht. simpl. rewrite Hf. done.
Qed.

Lemma forecast_body_unfold location_details key name :
  forecast_body location_details (key, name)
  = (data_forecast ← forecast_of key;
     Ok (<[key +:+ "_detail" := forecast_detail data_forecast]> location_details)).
Proof.
  unfold forecast_body, forecast_of.
  destruct (_get_forecast_data_from_weather_underground key) as [raw|]; simpl; [|done].
  destruct (_format_forecast_data raw); done.
Qed.

Lemma _STRING_FORECAST_two western anchorage :
  _STRING_FORECAST
    (<["anchorage" +:+ "_detail" := anchorage]>
       (<["western_kenai_peninsula" +:+ "_detail" := western]> ∅))
  = Ok (NL +:+ "Forecast" +:+ NL
        +:+ "  Western Kenai Peninsula" +:+ NL +:+ western +:+ NL
        +:+ "  Anchorage" +:+ NL +:+ anchorage +:+ NL).
Proof.
  unfold _STRING_FORECAST.
  rewrite lookup_insert_ne by (vm_compute; discriminate).
  rewrite lookup_insert_eq.
  change ("anchorage" +:+ "_detail") with "anchorage_detail".
  rewrite lookup_insert_eq. done.
Qed.

(** The forecast report is the template filled with the lines of the two
    locations, the Western Kenai Peninsula fetched first; when the fetch or
    the extraction fails for a location the report is its exception, and
    after a failure for the first location the second is not looked at. *)
Theorem get_forecast_composition :
  (forall western anchorage,
     forecast_of "western_kenai_peninsula" = Ok western ->
     forecast_of "anchorage" = Ok anchorage ->
     get_forecast
     = Ok (NL +:+ "Forecast" +:+ NL
           +:+ "  Western Kenai Peninsula" +:+ NL +:+ forecast_detail western +:+ NL
           +:+ "  Anchorage" +:+ NL +:+ forecast_detail anchorage +:+ NL)) /\
  (forall e, forecast_of "western_kenai_peninsula" = Err e -> get_forecast = Err e) /\
  (forall western e,
     forecast_of "western_kenai_peninsula" = Ok western ->
     forecast_of "anchorage" = Err e ->
     get_forecast = Err e).
Proof.
  unfold get_forecast, _ORDER_FORECAST. cbn [for_each].
  rewrite !forecast_body_unfold. split; [|split].
  - intros western anchorage Hw Ha. rewrite Hw, !bind_Ok.
    rewrite forecast_body_unfold, Ha, !bind_Ok.
    apply _STRING_FORECAST_two.
  - intros e Hw. by rewrite Hw.
  - intros western e Hw Ha. rewrite Hw, !bind_Ok.
    rewrite forecast_body_unfold, Ha. done.
Qed.

(** ** The grouped tide data *)

Lemma tide_events_reads items reads :
  Forall2 (fun datum r => tide_read datum = Ok r) items reads ->
  tide_events items = omap id reads.
Proof.
  induction 1 as [|datum r items reads Hr _ IH]; [done|].
  unfold tide_events in *. simpl. rewrite Hr.
  change (list_omap json tide_event) with (@omap list _ json tide_event).
  change (list_omap (option tide_event) tide_event) with (@omap list _ (option tide_event) tide_event).
  by rewrite IH.
Qed.

Lemma readable_reads items :
  readable items -> exists reads, Forall2 (fun datum r => tide_read datum = Ok r) items reads.
Proof.
  induction 1 as [|datum items [r Hr] _ [reads IH]].
  - exists []. constructor.
  - exists (r :: reads). by constructor.
Qed.

Lemma format_tide_data_events raw_data_tides items :
  tide_summary raw_data_tides = Ok items ->
  readable items ->
  _format_tide_data raw_data_tides = Ok (foldl tide_store ∅ (tide_events items)).
Proof.
  intros Hitems Hread. destruct (readable_reads items Hread) as [reads Hreads].
  rewrite (tide_events_reads items reads Hreads).
  by apply (format_tide_data_foldl _ items).
Qed.

Lemma format_tide_data_inv raw_data_tides data_tides :
  _format_tide_data raw_data_tides = Ok data_tides ->
  exists items,
    tide_summary raw_data_tides = Ok items /\ readable items /\
    data_tides = foldl tide_store ∅ (tide_events items).
Proof.
  intros H. pose proof H as Hcopy. unfold _format_tide_data in H.
  apply bind_Ok_inv in H as (items & Hitems & Hloop).
  exists items. split; [done|].
  assert (readable items) as Hread.
  { clear Hitems Hcopy. revert Hloop.
    generalize (∅ : gmap datetime (gmap string (gmap string json))).
    induction items as [|datum items IH]; intros d0 H; [constructor|].
    simpl in H. rewrite tide_body_read_store in H.
    apply bind_Ok_inv in H as (d1 & Hbody & Hrest).
    apply bind_Ok_inv in Hbody as (r & Hr & _).
    constructor; [by exists r | by eapply IH]. }
  split; [done|].
  rewrite (format_tide_data_events raw_data_tides items Hitems Hread) in Hcopy.
  congruence.
Qed.

(** The first entry the loop cannot read ends [_format_tide_data] with its
    exception; no grouped data is returned. *)
Theorem format_tide_data_first_unreadable
    (raw_data_tides : json) (items pre post : list json) (bad : json) (e : exn) :
  tide_summary raw_data_tides = Ok items ->
  items = pre ++ bad :: post ->
  readable pre ->
  tide_read bad = Err e ->
  _format_tide_data raw_data_tides = Err e.
Proof.
  intros Hitems -> Hpre Hbad. unfold _format_tide_data. rewrite Hitems, bind_Ok.
  destruct (readable_reads pre Hpre) as [reads Hreads].
  rewrite for_each_app, (for_each_tide_body pre reads) by done. rewrite bind_Ok.
  simpl. rewrite tide_body_read_store, Hbad. done.
Qed.

Lemma tide_read_event_shape datum datetime_ak key entry :
  tide_read datum = Ok (Some (datetime_ak, key, entry)) ->
  is_datetime datetime_ak /\
  exists hour minute height, entry = tide_entry hour minute height.
Proof.
  unfold tide_read.
  destruct (datum_type datum) as [ty|]; simpl; [|done].
  destruct (tide_type ty) as [k|]; [|done].
  destruct (getitem datum "date") as [date|]; simpl; [|done].
  destruct (date_ymd date) as [[[year mon] mday]|]; simpl; [|done].
  destruct (datetime_datetime year mon mday 0 0) as [dt|] eqn:Hdt; simpl; [|done].
  pose proof (datetime_datetime_inv _ _ _ _ _ _ Hdt) as [-> _].
  destruct (getitem date "hour") as [hour|]; simpl; [|done].
  destruct (getitem date "min") as [minute|]; simpl; [|done].
  destruct (getitem datum "data") as [data|]; simpl; [|done].
  destruct (getitem data "height") as [height|]; simpl; [|done].
  intros [= <- <- <-]. split; [exact Hdt|]. by exists hour, minute, height.
Qed.

Lemma elem_of_tide_events items ev :
  ev ∈ tide_events items -> exists datum, datum ∈ items /\ tide_read datum = Ok (Some ev).
Proof.
  unfold tide_events. intros H.
  apply list_elem_of_omap in H as (datum & Hin & Hev).
  exists datum. split; [done|]. destruct (tide_read datum) as [r|]; [|done].
  simpl in Hev. by subst r.
Qed.

Lemma tide_store_invariant data_tides datetime_ak key entry :
  tide_data_invariant data_tides ->
  is_datetime datetime_ak -> dt_hour datetime_ak = 0 -> dt_minute datetime_ak = 0 ->
  key = _KEY_TIDE_HIGH \/ key = _KEY_TIDE_LOW ->
  (exists hour minute height, entry = tide_entry hour minute height) ->
  tide_data_invariant (tide_store data_tides (datetime_ak, key, entry)).
Proof.
  intros Hinv Hdt Hh Hm Hkey Hentry dt by_type. unfold tide_store.
  destruct (decide (datetime_ak = dt)) as [<-|Hne].
  - rewrite lookup_insert_eq. intros [= <-].
    split; [done|]. split; [done|]. split; [done|]. split.
    + destruct Hkey as [-> | ->]; [left | right]; rewrite lookup_insert_eq; by eexists.
    + intros key' entry'. destruct (decide (key = key')) as [<-|Hk].
      * rewrite lookup_insert_eq. intros [= <-]. done.
      * rewrite lookup_insert_ne by done.
        destruct (data_tides !! datetime_ak) as [old|] eqn:Hold; simpl.
        -- intros Hl. by apply (Hinv datetime_ak old Hold).
        -- by rewrite lookup_empty.
  - rewrite lookup_insert_ne by done. apply Hinv.
Qed.

Lemma foldl_tide_store_invariant items :
  tide_data_invariant (foldl tide_store ∅ (tide_events items)).
Proof.
  assert (forall ev, ev ∈ tide_events items ->
            exists datum, tide_read datum = Ok (Some ev)) as Hall.
  { intros ev Hev. apply elem_of_tide_events in Hev as (datum & _ & H). by exists datum. }
  induction (tide_events items) as [|ev evs IH] using rev_ind.
  - intros dt by_type. simpl. by rewrite lookup_empty.
  - rewrite foldl_app. simpl. destruct ev as [[dt key] entry].
    destruct (Hall (dt, key, entry)) as [datum Hread].
    { apply elem_of_app. right. apply list_elem_of_here. }
    pose proof (tide_read_event _ _ _ _ Hread) as (_ & Hkey & Hh & Hm).
    pose proof (tide_read_event_shape _ _ _ _ Hread) as (Hdt & Hshape).
    apply tide_store_invariant; try done.
    apply IH. intros ev Hev. apply Hall, elem_of_app. by left.
Qed.

(** Whatever [_format_tide_data] returns satisfies the invariant: dates at
    midnight that the calendar has, a high or a low tide under each and no
    other key, an hour, a minute and a height in each entry. *)
Theorem format_tide_data_invariant
    (raw_data_tides : json)
    (data_tides : gmap datetime (gmap string (gmap string json))) :
  _format_tide_data raw_data_tides = Ok data_tides ->
  tide_data_invariant data_tides.
Proof.
  intros H. apply format_tide_data_inv in H as (items & _ & _ & ->).
  apply foldl_tide_store_invariant.
Qed.

Lemma get_or_XX_tide_entry hour minute height :
  get_or_XX (tide_entry hour minute height) _KEY_HOUR = py_str hour /\
  get_or_XX (tide_entry hour minute height) _KEY_MINUTE = py_str minute /\
  get_or_XX (tide_entry hour minute height) _KEY_TIDE_HEIGHT = py_str height.
Proof. repeat split. Qed.

(** In the details of what [_format_tide_data] returns, a date that has
    both tides shows the hour, minute and height the feed gave for each: the
    placeholder stands for a missing entry only. *)
Theorem tide_detail_of_both_tides
    (raw_data_tides : json)
    (data_tides : gmap datetime (gmap string (gmap string json)))
    (datetime_ak : datetime) (by_type : gmap string (gmap string json)) :
  _format_tide_data raw_data_tides = Ok data_tides ->
  data_tides !! datetime_ak = Some by_type ->
  is_Some (by_type !! _KEY_TIDE_HIGH) -> is_Some (by_type !! _KEY_TIDE_LOW) ->
  exists high_hour high_minute high_height low_hour low_minute low_height,
    by_type !! _KEY_TIDE_HIGH = Some (tide_entry high_hour high_minute high_height) /\
    by_type !! _KEY_TIDE_LOW = Some (tide_entry low_hour low_minute low_height) /\
    tide_detail datetime_ak by_type
    = _STRING_TIDES_DETAIL (dt_month datetime_ak) (dt_day datetime_ak)
        (py_str high_hour) (py_str high_minute) (py_str high_height)
        (py_str low_hour) (py_str low_minute) (py_str low_height).
Proof.
  intros H Hdt [high Hhigh] [low Hlow].
  apply format_tide_data_inv in H as (items & _ & _ & ->).
  destruct (foldl_tide_store_invariant items datetime_ak by_type Hdt)
    as (_ & _ & _ & _ & Hentries).
  destruct (Hentries _ _ Hhigh) as (_ & hh & hm & ht & ->).
  destruct (Hentries _ _ Hlow) as (_ & lh & lm & lt & ->).
  exists hh, hm, ht, lh, lm, lt. split; [done|]. split; [done|].
  unfold tide_detail. rewrite Hhigh, Hlow. simpl.
  destruct (get_or_XX_tide_entry hh hm ht) as (-> & -> & ->).
  destruct (get_or_XX_tide_entry lh lm lt) as (-> & -> & ->). done.
Qed.

(** There is one detail for each date of the grouped data, whatever the
    number of entries the feed had for the date. *)
Theorem tide_string_details_one_per_date
    (data_tides : gmap datetime (gmap string (gmap string json))) :
  length (tide_string_details data_tides) = size data_tides /\
  NoDup (map fst (sorted_items data_tides)).
Proof.
  split.
  - unfold tide_string_details, sorted_items.
    rewrite length_map, merge_sort_Permutation. apply length_map_to_list.
  - unfold sorted_items. change (NoDup (fst <$> merge_sort
      (fun a b : datetime * gmap string (gmap string json) => datetime_le (fst a) (fst b))
      (map_to_list data_tides))).
    rewrite merge_sort_Permutation. apply NoDup_fst_map_to_list.
Qed.

(** ** The grouped tide data and the order of the feed *)

Lemma last_entry_elem events datetime_ak key entry :
  last_entry events datetime_ak key = Some entry -> (datetime_ak, key, entry) ∈ events.
Proof.
  unfold last_entry. intros H. apply fmap_Some in H as ([k e] & Hlast & ->).
  apply last_Some in Hlast as [l' Hl'].
  assert ((k, e) ∈ l' ++ [(k, e)]) as Hin
    by (apply elem_of_app; right; apply list_elem_of_here).
  rewrite <- Hl' in Hin.
  apply list_elem_of_filter in Hin as [Hk Hin]. simpl in Hk. by subst k.
Qed.

Lemma NoDup_fst_unique {K V} (l : list (K * V)) k a b :
  NoDup (map fst l) -> (k, a) ∈ l -> (k, b) ∈ l -> a = b.
Proof.
  induction l as [|[k' v] l IH]; intros Hnd Ha Hb; [by apply elem_of_nil in Ha|].
  simpl in Hnd. apply NoDup_cons in Hnd as [Hnotin Hnd].
  assert (forall c, (k', c) ∈ l -> False) as Hfresh.
  { intros c Hc. apply Hnotin. change (map fst l) with (fst <$> l).
    apply list_elem_of_fmap. by exists (k', c). }
  apply elem_of_cons in Ha as [Ha|Ha], Hb as [Hb|Hb].
  - congruence.
  - injection Ha as -> _. by destruct (Hfresh b).
  - injection Hb as -> _. by destruct (Hfresh a).
  - by apply IH.
Qed.

Lemma last_entry_NoDup events datetime_ak key entry :
  NoDup (map fst events) ->
  (datetime_ak, key, entry) ∈ events ->
  last_entry events datetime_ak key = Some entry.
Proof.
  intros Hnd Hin.
  destruct (proj2 (last_entry_is_Some events datetime_ak key)) as [e He]; [by eauto|].
  rewrite He. f_equal. apply last_entry_elem in He.
  by apply (NoDup_fst_unique events (datetime_ak, key)).
Qed.

Lemma last_entry_permutation events1 events2 datetime_ak key :
  events1 ≡ₚ events2 -> NoDup (map fst events1) ->
  last_entry events1 datetime_ak key = last_entry events2 datetime_ak key.
Proof.
  intros Hperm Hnd.
  assert (NoDup (map fst events2)) as Hnd2.
  { change (NoDup (fst <$> events2)). rewrite <- Hperm. exact Hnd. }
  destruct (last_entry events1 datetime_ak key) as [e|] eqn:H1.
  - symmetry. apply last_entry_NoDup; [done|]. rewrite <- Hperm. by apply last_entry_elem.
  - destruct (last_entry events2 datetime_ak key) as [e|] eqn:H2; [|done].
    apply last_entry_elem in H2. rewrite <- Hperm in H2.
    apply (last_entry_NoDup _ _ _ _ Hnd) in H2. congruence.
Qed.

(** The grouped data is determined by the last entry of the feed for each
    date and type. *)
Lemma foldl_tide_store_ext events1 events2 :
  (forall datetime_ak key,
     last_entry events1 datetime_ak key = last_entry events2 datetime_ak key) ->
  foldl tide_store ∅ events1 = foldl tide_store ∅ events2.
Proof.
  intros Hlast. apply map_eq. intros dt.
  assert (forall events by_type,
            foldl tide_store ∅ events !! dt = Some by_type ->
            forall key, by_type !! key = last_entry events dt key) as Hinner.
  { intros events by_type H key. rewrite <- tide_lookup_foldl.
    unfold tide_lookup. by rewrite H. }
  assert (is_Some (foldl tide_store ∅ events1 !! dt)
          <-> is_Some (foldl tide_store ∅ events2 !! dt)) as Hsome.
  { rewrite !lookup_foldl_tide_store. split; intros (key & entry & H).
    - destruct (proj2 (last_entry_is_Some events1 dt key)) as [e He]; [by eauto|].
      rewrite Hlast in He. apply last_entry_elem in He. by eauto.
    - destruct (proj2 (last_entry_is_Some events2 dt key)) as [e He]; [by eauto|].
      rewrite <- Hlast in He. apply last_entry_elem in He. by eauto. }
  destruct (foldl tide_store ∅ events1 !! dt) as [m1|] eqn:H1,
           (foldl tide_store ∅ events2 !! dt) as [m2|] eqn:H2.
  - f_equal. apply map_eq. intros key.
    by rewrite (Hinner events1 m1 H1), (Hinner events2 m2 H2).
  - destruct (proj1 Hsome) as [? ?]; [by eexists | done].
  - destruct (proj2 Hsome) as [? ?]; [by eexists | done].
  - done.
Qed.

(** When the feed has at most one entry for a date and a type, the grouped
    data, and with it the rendered details, do not depend on the order of
    the entries in the feed. *)
Theorem format_tide_data_permutation
    (raw_data_tides1 raw_data_tides2 : json) (items1 items2 : list json) :
  tide_summary raw_data_tides1 = Ok items1 ->
  tide_summary raw_data_tides2 = Ok items2 ->
  items1 ≡ₚ items2 ->
  readable items1 ->
  NoDup (map fst (tide_events items1)) ->
  exists data_tides,
    _format_tide_data raw_data_tides1 = Ok data_tides /\
    _format_tide_data raw_data_tides2 = Ok data_tides.
Proof.
  intros H1 H2 Hperm Hread Hnd.
  assert (readable items2) as Hread2 by (unfold readable; by rewrite <- Hperm).
  exists (foldl tide_store ∅ (tide_events items1)).
  split; [by apply format_tide_data_events|].
  rewrite (format_tide_data_events _ items2) by done. f_equal.
  apply foldl_tide_store_ext. intros dt key. symmetry.
  apply last_entry_permutation; [|done].
  unfold tide_events. by rewrite Hperm.
Qed.

(** ** The last sunrise and the last sunset *)

Lemma default_last_cons {A} (d x : A) l : default d (last (x :: l)) = default x (last l).
Proof. rewrite last_cons. by destruct (last l). Qed.

Lemma foldl_sun_assign_last reads st :
  foldl sun_assign st reads
  = (default (fst st) (last (times_of_type _KEY_SUNRISE reads)),
     default (snd st) (last (times_of_type _KEY_SUNSET reads))).
Proof.
  revert st. induction reads as [|r reads IH]; intros [sunrise sunset]; [done|].
  simpl. rewrite IH. unfold times_of_type. simpl.
  destruct r as [[[hour minute] ty]|]; simpl; [|done].
  destruct (py_eq_str ty _KEY_SUNRISE), (py_eq_str ty _KEY_SUNSET);
    by rewrite ?default_last_cons.
Qed.

Lemma datetime_datetime_not_time year month day hour minute :
  ~ (0 <= hour <= 23 /\ 0 <= minute <= 59) ->
  is_err (datetime_datetime year month day hour minute).
Proof.
  intros Hbad. destruct (datetime_datetime year month day hour minute) as [t|e] eqn:H.
  - apply datetime_datetime_inv in H as (_ & _ & _ & _ & Hh & Hm). by destruct Hbad.
  - by exists e.
Qed.

(** On a readable payload the sunrise is the time of the last Sunrise entry
    dated tomorrow and the sunset that of the last Sunset entry, each on
    tomorrow's date, and midnight for a type without entry. *)
Theorem format_sunphase_data_last_entry_wins
    (raw_data_tides : json) (items : list json) (reads : list (option (Z * Z * json)))
    (year month day : Z) (midnight : datetime) :
  _get_tomorrow_datetime_in_alaska_tz = (year, month, day) ->
  datetime_datetime year month day 0 0 = Ok midnight ->
  tide_summary raw_data_tides = Ok items ->
  Forall2 (fun datum r => sun_read (year, month, day) datum = Ok r) items reads ->
  time_of_day (last_time _KEY_SUNRISE reads) ->
  time_of_day (last_time _KEY_SUNSET reads) ->
  _format_sunphase_data raw_data_tides
  = Ok (Datetime year month day
          (fst (last_time _KEY_SUNRISE reads)) (snd (last_time _KEY_SUNRISE reads)),
        Datetime year month day
          (fst (last_time _KEY_SUNSET reads)) (snd (last_time _KEY_SUNSET reads))).
Proof.
  intros Hclock Hdate Hitems Hreads [Hrh Hrm] [Hsh Hsm].
  rewrite (format_sunphase_data_foldl _ _ _ _ _ _ Hclock Hitems Hreads).
  cbv zeta. rewrite foldl_sun_assign_last. simpl. fold (last_time _KEY_SUNRISE reads).
  fold (last_time _KEY_SUNSET reads).
  rewrite (datetime_datetime_time _ _ _ (fst (last_time _KEY_SUNRISE reads))
             (snd (last_time _KEY_SUNRISE reads)) midnight Hdate) by done.
  rewrite bind_Ok.
  rewrite (datetime_datetime_time _ _ _ (fst (last_time _KEY_SUNSET reads))
             (snd (last_time _KEY_SUNSET reads)) midnight Hdate) by done.
  done.
Qed.

(** When the last Sunrise or the last Sunset entry dated tomorrow carries
    an hour or a minute that is not a time of day, the function raises. *)
Theorem format_sunphase_data_bad_time
    (raw_data_tides : json) (items : list json) (reads : list (option (Z * Z * json)))
    (year month day : Z) :
  _get_tomorrow_datetime_in_alaska_tz = (year, month, day) ->
  tide_summary raw_data_tides = Ok items ->
  Forall2 (fun datum r => sun_read (year, month, day) datum = Ok r) items reads ->
  ~ time_of_day (last_time _KEY_SUNRISE reads) \/
  ~ time_of_day (last_time _KEY_SUNSET reads) ->
  is_err (_format_sunphase_data raw_data_tides).
Proof.
  intros Hclock Hitems Hreads Hbad.
  rewrite (format_sunphase_data_foldl _ _ _ _ _ _ Hclock Hitems Hreads).
  cbv zeta. rewrite foldl_sun_assign_last. simpl. fold (last_time _KEY_SUNRISE reads).
  fold (last_time _KEY_SUNSET reads).
  destruct (datetime_datetime year month day (fst (last_time _KEY_SUNRISE reads)) _)
    as [sunrise|e] eqn:Hrise; [|by exists e].
  rewrite bind_Ok.
  destruct (datetime_datetime year month day (fst (last_time _KEY_SUNSET reads)) _)
    as [sunset|e] eqn:Hset; [|by exists e].
  apply datetime_datetime_inv in Hrise as (_ & _ & _ & _ & Hrh & Hrm).
  apply datetime_datetime_inv in Hset as (_ & _ & _ & _ & Hsh & Hsm).
  destruct Hbad as [Hbad|Hbad]; by destruct Hbad.
Qed.

(** The first entry of the feed whose date, or whose time or type when it
    is dated tomorrow, cannot be read ends [_format_sunphase_data] with its
    exception, whatever the type of the entry. *)
Theorem format_sunphase_data_first_unreadable
    (raw_data_tides : json) (items pre post : list json) (bad : json)
    (reads : list (option (Z * Z * json))) (year month day : Z) (e : exn) :
  _get_tomorrow_datetime_in_alaska_tz = (year, month, day) ->
  tide_summary raw_data_tides = Ok items ->
  items = pre ++ bad :: post ->
  Forall2 (fun datum r => sun_read (year, month, day) datum = Ok r) pre reads ->
  sun_read (year, month, day) bad = Err e ->
  _format_sunphase_data raw_data_tides = Err e.
Proof.
  intros Hclock Hitems -> Hreads Hbad. unfold _format_sunphase_data.
  rewrite Hclock, Hitems, bind_Ok.
  rewrite for_each_app, (for_each_sunphase_body _ pre reads) by done. rewrite bind_Ok.
  simpl. rewrite sunphase_body_read_assign, Hbad. done.
Qed.

(** ** The daily report *)

Lemma daily_body_kachemak st raw_data_tides data_tides :
  _get_tide_data_from_weather_underground "kachemak_bay_seldovia" = Ok raw_data_tides ->
  _format_tide_data raw_data_tides = Ok data_tides ->
  daily_body st "kachemak_bay_seldovia"
  = Ok (DailyState (ds_sunphase st)
          (<["kachemak_bay_seldovia_detail" := _format_tide_detail_strings data_tides]>
             (ds_tide_string_details st))).
Proof.
  intros Hraw Hdata. unfold daily_body. rewrite Hraw, bind_Ok.
  change ("kachemak_bay_seldovia" =? "kenai_river")%string with false.
  cbv iota. rewrite bind_Ok, Hdata, bind_Ok. reflexivity.
Qed.

Lemma daily_body_kenai st raw_data_tides data_tides sunrise sunset :
  _get_tide_data_from_weather_underground "kenai_river" = Ok raw_data_tides ->
  _format_sunphase_data raw_data_tides = Ok (sunrise, sunset) ->
  _format_tide_data raw_data_tides = Ok data_tides ->
  daily_body st "kenai_river"
  = Ok (DailyState
          (Some (sunrise, sunset,
                 _get_total_daylight_hours_and_minutes (datetime_sub sunset sunrise)))
          (<["kenai_river_detail" := _format_tide_detail_strings data_tides]>
             (ds_tide_string_details st))).
Proof.
  intros Hraw Hsun Hdata. unfold daily_body. rewrite Hraw, bind_Ok.
  change ("kenai_river" =? "kenai_river")%string with true.
  cbv iota. rewrite Hsun, !bind_Ok, Hdata, bind_Ok. reflexivity.
Qed.

Lemma _STRING_TIDES_two kachemak kenai :
  _STRING_TIDES
    (<["kenai_river_detail" := kenai]> (<["kachemak_bay_seldovia_detail" := kachemak]> ∅))
  = Ok (NL +:+ "Tides" +:+ NL
        +:+ "  Kachemak Bay, Seldovia" +:+ NL +:+ kachemak +:+ NL
        +:+ "  Kenai River" +:+ NL +:+ kenai +:+ NL).
Proof.
  unfold _STRING_TIDES.
  rewrite lookup_insert_ne by (vm_compute; discriminate).
  rewrite !lookup_insert_eq. done.
Qed.

(** The daily report is the daylight of the Kenai River payload followed by
    the tide details of the two payloads, Kachemak Bay first.  The sunrise
    and sunset entries of the Kachemak Bay payload are not looked at. *)
Theorem get_sunphase_and_tides_composition
    (raw_kachemak raw_kenai : json)
    (tides_kachemak tides_kenai : gmap datetime (gmap string (gmap string json)))
    (sunrise sunset : datetime) :
  _get_tide_data_from_weather_underground "kachemak_bay_seldovia" = Ok raw_kachemak ->
  _format_tide_data raw_kachemak = Ok tides_kachemak ->
  _get_tide_data_from_weather_underground "kenai_river" = Ok raw_kenai ->
  _format_sunphase_data raw_kenai = Ok (sunrise, sunset) ->
  _format_tide_data raw_kenai = Ok tides_kenai ->
  get_sunphase_and_tides
  = Ok (_STRING_DAYLIGHT (dt_month sunrise) (dt_day sunrise)
          (dt_hour sunrise) (dt_minute sunrise) (dt_hour sunset) (dt_minute sunset)
          (fst (_get_total_daylight_hours_and_minutes (datetime_sub sunset sunrise)))
          (snd (_get_total_daylight_hours_and_minutes (datetime_sub sunset sunrise)))
        +:+ (NL +:+ "Tides" +:+ NL
             +:+ "  Kachemak Bay, Seldovia" +:+ NL
             +:+ _format_tide_detail_strings tides_kachemak +:+ NL
             +:+ "  Kenai River" +:+ NL
             +:+ _format_tide_detail_strings tides_kenai +:+ NL)).
Proof.
  intros Hraw1 Hdata1 Hraw2 Hsun Hdata2. unfold get_sunphase_and_tides. cbn [for_each].
  rewrite (daily_body_kachemak _ _ _ Hraw1 Hdata1), bind_Ok.
  rewrite (daily_body_kenai _ _ _ _ _ Hraw2 Hsun Hdata2), !bind_Ok.
  cbn [ds_sunphase ds_tide_string_details].
  destruct (_get_total_daylight_hours_and_minutes (datetime_sub sunset sunrise))
    as [daylight_hours daylight_minutes].
  rewrite _STRING_TIDES_two, bind_Ok. reflexivity.
Qed.

(** The daily report fails with the exception of the first step that
    fails, in the order: Kachemak Bay fetched, its tides grouped, Kenai
    River fetched, its sunrise and sunset extracted, its tides grouped.  No
    text is returned then. *)
Theorem get_sunphase_and_tides_propagates (e : exn) :
  _get_tide_data_from_weather_underground "kachemak_bay_seldovia" = Err e \/
  (exists raw_kachemak,
     _get_tide_data_from_weather_underground "kachemak_bay_seldovia" = Ok raw_kachemak /\
     (_format_tide_data raw_kachemak = Err e \/
      is_ok (_format_tide_data raw_kachemak) /\
      (_get_tide_data_from_weather_underground "kenai_river" = Err e \/
       exists raw_kenai,
         _get_tide_data_from_weather_underground "kenai_river" = Ok raw_kenai /\
         (_format_sunphase_data raw_kenai = Err e \/
          is_ok (_format_sunphase_data raw_kenai) /\
          _format_tide_data raw_kenai = Err e)))) ->
  get_sunphase_and_tides = Err e.
Proof.
  intros H. unfold get_sunphase_and_tides. cbn [for_each].
  destruct H as [H1 | (raw1 & Hraw1 & [H2 | ([d1 Hd1] & H)])].
  - unfold daily_body. by rewrite H1.
  - unfold daily_body. rewrite Hraw1, bind_Ok.
    change ("kachemak_bay_seldovia" =? "kenai_river")%string with false.
    cbv iota. by rewrite bind_Ok, H2.
  - rewrite (daily_body_kachemak _ _ _ Hraw1 Hd1), bind_Ok.
    destruct H as [H3 | (raw2 & Hraw2 & [H4 | ([[sunrise sunset] Hsun] & H5)])].
    + unfold daily_body. by rewrite H3.
    + unfold daily_body. rewrite Hraw2, bind_Ok.
      change ("kenai_river" =? "kenai_river")%string with true.
      cbv iota. by rewrite H4.
    + unfold daily_body. rewrite Hraw2, bind_Ok.
      change ("kenai_river" =? "kenai_river")%string with true.
      cbv iota. by rewrite Hsun, !bind_Ok, H5.
Qed.

(** ** The two-digit fields *)

Lemma fmt_02d_below_100 :
  forallb (fun k => String.eqb (fmt_02d (Z.of_nat k)) (two_digits (Z.of_nat k)))
    (seq 0 100) = true.
Proof. vm_compute. reflexivity. Qed.

Lemma fmt_02d_two_digits (n : Z) : 0 <= n <= 99 -> fmt_02d n = two_digits n.
Proof.
  intros Hn. pose proof fmt_02d_below_100 as H. rewrite forallb_forall in H.
  specialize (H (Z.to_nat n)). rewrite Z2Nat.id in H by lia.
  apply String.eqb_eq, H, in_seq. lia.
Qed.

Lemma days_in_month_le_31 year month : 1 <= month <= 12 -> _days_in_month year month <= 31.
Proof.
  intros Hm. unfold _days_in_month. destruct (_ && _); [lia|].
  assert (exists n : nat, (1 <= n <= 12)%nat /\ month = Z.of_nat n) as (n & Hn & ->)
    by (exists (Z.to_nat month); lia).
  rewrite Nat2Z.id. do 13 (destruct n as [|n]; [simpl; lia|]). lia.
Qed.

(** For a datetime the constructor accepts, the month, day, hour and minute
    fields of the templates are two decimal digits each, with a leading zero
    below 10. *)
Theorem datetime_fields_two_digits (t : datetime) :
  is_datetime t ->
  fmt_02d (dt_month t) = two_digits (dt_month t) /\
  fmt_02d (dt_day t) = two_digits (dt_day t) /\
  fmt_02d (dt_hour t) = two_digits (dt_hour t) /\
  fmt_02d (dt_minute t) = two_digits (dt_minute t).
Proof.
  intros H. apply datetime_datetime_inv in H as (_ & _ & Hmonth & Hday & Hhour & Hminute).
  pose proof (days_in_month_le_31 (dt_year t) (dt_month t) Hmonth).
  repeat split; apply fmt_02d_two_digits; lia.
Qed.

(** ** What a successful extraction of the forecast comes from *)

Lemma forecast_loop_inv items acc out :
  forecast_loop items acc = Ok out ->
  exists pre rest outs,
    items = pre ++ rest /\ Forall2 kept_as pre outs /\ out = acc ++ outs /\
    (rest = [] \/ exists datum rest', rest = datum :: rest' /\ period_is_4 datum).
Proof.
  revert acc. induction items as [|datum items IH]; intros acc H.
  - injection H as <-. exists [], [], [].
    split; [done|]. split; [constructor|]. split; [by rewrite app_nil_r | by left].
  - simpl in H. apply bind_Ok_inv in H as (period & Hp & H).
    destruct (py_eq_int period 4) eqn:H4.
    + injection H as <-. exists [], (datum :: items), [].
      split; [done|]. split; [constructor|]. split; [by rewrite app_nil_r|].
      right. exists datum, items. split; [done|]. by exists period.
    + apply bind_Ok_inv in H as (title & Ht & H).
      apply bind_Ok_inv in H as (fcttext & Hf & H).
      apply IH in H as (pre & rest & outs & -> & Hkept & -> & Hstop).
      exists (datum :: pre), rest, ((title, fcttext) :: outs).
      split; [done|]. split; [|split; [by rewrite <- app_assoc | done]].
      constructor; [|done]. split; [by exists period | done].
Qed.

(** Whenever the extraction returns, what it returns is the titles and
    texts of a prefix of the feed that holds no entry of period 4, and the
    feed ends there or goes on with an entry of period 4. *)
Theorem format_forecast_data_inversion
    (raw_data_forecast : json) (outs : list (json * json)) :
  _format_forecast_data raw_data_forecast = Ok outs ->
  exists items pre rest,
    forecastday raw_data_forecast = Ok items /\
    items = pre ++ rest /\
    Forall2 kept_as pre outs /\
    (rest = [] \/ exists datum rest', rest = datum :: rest' /\ period_is_4 datum).
Proof.
  unfold _format_forecast_data. intros H.
  apply bind_Ok_inv in H as (items & Hitems & H).
  apply forecast_loop_inv in H as (pre & rest & outs' & -> & Hkept & -> & Hstop).
  exists (pre ++ rest), pre, rest. done.
Qed.

(** ** Deciding the conditions on concrete payloads *)

Lemma substring_check (regions blocks : list string) :
  forallb (fun r => existsb (re_search r) blocks) regions = true ->
  forall r, r ∈ regions -> exists b, b ∈ blocks /\ substring r b.
Proof.
  intros H r Hr. rewrite forallb_forall in H.
  specialize (H r (proj1 (list_elem_of_In _ _) Hr)).
  apply existsb_exists in H as (b & Hb & Hs).
  exists b. split; [by apply list_elem_of_In | by apply re_search_spec].
Qed.

Lemma substring_absent (r : string) (blocks : list string) :
  existsb (re_search r) blocks = false ->
  forall b, b ∈ blocks -> ~ substring r b.
Proof.
  intros H b Hb Hsub. apply re_search_spec in Hsub.
  assert (existsb (re_search r) blocks = true); [|congruence].
  apply existsb_exists. exists b. split; [by apply list_elem_of_In | done].
Qed.

Lemma no_entry_of_typeb_spec key reads :
  no_entry_of_typeb key reads = true -> no_entry_of_type key reads.
Proof.
  intros H hour minute ty Hin ->. unfold no_entry_of_typeb in H.
  rewrite forallb_forall in H.
  specialize (H _ (proj1 (list_elem_of_In _ _) Hin)). simpl in H.
  by rewrite String.eqb_refl in H.
Qed.

Lemma times_of_dayb_spec reads : times_of_dayb reads = true -> times_of_day reads.
Proof.
  intros H hour minute ty Hin Hty. unfold times_of_dayb in H.
  rewrite forallb_forall in H.
  specialize (H _ (proj1 (list_elem_of_In _ _) Hin)). simpl in H.
  assert (py_eq_str ty _KEY_SUNRISE || py_eq_str ty _KEY_SUNSET = true) as Heq.
  { destruct Hty as [-> | ->]; reflexivity. }
  rewrite Heq in H. simpl in H.
  apply andb_true_iff in H as [Hh Hm].
  by apply in_range_spec in Hh, Hm.
Qed.

End Script.

Arguments JNull {pyfloat}.
Arguments JBool {pyfloat} b.
Arguments JInt {pyfloat} n.
Arguments JFloat {pyfloat} x.
Arguments JStr {pyfloat} s.
Arguments JList {pyfloat} items.
Arguments JDict {pyfloat} items.

(** ** The properties on the samples *)

Local Open Scope list_scope.

Lemma format_forecast_data_stops_at_period_4_witness :
  _format_forecast_data no_float no_float_eq_int
    (forecast_payload no_float (sample_forecast_days no_float))
  = Ok [(@JStr no_float "Monday", @JStr no_float "Partly cloudy. High 61F.");
        (JStr "Monday Night", JStr "Cloudy. Low 48F.");
        (JStr "Tuesday", JStr "Rain. High 57F.");
        (JStr "Tuesday Night", JStr "Showers. Low 47F.")] /\
  (periods_numbered no_float (sample_forecast_days no_float) ->
   (length [(@JStr no_float "Monday", @JStr no_float "Partly cloudy. High 61F.");
            (JStr "Monday Night", JStr "Cloudy. Low 48F.");
            (JStr "Tuesday", JStr "Rain. High 57F.");
            (JStr "Tuesday Night", JStr "Showers. Low 47F.")] <= 4)%nat).
Proof.
  apply (format_forecast_data_stops_at_period_4 no_float no_float_eq_int
           (forecast_payload no_float (sample_forecast_days no_float))
           (sample_forecast_days no_float)
           (firstn 4 (sample_forecast_days no_float))
           (skipn 4 (sample_forecast_days no_float))).
  - reflexivity.
  - reflexivity.
  - repeat (constructor;
            [split; [eexists; split; reflexivity | split; reflexivity] |]).
    constructor.
  - right. eexists _, _. split; [reflexivity|]. eexists. split; reflexivity.
Defined.

(** C1 without the numbering: a feed of five entries none of which has
    period 4 yields five entries. *)
Lemma format_forecast_data_more_than_4 :
  exists outs,
    _format_forecast_data no_float no_float_eq_int
      (forecast_payload no_float (forecast_days_without_4 no_float)) = Ok outs /\
    (4 < length outs)%nat.
Proof. eexists. split; [reflexivity | simpl; lia]. Qed.

Lemma get_marine_forecast_region_order_witness :
  exists chosen : list string,
    Forall2 (first_block_containing (re_split sample_marine_text))
      _ORDER_MARINE_FORECAST chosen /\
    get_marine_forecast sample_requests_get_text = Ok (join chosen).
Proof.
  destruct (get_marine_forecast_region_order sample_requests_get_text
              (re_split sample_marine_text)) as (chosen & Hfirst & _ & Hget).
  - apply substring_check. vm_compute. reflexivity.
  - exists chosen. split; [exact Hfirst|].
    apply (Hget sample_marine_text); reflexivity.
Defined.

Lemma get_marine_forecast_missing_region_witness :
  get_marine_forecast requests_without_shelikof = Err ValueError.
Proof.
  destruct (get_marine_forecast_missing_region requests_without_shelikof
              (re_split marine_text_without_shelikof) "SHELIKOF STRAIT") as [_ Hget].
  - unfold _ORDER_MARINE_FORECAST. do 3 apply list_elem_of_further. apply list_elem_of_here.
  - apply substring_absent. vm_compute. reflexivity.
  - apply (Hget marine_text_without_shelikof); reflexivity.
Defined.

Lemma daylight_hours_and_minutes_witness :
  _get_total_daylight_hours_and_minutes
    (datetime_sub (Datetime 2015 6 23 22 30) (Datetime 2015 6 23 6 0)) = (16, 30).
Proof.
  apply (daylight_hours_and_minutes (Datetime 2015 6 23 6 0) (Datetime 2015 6 23 22 30)).
  - reflexivity.
  - reflexivity.
  - unfold same_date. simpl. lia.
  - left. unfold datetime_lt. simpl. lia.
Defined.

Lemma tide_detail_missing_entry_XX_witness :
  tide_detail no_float no_float_str (sample_container_str no_float)
    (Datetime 2015 6 23 0 0)
    {[ "High Tide" := <[_KEY_HOUR := @JStr no_float "10"]>
                        (<[_KEY_MINUTE := JStr "31"]>
                           {[_KEY_TIDE_HEIGHT := JStr "16.02 ft"]}) ]}
  = "    06/23" +:+ NL
    +:+ "      High tide:  10:31 (16.02 ft)" +:+ NL
    +:+ "      Low tide:   XX:XX (XX)" +:+ NL.
Proof.
  destruct (tide_detail_missing_entry_XX no_float no_float_str
              (sample_container_str no_float) (sample_data_tides no_float)
              (Datetime 2015 6 23 0 0)
              {[ "High Tide" := <[_KEY_HOUR := @JStr no_float "10"]>
                                  (<[_KEY_MINUTE := JStr "31"]>
                                     {[_KEY_TIDE_HEIGHT := JStr "16.02 ft"]}) ]})
    as (_ & Hhigh & _).
  - vm_compute. reflexivity.
  - rewrite (Hhigh (<[_KEY_HOUR := @JStr no_float "10"]>
                      (<[_KEY_MINUTE := JStr "31"]>
                         {[_KEY_TIDE_HEIGHT := JStr "16.02 ft"]}))).
    + vm_compute. reflexivity.
    + vm_compute. reflexivity.
    + vm_compute. reflexivity.
Defined.

Lemma format_tide_data_grouped_and_sorted_witness :
  exists data_tides,
    _format_tide_data no_float no_float_int
      (tide_payload no_float (sample_tide_summary no_float)) = Ok data_tides /\
    exists dates : list datetime,
      StronglySorted datetime_lt dates /\
      (forall datetime_ak, datetime_ak ∈ dates <-> is_Some (data_tides !! datetime_ak)) /\
      tide_string_details no_float no_float_str (sample_container_str no_float) data_tides
      = map (fun datetime_ak =>
               tide_detail no_float no_float_str (sample_container_str no_float)
                 datetime_ak (default ∅ (data_tides !! datetime_ak))) dates.
Proof.
  destruct (format_tide_data_grouped_and_sorted no_float no_float_int no_float_str
              (sample_container_str no_float)
              (tide_payload no_float (sample_tide_summary no_float))
              (sample_tide_summary no_float) (sample_tide_reads no_float))
    as (data_tides & Hdata & _ & _ & _ & _ & Hsorted).
  - reflexivity.
  - repeat (constructor; [vm_compute; reflexivity|]). constructor.
  - exists data_tides. split; [exact Hdata | exact Hsorted].
Defined.

Lemma format_tide_data_last_entry_wins_witness :
  exists data_tides,
    _format_tide_data no_float no_float_int
      (tide_payload no_float (sample_tide_summary no_float)) = Ok data_tides /\
    tide_lookup no_float data_tides (Datetime 2015 6 22 0 0) "High Tide"
    = Some (<[_KEY_HOUR := JStr "21"]>
              (<[_KEY_MINUTE := JStr "55"]> {[_KEY_TIDE_HEIGHT := JStr "17.10 ft"]})).
Proof.
  destruct (format_tide_data_last_entry_wins no_float no_float_int
              (tide_payload no_float (sample_tide_summary no_float))
              (sample_tide_summary no_float) (sample_tide_reads no_float))
    as (data_tides & Hdata & Hlast & _).
  - reflexivity.
  - repeat (constructor; [vm_compute; reflexivity|]). constructor.
  - exists data_tides. split; [exact Hdata|].
    rewrite Hlast. vm_compute. reflexivity.
Defined.

Lemma current_temperature_padding_witness :
  get_current_temperature no_float (sample_format_f0 no_float) sample_key
    sample_requests_get_text (sample_json_loads no_float)
  = Ok (NL +:+ "Current temperature" +:+ NL
        +:+ "  Homer:          51" +:+ NL
        +:+ "  Anchor Point:   51" +:+ NL
        +:+ "  Ninilchik:      51" +:+ NL
        +:+ "  Seldovia:       51" +:+ NL
        +:+ "  Port Graham:    51" +:+ NL
        +:+ "  Nanwalek:       51" +:+ NL
        +:+ "  Kenai:          51" +:+ NL
        +:+ "  Soldotna:       51" +:+ NL
        +:+ "  Cooper Landing:  51" +:+ NL
        +:+ "  Anchorage:      51" +:+ NL
        +:+ NL).
Proof.
  destruct (current_temperature_padding no_float (sample_format_f0 no_float) sample_key
              sample_requests_get_text (sample_json_loads no_float))
    as (_ & _ & _ & _ & _ & _ & Hreport).
  rewrite (Hreport (replicate 10 "51")).
  - vm_compute. reflexivity.
  - repeat (constructor; [vm_compute; reflexivity|]). constructor.
Defined.

(** C7 as it is worded fails on the code: the padding being 14, the name of
    Homer is followed by its spaces, not preceded by them, and the field of
    Cooper Landing, the name with its colon, is 15 characters wide. *)
Lemma current_temperature_not_left_padded_to_14 :
  exists padding,
    string_padding = Ok padding /\ padding = 14%nat /\
    _STRING_CURRENT_TEMPERATURE_DETAIL ("Homer" +:+ ":") padding "51"
    = "  " +:+ ("Homer:" +:+ "        ") +:+ "  " +:+ "51" +:+ NL /\
    _STRING_CURRENT_TEMPERATURE_DETAIL ("Homer" +:+ ":") padding "51"
    <> "  " +:+ ("        " +:+ "Homer:") +:+ "  " +:+ "51" +:+ NL /\
    _STRING_CURRENT_TEMPERATURE_DETAIL ("Cooper Landing" +:+ ":") padding "51"
    = "  " +:+ "Cooper Landing:" +:+ "  " +:+ "51" +:+ NL /\
    String.length "Cooper Landing:" = 15%nat /\
    (padding < String.length "Cooper Landing:")%nat.
Proof.
  exists 14%nat. split; [reflexivity|]. split; [reflexivity|].
  split; [vm_compute; reflexivity|]. split; [vm_compute; discriminate|].
  split; [vm_compute; reflexivity|]. split; [reflexivity | simpl; lia].
Qed.

Lemma get_current_temperature_propagates_witness :
  exists before entry after e',
    _ORDER_CURRENT_TEMPERATURE = before ++ entry :: after /\
    Forall (fun entry =>
              is_ok (temperature_text no_float (sample_format_f0 no_float) sample_key
                       requests_failing_for_ninilchik (sample_json_loads no_float)
                       (fst entry))) before /\
    step_fails no_float (sample_format_f0 no_float) sample_key
      requests_failing_for_ninilchik (sample_json_loads no_float) (fst entry) e' /\
    get_current_temperature no_float (sample_format_f0 no_float) sample_key
      requests_failing_for_ninilchik (sample_json_loads no_float) = Err e' /\
    main no_float no_float_eq_int no_float_int no_float_str (sample_container_str no_float)
      (sample_format_f0 no_float) sample_key requests_failing_for_ninilchik
      (sample_json_loads no_float) sample_tomorrow current = Err e'.
Proof.
  apply (get_current_temperature_propagates no_float no_float_eq_int no_float_int
           no_float_str (sample_container_str no_float) (sample_format_f0 no_float)
           sample_key requests_failing_for_ninilchik (sample_json_loads no_float)
           sample_tomorrow "ninilchik" "Ninilchik" RequestException).
  - unfold _ORDER_CURRENT_TEMPERATURE. do 2 apply list_elem_of_further.
    apply list_elem_of_here.
  - right. exists "60.04638,-151.6672". split; [vm_compute; reflexivity|].
    left. vm_compute. reflexivity.
Defined.

Lemma format_sunphase_data_defaults_to_midnight_witness :
  _format_sunphase_data no_float no_float_int sample_tomorrow
    (tide_payload no_float (sample_tide_summary no_float))
  = Ok (Datetime 2015 6 23 0 0, Datetime 2015 6 23 0 0) /\
  _get_total_daylight_hours_and_minutes
    (datetime_sub (Datetime 2015 6 23 0 0) (Datetime 2015 6 23 0 0)) = (0, 0).
Proof.
  destruct (format_sunphase_data_defaults_to_midnight no_float no_float_int no_float_str
              (sample_container_str no_float) sample_key sample_requests_get_text
              (sample_json_loads no_float) sample_tomorrow
              (tide_payload no_float (sample_tide_summary no_float))
              (sample_tide_summary no_float) (sample_sun_reads no_float)
              2015 6 23 (Datetime 2015 6 23 0 0))
    as (_ & _ & Hboth).
  - reflexivity.
  - reflexivity.
  - reflexivity.
  - repeat (constructor; [vm_compute; reflexivity|]). constructor.
  - apply times_of_dayb_spec. vm_compute. reflexivity.
  - destruct Hboth as (Hformat & Hdaylight & _).
    + apply no_entry_of_typeb_spec. vm_compute. reflexivity.
    + apply no_entry_of_typeb_spec. vm_compute. reflexivity.
    + split; [exact Hformat | exact Hdaylight].
Defined.

(** ** The embedding on small inputs *)

(** The region names contain capital letters and spaces only, so that
    searching for one as a regular expression is searching for it as a
    substring. *)
Example regions_are_literal : forallb literal_pattern _ORDER_MARINE_FORECAST = true.
Proof. reflexivity. Qed.

Example re_split_leftmost : re_split "a$$b$$$c" = ["a"; "b"; "$c"].
Proof. reflexivity. Qed.

Example int_of_str_samples :
  int_of_str "06" = Ok 6 /\ int_of_str " -1_000 " = Ok (-1000) /\
  int_of_str EmptyString = Err ValueError /\ int_of_str "4.0" = Err ValueError.
Proof. repeat split; reflexivity. Qed.

Example fmt_02d_samples : fmt_02d 6 = "06" /\ fmt_02d 12 = "12" /\ fmt_02d 0 = "00".
Proof. repeat split; vm_compute; reflexivity. Qed.

Example datetime_datetime_samples :
  datetime_datetime 2015 2 29 0 0 = Err ValueError /\
  datetime_datetime 2016 2 29 0 0 = Ok (Datetime 2016 2 29 0 0) /\
  datetime_datetime 2015 6 23 24 0 = Err ValueError /\
  toordinal (Datetime 2015 6 23 0 0) = 735772.
Proof. repeat split; vm_compute; reflexivity. Qed.

(** A sunset that is missing while the sunrise is not gives a negative
    difference: the hours are truncated towards zero and the minutes are
    floored. *)
Example daylight_of_missing_sunset :
  _get_total_daylight_hours_and_minutes
    (datetime_sub (Datetime 2015 6 23 0 0) (Datetime 2015 6 23 6 30)) = (-6, 30).
Proof. vm_compute. reflexivity. Qed.

(** The details of the sample data set: the dates in ascending order, the
    last high tide of the 22nd, and XX for the low tide of the 23rd. *)
Example format_tide_detail_strings_sample :
  _format_tide_detail_strings no_float no_float_str (sample_container_str no_float)
    (sample_data_tides no_float)
  = "    06/22" +:+ NL
    +:+ "      High tide:  21:55 (17.10 ft)" +:+ NL
    +:+ "      Low tide:   03:12 (1.20 ft)" +:+ NL
    +:+ "    06/23" +:+ NL
    +:+ "      High tide:  10:31 (16.02 ft)" +:+ NL
    +:+ "      Low tide:   XX:XX (XX)" +:+ NL.
Proof. vm_compute. reflexivity. Qed.

Example get_marine_forecast_sample :
  get_marine_forecast sample_requests_get_text
  = Ok ("PKZ141 KACHEMAK BAY. SW WIND 10 KT. SEAS 2 FT."
        +:+ "PKZ140 COOK INLET NORTH OF KALGIN ISLAND. N WIND 10 KT."
        +:+ "PKZ139 COOK INLET KALGIN ISLAND TO POINT BEDE. S WIND 15 KT."
        +:+ "PKZ138 SHELIKOF STRAIT. NE WIND 20 KT. SEAS 5 FT."
        +:+ "PKZ131 BARREN ISLANDS EAST. E WIND 15 KT."
        +:+ "PKZ130 WEST OF BARREN ISLANDS INCLUDING KAMISHAK BAY. W WIND 15 KT."
        +:+ "PKZ120 CAPE CLEARE TO GORE POINT. E WIND 25 KT. SEAS 8 FT.").
Proof. vm_compute. reflexivity. Qed.

(** ** The report and the network *)

(** The current-temperature report looks at the network only through the
    conditions requests of the ten locations: two networks that answer these
    alike give the same report. *)
Theorem get_current_temperature_network
    (pyfloat : Type) (format_f0 : json pyfloat -> result string) (_KEY : string)
    (json_loads : string -> result (json pyfloat))
    (requests1 requests2 : string -> result string) :
  (forall location city query,
     (location, city) ∈ _ORDER_CURRENT_TEMPERATURE ->
     _LATLONS !! location = Some query ->
     requests1 (_URL_WU_API_BASE _KEY "conditions" query)
     = requests2 (_URL_WU_API_BASE _KEY "conditions" query)) ->
  get_current_temperature pyfloat format_f0 _KEY requests1 json_loads
  = get_current_temperature pyfloat format_f0 _KEY requests2 json_loads.
Proof.
  intros Hsame. unfold get_current_temperature.
  destruct string_padding as [padding|]; [|done]. rewrite !bind_Ok.
  f_equal. apply for_each_ext. intros acc [location city] Hin.
  rewrite !current_temperature_body_appends. f_equal.
  unfold temperature_text, _get_current_temperature_data_from_weather_underground, latlon.
  cbn [fst snd]. destruct (_LATLONS !! location) as [query|] eqn:Hquery; [|done].
  rewrite !bind_Ok. by rewrite (Hsame location city query).
Qed.

(** ** The further properties on the samples *)

Lemma sample_tide_data_grouped :
  _format_tide_data no_float no_float_int
    (tide_payload no_float (sample_tide_summary no_float))
  = Ok (sample_data_tides no_float).
Proof.
  apply (format_tide_data_foldl no_float no_float_int _ (sample_tide_summary no_float)
           (sample_tide_reads no_float)).
  - reflexivity.
  - repeat (constructor; [vm_compute; reflexivity|]). constructor.
Qed.

Lemma daylight_of_any_difference_witness :
  _get_total_daylight_hours_and_minutes
    (datetime_sub (Datetime 2015 6 23 0 0) (Datetime 2015 6 22 6 30)) = (17, 30) /\
  _get_total_daylight_hours_and_minutes
    (datetime_sub (Datetime 2015 6 22 6 30) (Datetime 2015 6 23 0 0)) = (-17, 30).
Proof.
  split.
  - exact (proj1 (daylight_of_any_difference
                    (Datetime 2015 6 23 0 0) (Datetime 2015 6 22 6 30))).
  - exact (proj1 (daylight_of_any_difference
                    (Datetime 2015 6 22 6 30) (Datetime 2015 6 23 0 0))).
Defined.

Lemma order_marine_forecast_permutation_witness :
  order_marine_forecast (re_split sample_marine_text)
  = order_marine_forecast (reverse (re_split sample_marine_text)).
Proof.
  apply (order_marine_forecast_permutation (re_split sample_marine_text)
           (reverse (re_split sample_marine_text))).
  - symmetry. apply reverse_Permutation.
  - apply one_block_per_regionb_spec. vm_compute. reflexivity.
Defined.

Lemma format_forecast_data_first_bad_entry_witness :
  _format_forecast_data no_float no_float_eq_int
    (forecast_payload no_float (forecast_days_missing_title no_float)) = Err KeyError.
Proof.
  apply (format_forecast_data_first_bad_entry no_float no_float_eq_int
           (forecast_payload no_float (forecast_days_missing_title no_float))
           (forecast_days_missing_title no_float)
           (firstn 1 (forecast_days_missing_title no_float))
           (skipn 2 (forecast_days_missing_title no_float))
           (JDict [("period", JInt 1); ("fcttext", JStr "Cloudy. Low 48F.")])
           [(JStr "Monday", JStr "Partly cloudy. High 61F.")]).
  - reflexivity.
  - reflexivity.
  - constructor; [|constructor].
    split; [eexists; split; reflexivity | split; reflexivity].
  - right. eexists. split; [reflexivity|]. split; [reflexivity|]. left. reflexivity.
Defined.

Lemma format_forecast_data_inversion_witness :
  exists items pre rest,
    forecastday no_float (forecast_payload no_float (sample_forecast_days no_float))
    = Ok items /\
    items = pre ++ rest /\
    Forall2 (kept_as no_float no_float_eq_int) pre
      [(@JStr no_float "Monday", @JStr no_float "Partly cloudy. High 61F.");
       (JStr "Monday Night", JStr "Cloudy. Low 48F.");
       (JStr "Tuesday", JStr "Rain. High 57F.");
       (JStr "Tuesday Night", JStr "Showers. Low 47F.")] /\
    (rest = [] \/
     exists datum rest', rest = datum :: rest' /\ period_is_4 no_float no_float_eq_int datum).
Proof.
  apply (format_forecast_data_inversion no_float no_float_eq_int
           (forecast_payload no_float (sample_forecast_days no_float))).
  reflexivity.
Defined.

Lemma get_forecast_composition_witness :
  get_forecast no_float no_float_eq_int no_float_str (sample_container_str no_float)
    sample_key sample_requests_with_forecast (sample_json_loads_with_forecast no_float)
  = Ok (NL +:+ "Forecast" +:+ NL
        +:+ "  Western Kenai Peninsula" +:+ NL
        +:+ "    Monday:  Partly cloudy. High 61F." +:+ NL
        +:+ "    Monday Night:  Cloudy. Low 48F." +:+ NL
        +:+ "    Tuesday:  Rain. High 57F." +:+ NL
        +:+ "    Tuesday Night:  Showers. Low 47F." +:+ NL
        +:+ NL
        +:+ "  Anchorage" +:+ NL
        +:+ "    Monday:  Partly cloudy. High 61F." +:+ NL
        +:+ "    Monday Night:  Cloudy. Low 48F." +:+ NL
        +:+ "    Tuesday:  Rain. High 57F." +:+ NL
        +:+ "    Tuesday Night:  Showers. Low 47F." +:+ NL
        +:+ NL).
Proof.
  destruct (get_forecast_composition no_float no_float_eq_int no_float_str
              (sample_container_str no_float) sample_key sample_requests_with_forecast
              (sample_json_loads_with_forecast no_float)) as (Hok & _ & _).
  rewrite (Hok [(JStr "Monday", JStr "Partly cloudy. High 61F.");
                (JStr "Monday Night", JStr "Cloudy. Low 48F.");
                (JStr "Tuesday", JStr "Rain. High 57F.");
                (JStr "Tuesday Night", JStr "Showers. Low 47F.")]
               [(JStr "Monday", JStr "Partly cloudy. High 61F.");
                (JStr "Monday Night", JStr "Cloudy. Low 48F.");
                (JStr "Tuesday", JStr "Rain. High 57F.");
                (JStr "Tuesday Night", JStr "Showers. Low 47F.")]).
  - vm_compute. reflexivity.
  - vm_compute. reflexivity.
  - vm_compute. reflexivity.
Defined.

Lemma format_tide_data_first_unreadable_witness :
  _format_tide_data no_float no_float_int
    (tide_payload no_float (tide_summary_with_bad_date no_float)) = Err ValueError.
Proof.
  apply (format_tide_data_first_unreadable no_float no_float_int
           (tide_payload no_float (tide_summary_with_bad_date no_float))
           (tide_summary_with_bad_date no_float)
           (firstn 1 (tide_summary_with_bad_date no_float))
           (skipn 2 (tide_summary_with_bad_date no_float))
           (tide_datum no_float "Low Tide" "2015" "06" "31" "03" "12" "1.20 ft")).
  - reflexivity.
  - reflexivity.
  - constructor; [|constructor]. eexists. vm_compute. reflexivity.
  - vm_compute. reflexivity.
Defined.

Lemma format_tide_data_invariant_witness :
  tide_data_invariant no_float (sample_data_tides no_float).
Proof.
  apply (format_tide_data_invariant no_float no_float_int
           (tide_payload no_float (sample_tide_summary no_float))).
  apply sample_tide_data_grouped.
Defined.

Lemma tide_detail_of_both_tides_witness :
  exists high_hour high_minute high_height low_hour low_minute low_height,
    (<["High Tide" := tide_entry no_float (JStr "21") (JStr "55") (JStr "17.10 ft")]>
       {["Low Tide" := tide_entry no_float (JStr "03") (JStr "12") (JStr "1.20 ft")]}
     : gmap string (gmap string (json no_float))) !! _KEY_TIDE_HIGH
    = Some (tide_entry no_float high_hour high_minute high_height) /\
    (<["High Tide" := tide_entry no_float (JStr "21") (JStr "55") (JStr "17.10 ft")]>
       {["Low Tide" := tide_entry no_float (JStr "03") (JStr "12") (JStr "1.20 ft")]}
     : gmap string (gmap string (json no_float))) !! _KEY_TIDE_LOW
    = Some (tide_entry no_float low_hour low_minute low_height) /\
    tide_detail no_float no_float_str (sample_container_str no_float)
      (Datetime 2015 6 22 0 0)
      (<["High Tide" := tide_entry no_float (JStr "21") (JStr "55") (JStr "17.10 ft")]>
         {["Low Tide" := tide_entry no_float (JStr "03") (JStr "12") (JStr "1.20 ft")]})
    = _STRING_TIDES_DETAIL 6 22
        (py_str no_float no_float_str (sample_container_str no_float) high_hour)
        (py_str no_float no_float_str (sample_container_str no_float) high_minute)
        (py_str no_float no_float_str (sample_container_str no_float) high_height)
        (py_str no_float no_float_str (sample_container_str no_float) low_hour)
        (py_str no_float no_float_str (sample_container_str no_float) low_minute)
        (py_str no_float no_float_str (sample_container_str no_float) low_height).
Proof.
  apply (tide_detail_of_both_tides no_float no_float_int no_float_str
           (sample_container_str no_float)
           (tide_payload no_float (sample_tide_summary no_float))
           (sample_data_tides no_float) (Datetime 2015 6 22 0 0)).
  - apply sample_tide_data_grouped.
  - vm_compute. reflexivity.
  - exists (tide_entry no_float (JStr "21") (JStr "55") (JStr "17.10 ft")).
    vm_compute. reflexivity.
  - exists (tide_entry no_float (JStr "03") (JStr "12") (JStr "1.20 ft")).
    vm_compute. reflexivity.
Defined.

Lemma format_tide_data_permutation_witness :
  exists data_tides,
    _format_tide_data no_float no_float_int
      (tide_payload no_float (tide_summary_distinct no_float)) = Ok data_tides /\
    _format_tide_data no_float no_float_int
      (tide_payload no_float (reverse (tide_summary_distinct no_float))) = Ok data_tides.
Proof.
  apply (format_tide_data_permutation no_float no_float_int
           (tide_payload no_float (tide_summary_distinct no_float))
           (tide_payload no_float (reverse (tide_summary_distinct no_float)))
           (tide_summary_distinct no_float)
           (reverse (tide_summary_distinct no_float))).
  - reflexivity.
  - reflexivity.
  - symmetry. apply reverse_Permutation.
  - repeat (constructor; [eexists; vm_compute; reflexivity|]). constructor.
  - apply (bool_decide_unpack _). vm_compute. exact I.
Defined.

Lemma format_sunphase_data_last_entry_wins_witness :
  _format_sunphase_data no_float no_float_int sample_tomorrow
    (tide_payload no_float (sample_sun_summary no_float))
  = Ok (Datetime 2015 6 23 4 36, Datetime 2015 6 23 23 37).
Proof.
  apply (format_sunphase_data_last_entry_wins no_float no_float_int sample_tomorrow
           (tide_payload no_float (sample_sun_summary no_float))
           (sample_sun_summary no_float) (sample_sun_summary_reads no_float)
           2015 6 23 (Datetime 2015 6 23 0 0)).
  - reflexivity.
  - reflexivity.
  - reflexivity.
  - repeat (constructor; [vm_compute; reflexivity|]). constructor.
  - unfold time_of_day. vm_compute. repeat split; discriminate.
  - unfold time_of_day. vm_compute. repeat split; discriminate.
Defined.

Lemma format_sunphase_data_bad_time_witness :
  is_err (_format_sunphase_data no_float no_float_int sample_tomorrow
            (tide_payload no_float (sun_summary_with_hour_24 no_float))).
Proof.
  apply (format_sunphase_data_bad_time no_float no_float_int sample_tomorrow
           (tide_payload no_float (sun_summary_with_hour_24 no_float))
           (sun_summary_with_hour_24 no_float)
           [Some (24, 0, JStr "Sunrise"); Some (23, 37, JStr "Sunset")]
           2015 6 23).
  - reflexivity.
  - reflexivity.
  - repeat (constructor; [vm_compute; reflexivity|]). constructor.
  - left. unfold time_of_day. vm_compute. intros [[_ H] _]. apply H. reflexivity.
Defined.

Lemma format_sunphase_data_first_unreadable_witness :
  _format_sunphase_data no_float no_float_int sample_tomorrow
    (tide_payload no_float (sun_summary_without_date no_float)) = Err KeyError.
Proof.
  apply (format_sunphase_data_first_unreadable no_float no_float_int sample_tomorrow
           (tide_payload no_float (sun_summary_without_date no_float))
           (sun_summary_without_date no_float)
           (firstn 1 (sun_summary_without_date no_float))
           (skipn 2 (sun_summary_without_date no_float))
           (JDict [("data", JDict [("height", JStr "1.20 ft"); ("type", JStr "Low Tide")])])
           [Some (4, 35, JStr "Sunrise")] 2015 6 23).
  - reflexivity.
  - reflexivity.
  - reflexivity.
  - constructor; [vm_compute; reflexivity | constructor].
  - reflexivity.
Defined.

Lemma get_sunphase_and_tides_composition_witness :
  get_sunphase_and_tides no_float no_float_int no_float_str (sample_container_str no_float)
    sample_key sample_requests_get_text (sample_json_loads no_float) sample_tomorrow
  = Ok (NL +:+ "Daylight 06/23" +:+ NL
        +:+ "  Sunrise:  00:00" +:+ NL
        +:+ "  Sunset:   00:00" +:+ NL
        +:+ "  Total:    0 hours and 0 minutes" +:+ NL
        +:+ NL +:+ NL
        +:+ "Tides" +:+ NL
        +:+ "  Kachemak Bay, Seldovia" +:+ NL
        +:+ "    06/22" +:+ NL
        +:+ "      High tide:  21:55 (17.10 ft)" +:+ NL
        +:+ "      Low tide:   03:12 (1.20 ft)" +:+ NL
        +:+ "    06/23" +:+ NL
        +:+ "      High tide:  10:31 (16.02 ft)" +:+ NL
        +:+ "      Low tide:   XX:XX (XX)" +:+ NL
        +:+ NL
        +:+ "  Kenai River" +:+ NL
        +:+ "    06/22" +:+ NL
        +:+ "      High tide:  21:55 (17.10 ft)" +:+ NL
        +:+ "      Low tide:   03:12 (1.20 ft)" +:+ NL
        +:+ "    06/23" +:+ NL
        +:+ "      High tide:  10:31 (16.02 ft)" +:+ NL
        +:+ "      Low tide:   XX:XX (XX)" +:+ NL
        +:+ NL).
Proof.
  rewrite (get_sunphase_and_tides_composition no_float no_float_int no_float_str
             (sample_container_str no_float) sample_key sample_requests_get_text
             (sample_json_loads no_float) sample_tomorrow
             (tide_payload no_float (sample_tide_summary no_float))
             (tide_payload no_float (sample_tide_summary no_float))
             (sample_data_tides no_float) (sample_data_tides no_float)
             (Datetime 2015 6 23 0 0) (Datetime 2015 6 23 0 0)).
  - vm_compute. reflexivity.
  - vm_compute. reflexivity.
  - apply sample_tide_data_grouped.
  - vm_compute. reflexivity.
  - vm_compute. reflexivity.
  - apply sample_tide_data_grouped.
Defined.

Lemma get_sunphase_and_tides_propagates_witness :
  get_sunphase_and_tides no_float no_float_int no_float_str (sample_container_str no_float)
    sample_key requests_failing_for_kenai_river (sample_json_loads no_float)
    sample_tomorrow
  = Err RequestException.
Proof.
  apply (get_sunphase_and_tides_propagates no_float no_float_int no_float_str
           (sample_container_str no_float) sample_key requests_failing_for_kenai_river
           (sample_json_loads no_float) sample_tomorrow RequestException).
  right. exists (tide_payload no_float (sample_tide_summary no_float)).
  split; [vm_compute; reflexivity|]. right.
  split; [exists (sample_data_tides no_float); apply sample_tide_data_grouped|].
  left. vm_compute. reflexivity.
Defined.

Lemma datetime_fields_two_digits_witness :
  fmt_02d 6 = "06" /\ fmt_02d 3 = "03" /\ fmt_02d 4 = "04" /\ fmt_02d 59 = "59".
Proof.
  exact (datetime_fields_two_digits (Datetime 2015 6 3 4 59) eq_refl).
Defined.

Lemma get_current_temperature_network_witness :
  get_current_temperature no_float (sample_format_f0 no_float) sample_key
    sample_requests_get_text (sample_json_loads no_float)
  = get_current_temperature no_float (sample_format_f0 no_float) sample_key
      requests_without_shelikof (sample_json_loads no_float).
Proof.
  apply (get_current_temperature_network no_float (sample_format_f0 no_float) sample_key
           (sample_json_loads no_float) sample_requests_get_text requests_without_shelikof).
  intros location city query Hin Hquery. unfold _ORDER_CURRENT_TEMPERATURE in Hin.
  repeat (apply elem_of_cons in Hin as [Hin|Hin];
          [injection Hin as -> ->; vm_compute in Hquery; injection Hquery as <-;
           vm_compute; reflexivity|]).
  by apply elem_of_nil in Hin.
Defined.
